(** * American Pizza backend: offers, sales reports and receipts

    A shallow embedding of the offer routes ([routes/offerRoutes.js]), of
    the [Offer] schema ([models/Offer.js]), and of the sales report and the
    receipt template [generateOrderPDF] (both found in [models/Product.js],
    after the product schema), with the properties the specification states
    about them.  The embedding comes first, then the vocabulary of the
    properties, then the properties.  The sales statistics, the document of
    the sales report, the product schema and routes (all in
    [models/Product.js] as well), the upload filter ([middleware/upload.js])
    and the CORS origin checks of the two servers follow the vocabulary,
    and their properties the first ones.

    Conventions of the embedding:
    - a JavaScript string is a [string] of 8-bit characters; [toUpperCase]
      and [trim] act on the ASCII letters and the ASCII white space;
    - a JavaScript number is [NaN], an infinity or the rational value of
      a double; the sums, differences, products and quotients of the code
      and [parseFloat] round to the nearest double, ties to even
      ([round64]), and the two zeros are one;
    - a [Date] is its time value, an integer number of milliseconds on the
      local civil time line (a fixed offset from UTC, no daylight saving
      shifts), and an invalid date is [None];
    - a collection of the document store is the list of its documents, a
      handler takes the collection and returns its answer with the new
      collection; requests are served one after the other, and a store that
      cannot be reached (the 500 answer of the outer [catch]) is not
      represented, nor is what the image host keeps;
    - the [:id] of a path is a text, which mongoose casts to an ObjectId
      or refuses: the handlers by id are written for an id that was cast
      ([get_offer], [put_offer], [delete_offer]), and the routes
      ([get_offer_route], [put_offer_route], [delete_offer_route]) cast
      the text first. *)

From Stdlib Require Import ZArith QArith Qpower Qround Qabs List Bool Ascii String Lia.
From Stdlib Require Import Permutation DecimalString DecimalN DecimalPos Lqa Sorted.
Import ListNotations.

Local Open Scope string_scope.
Local Open Scope Z_scope.

(** ** JavaScript numbers *)

Inductive number : Type :=
| NaN
| Fin (q : Q)
| PosInf
| NegInf.

(** [a < b] and [a > b] of JavaScript: false as soon as one side is [NaN]. *)
Definition num_ltb (a b : number) : bool :=
  match a, b with
  | NaN, _ | _, NaN => false
  | Fin x, Fin y => negb (Qle_bool y x)
  | Fin _, PosInf => true
  | NegInf, Fin _ => true
  | NegInf, PosInf => true
  | _, _ => false
  end.

Definition num_gtb (a b : number) : bool := num_ltb b a.

Definition isNaN (a : number) : bool :=
  match a with NaN => true | _ => false end.

(** Equality of numbers up to the representation of the rational. *)
Definition num_eq (a b : number) : Prop :=
  match a, b with
  | NaN, NaN => True
  | Fin x, Fin y => (x == y)%Q
  | PosInf, PosInf => True
  | NegInf, NegInf => True
  | _, _ => False
  end.

(** Strict equality of two numbers. *)
Definition num_eqb (a b : number) : bool :=
  match a, b with
  | Fin x, Fin y => Qeq_bool x y
  | PosInf, PosInf => true
  | NegInf, NegInf => true
  | _, _ => false
  end.

(** ** Doubles

    The finite doubles are the rationals [m * 2 ^ e] with [|m| < 2 ^ 53]
    and [-1074 <= e <= 971].  [round64] is the rounding of IEEE 754
    binary64 to the nearest double, ties to the even significand; a
    result of magnitude [2 ^ 1024] or more is an infinity. *)

(** The integer nearest to [q], the even one of two. *)
Definition rne (q : Q) : Z :=
  let f := Qfloor q in
  match (q - inject_Z f ?= 1 # 2)%Q with
  | Lt => f
  | Gt => f + 1
  | Eq => if Z.even f then f else f + 1
  end.

(** The exponent [e] with [2 ^ e <= x < 2 ^ (e + 1)], for [x > 0]. *)
Definition Qlog2 (x : Q) : Z :=
  let e := Z.log2 (Qnum x) - Z.log2 (Zpos (Qden x)) in
  if Qle_bool (Qpower 2 e) x then e else e - 1.

(** The spacing of the doubles around [x] is [2 ^ e], 52 binary places
    below the leading one and never finer than [2 ^ -1074]. *)
Definition round64 (x : Q) : number :=
  if Qeq_bool x 0 then Fin 0
  else
    let a := Qabs x in
    let e := Z.max (Qlog2 a - 52) (-1074) in
    let v := (inject_Z (rne (a / Qpower 2 e)) * Qpower 2 e)%Q in
    if Qle_bool (Qpower 2 1024) v then (if Qnum x <? 0 then NegInf else PosInf)
    else Fin (Qred (if Qnum x <? 0 then - v else v)).

(** [a + b] *)
Definition num_add (a b : number) : number :=
  match a, b with
  | NaN, _ | _, NaN => NaN
  | Fin x, Fin y => round64 (x + y)
  | PosInf, NegInf | NegInf, PosInf => NaN
  | PosInf, _ | _, PosInf => PosInf
  | NegInf, _ | _, NegInf => NegInf
  end.

(** [a - b] *)
Definition num_sub (a b : number) : number :=
  match a, b with
  | NaN, _ | _, NaN => NaN
  | Fin x, Fin y => round64 (x - y)
  | PosInf, PosInf | NegInf, NegInf => NaN
  | PosInf, _ | _, NegInf => PosInf
  | NegInf, _ | _, PosInf => NegInf
  end.

(** The sign of a number that is neither [NaN] nor 0. *)
Definition num_negative (a : number) : bool :=
  match a with
  | Fin x => Qnum x <? 0
  | NegInf => true
  | _ => false
  end.

Definition num_zero (a : number) : bool :=
  match a with Fin x => Qeq_bool x 0 | _ => false end.

(** [a * b]: 0 times an infinity is [NaN]. *)
Definition num_mul (a b : number) : number :=
  match a, b with
  | NaN, _ | _, NaN => NaN
  | Fin x, Fin y => round64 (x * y)
  | _, _ =>
      if num_zero a || num_zero b then NaN
      else if xorb (num_negative a) (num_negative b) then NegInf else PosInf
  end.

(** [a / b]; the zero of the model is [+0], as the length of an array is,
    so the quotient by it has the sign of [a]. *)
Definition num_div (a b : number) : number :=
  match a, b with
  | NaN, _ | _, NaN => NaN
  | Fin x, Fin y =>
      if Qeq_bool y 0 then
        if Qeq_bool x 0 then NaN
        else if Qnum x <? 0 then NegInf else PosInf
      else round64 (x / y)
  | Fin _, _ => Fin 0
  | _, Fin _ => if xorb (num_negative a) (num_negative b) then NegInf else PosInf
  | _, _ => NaN
  end.

(** The number a count is. *)
Definition num_of_nat (n : nat) : number := Fin (inject_Z (Z.of_nat n)).

(** A number field of a stored document as JavaScript reads it: the
    double nearest to the decimal the record gives, which is that decimal
    when it is the value of a double. *)
Definition amount (q : Q) : number := round64 q.

(** ** Characters and strings *)

Definition is_digit (c : ascii) : bool :=
  let n := nat_of_ascii c in (48 <=? n)%nat && (n <=? 57)%nat.

Definition digit_val (c : ascii) : Z := Z.of_nat (nat_of_ascii c) - 48.

(** White space skipped by [trim] and by [parseFloat]: TAB, LF, VT, FF, CR
    and the space. *)
Definition is_space (c : ascii) : bool :=
  let n := nat_of_ascii c in
  ((9 <=? n)%nat && (n <=? 13)%nat) || (n =? 32)%nat.

Fixpoint trimStart (s : string) : string :=
  match s with
  | String c r => if is_space c then trimStart r else s
  | EmptyString => EmptyString
  end.

Fixpoint rev_string (s acc : string) : string :=
  match s with
  | String c r => rev_string r (String c acc)
  | EmptyString => acc
  end.

Definition trimEnd (s : string) : string :=
  rev_string (trimStart (rev_string s "")) "".

Definition trim (s : string) : string := trimEnd (trimStart s).

Definition upper_char (c : ascii) : ascii :=
  let n := nat_of_ascii c in
  if (97 <=? n)%nat && (n <=? 122)%nat then ascii_of_nat (n - 32) else c.

Fixpoint toUpperCase (s : string) : string :=
  match s with
  | String c r => String (upper_char c) (toUpperCase r)
  | EmptyString => EmptyString
  end.

Fixpoint starts_with (p s : string) : bool :=
  match p, s with
  | EmptyString, _ => true
  | String a p', String b s' => Ascii.eqb a b && starts_with p' s'
  | String _ _, EmptyString => false
  end.

(** ** [parseFloat] *)

(** The longest run of decimal digits at the head of [s]: its value on top
    of [acc], the number of digits read on top of [cnt], and the rest. *)
Fixpoint read_digits (s : string) (acc : Z) (cnt : nat) : Z * nat * string :=
  match s with
  | String c r =>
      if is_digit c then read_digits r (10 * acc + digit_val c) (S cnt)
      else (acc, cnt, s)
  | EmptyString => (acc, cnt, s)
  end.

(** The exponent part [e±ddd]; it counts only when a digit follows. *)
Definition read_exponent (s : string) : Z :=
  match s with
  | String c r =>
      if Ascii.eqb c "e" || Ascii.eqb c "E" then
        let '(neg, r') :=
          match r with
          | String "-" t => (true, t)
          | String "+" t => (false, t)
          | _ => (false, r)
          end in
        let '(e, n, _) := read_digits r' 0 0 in
        match n with
        | O => 0
        | S _ => if neg then - e else e
        end
      else 0
  | EmptyString => 0
  end.

(** [parseFloat] on a string: leading white space is skipped, the longest
    prefix that is a decimal literal is read and what follows is ignored;
    the result is the double nearest to the value of the literal, and
    without such a prefix it is [NaN]. *)
Definition parseFloat (input : string) : number :=
  let s := trimStart input in
  let '(neg, s1) :=
    match s with
    | String "-" r => (true, r)
    | String "+" r => (false, r)
    | _ => (false, s)
    end in
  if starts_with "Infinity" s1 then (if neg then NegInf else PosInf)
  else
    let '(ip, ni, s2) := read_digits s1 0 0 in
    let '(fp, nf, s3) :=
      match s2 with
      | String "." r => read_digits r 0 0
      | _ => (0, O, s2)
      end in
    match (ni + nf)%nat with
    | O => NaN
    | S _ =>
        let m := ip * 10 ^ Z.of_nat nf + fp in
        let q := (inject_Z m * Qpower 10 (read_exponent s3 - Z.of_nat nf))%Q in
        round64 (if neg then Qopp q else q)
    end.

(** ** [Number.prototype.toFixed(2)] *)

Definition decimal (n : N) : string := NilEmpty.string_of_uint (N.to_uint n).

Definition digit_char (d : Z) : ascii := ascii_of_nat (48 + Z.to_nat d).

(** The integer [n] for which [n / 100] is closest to [x >= 0], the larger
    one of two. *)
Definition cents (x : Q) : Z := Qfloor (x * 100 + (1 # 2))%Q.

(** [x.toFixed(2)] of a finite [x]: the sign, the digits of the whole
    part and two decimals of the hundredth nearest to the value of [x].
    (From 1e21 on JavaScript writes the exponent form instead, which
    [parseFloat] reads back as the same whole number.) *)
Definition toFixed2 (x : Q) : string :=
  let neg := (Qnum x <? 0) in
  let n := cents (Qabs x) in
  (if neg then "-" else "") ++
  decimal (Z.to_N (n / 100)) ++ "." ++
  String (digit_char (n mod 100 / 10)) (String (digit_char (n mod 10)) "").

(** The value [toFixed2] denotes. *)
Definition round2 (x : Q) : Q :=
  let q := (inject_Z (cents (Qabs x)) / 100)%Q in
  if (Qnum x <? 0) then Qopp q else q.

(** [n.toFixed(2)] on any number. *)
Definition number_toFixed2 (n : number) : string :=
  match n with
  | Fin q => toFixed2 q
  | NaN => "NaN"
  | PosInf => "Infinity"
  | NegInf => "-Infinity"
  end.

(** ** JavaScript values of a request body

    The fields of [req.body] as the JSON, URL-encoded and multipart parsers
    leave them; arrays and nested objects are not represented. *)

Inductive value : Type :=
| VUndefined
| VNull
| VBool (b : bool)
| VNum (n : number)
| VStr (s : string).

(** ToBoolean: what [if (v)] and [!v] look at. *)
Definition truthy (v : value) : bool :=
  match v with
  | VUndefined | VNull => false
  | VBool b => b
  | VNum NaN => false
  | VNum (Fin q) => negb (Qeq_bool q 0)
  | VNum _ => true
  | VStr s => negb (String.eqb s "")
  end.

Definition is_undefined (v : value) : bool :=
  match v with VUndefined => true | _ => false end.

(** ** Dates *)

Definition msPerDay : Z := 86400000.

Definition Day (t : Z) : Z := t / msPerDay.
Definition TimeWithinDay (t : Z) : Z := t mod msPerDay.
Definition MakeDate (day time : Z) : Z := day * msPerDay + time.
Definition MakeTime (h m s ms : Z) : Z := ((h * 60 + m) * 60 + s) * 1000 + ms.

(** Day 0 is Thursday 1 January 1970; Sunday is 0. *)
Definition WeekDay (t : Z) : Z := (Day t + 4) mod 7.

(** Year, month (0 to 11) and day of the month of a day number, in the
    proleptic Gregorian calendar, by 400-year eras that start on 1 March. *)
Definition civil_from_days (z : Z) : Z * Z * Z :=
  let z := z + 719468 in
  let era := z / 146097 in
  let doe := z mod 146097 in
  let yoe := (doe - doe / 1460 + doe / 36524 - doe / 146096) / 365 in
  let doy := doe - (365 * yoe + yoe / 4 - yoe / 100) in
  let mp := (5 * doy + 2) / 153 in
  let d := doy - (153 * mp + 2) / 5 + 1 in
  let m := if mp <? 10 then mp + 3 else mp - 9 in
  let y := yoe + era * 400 in
  (if m <=? 2 then y + 1 else y, m - 1, d).

Definition YearFromTime (t : Z) : Z := fst (fst (civil_from_days (Day t))).
Definition MonthFromTime (t : Z) : Z := snd (fst (civil_from_days (Day t))).
Definition DateFromTime (t : Z) : Z := snd (civil_from_days (Day t)).

(** Day number of the first day of month [month] (0 to 11) of [year]. *)
Definition days_from_civil (year month : Z) : Z :=
  let y := if month <=? 1 then year - 1 else year in
  let era := y / 400 in
  let yoe := y mod 400 in
  let mp := if month <=? 1 then month + 10 else month - 2 in
  let doy := (153 * mp + 2) / 5 in
  let doe := yoe * 365 + yoe / 4 - yoe / 100 + doy in
  era * 146097 + doe - 719468.

(** MakeDay: months beyond 0..11 carry into the year, and the day of the
    month is an offset from the first of the month, of any sign. *)
Definition MakeDay (year month date : Z) : Z :=
  days_from_civil (year + month / 12) (month mod 12) + date - 1.

Definition getFullYear (t : Z) : Z := YearFromTime t.
Definition getMonth (t : Z) : Z := MonthFromTime t.
Definition getDate (t : Z) : Z := DateFromTime t.
Definition getDay (t : Z) : Z := WeekDay t.

(** [d.setDate(date)] and [d.setHours(h, m, s, ms)], as the new time value. *)
Definition setDate (t date : Z) : Z :=
  MakeDate (MakeDay (YearFromTime t) (MonthFromTime t) date) (TimeWithinDay t).

Definition setHours (t h m s ms : Z) : Z :=
  MakeDate (Day t) (MakeTime h m s ms).

(** [new Date(year, month, date)]: a year from 0 to 99 means 1900 + year. *)
Definition Date_ymd (year month date : Z) : Z :=
  let yr := if (0 <=? year) && (year <=? 99) then 1900 + year else year in
  MakeDate (MakeDay yr month date) 0.

(** TimeClip: a time value is an integer of at most 8.64e15 in magnitude. *)
Definition TimeClip (q : Q) : option Z :=
  let t := Z.quot (Qnum q) (Zpos (Qden q)) in
  if Z.abs t <=? 8640000000000000 then Some t else None.


(** ** What the host provides

    [Date.parse] (its result on other than ISO strings is left to the
    implementation), [Number.prototype.toString], [toLocaleString] of a
    date, the answer of the image host to an upload ([None] when the
    upload throws, otherwise [secure_url] and [public_id]), and the cast
    of a text to an ObjectId by mongoose: [None] when the text is no
    ObjectId and the cast throws a CastError. *)

Record File : Type := { mimetype : string; buffer : string }.

Record Host : Type := {
  Date_parse : string -> option Z;
  Number_toString : number -> string;
  toLocaleString : Z -> string;
  cloudinary_upload : File -> option (string * string);
  castObjectId : string -> option N
}.

(** [parseFloat(v)]: [v] is first turned into a string; a number comes back
    as it is. *)
Definition parseFloat_value (v : value) : number :=
  match v with
  | VStr s => parseFloat s
  | VNum n => n
  | VBool b => parseFloat (if b then "true" else "false")
  | VNull => parseFloat "null"
  | VUndefined => parseFloat "undefined"
  end.

(** [new Date(v)] as a time value, [None] for an invalid date. *)
Definition new_Date (h : Host) (v : value) : option Z :=
  match v with
  | VStr s => Date_parse h s
  | VNum (Fin q) => TimeClip q
  | VNum _ => None
  | VBool b => Some (if b then 1 else 0)
  | VNull => Some 0
  | VUndefined => None
  end.

(** ** The Offer schema ([models/Offer.js]) *)

Module Offer.

Record t : Type := mk {
  _id : N;
  title : string;
  description : string;
  discount : number;
  code : string;
  validFrom : Z;
  validUntil : Z;
  isActive : option bool;  (* [None] is a stored [null] *)
  minOrderAmount : number;
  image : string;
  cloudinary_id : string;
  createdAt : Z;
  updatedAt : Z
}.

(** The validators of the schema on a document whose paths were cast:
    [required] on the strings, [min: 0] and [max: 100] on the discount,
    and no number path holds [NaN]. *)
Definition valid (o : t) : bool :=
  negb (String.eqb (title o) "") &&
  negb (String.eqb (description o) "") &&
  negb (String.eqb (code o) "") &&
  negb (isNaN (discount o)) &&
  negb (num_ltb (discount o) (Fin 0)) &&
  negb (num_gtb (discount o) (Fin 100)) &&
  negb (isNaN (minOrderAmount o)).

(** The [uppercase: true] setter of [code], run when the path is assigned. *)
Definition code_setter (c : string) : string := toUpperCase c.

(** No path of [d] differs from the loaded document: nothing is modified. *)
Definition unmodified (loaded d : t) : bool :=
  String.eqb (title d) (title loaded) &&
  String.eqb (description d) (description loaded) &&
  num_eqb (discount d) (discount loaded) &&
  String.eqb (code d) (code loaded) &&
  (validFrom d =? validFrom loaded) &&
  (validUntil d =? validUntil loaded) &&
  match isActive d, isActive loaded with
  | Some a, Some b => Bool.eqb a b
  | None, None => true
  | _, _ => false
  end &&
  num_eqb (minOrderAmount d) (minOrderAmount loaded) &&
  String.eqb (image d) (image loaded) &&
  String.eqb (cloudinary_id d) (cloudinary_id loaded).

End Offer.

(** Casts of the schema types on assignment to a path; [None] is a
    CastError, reported when the document is saved. *)
Definition castString (h : Host) (v : value) : option string :=
  match v with
  | VStr s => Some s
  | VNum n => Some (Number_toString h n)
  | VBool b => Some (if b then "true" else "false")
  | VNull | VUndefined => None
  end.

Definition castBoolean (v : value) : option (option bool) :=
  match v with
  | VBool b => Some (Some b)
  | VNull | VUndefined => Some None
  | VStr s =>
      if String.eqb s "true" || String.eqb s "1" || String.eqb s "yes"
      then Some (Some true)
      else if String.eqb s "false" || String.eqb s "0" || String.eqb s "no"
      then Some (Some false)
      else None
  | VNum (Fin q) =>
      if Qeq_bool q 1 then Some (Some true)
      else if Qeq_bool q 0 then Some (Some false)
      else None
  | VNum _ => None
  end.

(** ** The offers collection *)

Record store : Type := {
  offers : list Offer.t;
  next_id : N   (* the id the next created document gets *)
}.

Definition empty_store : store := {| offers := []; next_id := 0%N |}.

Definition findById (st : store) (id : N) : option Offer.t :=
  find (fun o => N.eqb (Offer._id o) id) (offers st).

(** [Offer.findOne({ code })] *)
Definition findOne_code (st : store) (c : string) : option Offer.t :=
  find (fun o => String.eqb (Offer.code o) c) (offers st).

(** [Offer.findOne({ code, _id: { $ne: id } })] *)
Definition findOne_code_ne (st : store) (c : string) (id : N) : option Offer.t :=
  find (fun o => String.eqb (Offer.code o) c && negb (N.eqb (Offer._id o) id))
       (offers st).

(** The errors the handlers catch. *)
Inductive error : Type :=
| TypeError
| ValidationError
| DuplicateKey      (* [error.code === 11000], from the unique index *)
| UploadError
| CastError.        (* the [:id] of the path is no ObjectId *)

(** [Offer.create(doc)]: the paths are assigned, the document is validated
    and inserted under the unique index on [code]; it gets a fresh id and
    its timestamps, so the id and the timestamps of [d] are not read. *)
Definition Offer_create (st : store) (now : Z) (d : Offer.t)
  : error + (Offer.t * store) :=
  let o := Offer.mk (next_id st) (Offer.title d) (Offer.description d)
             (Offer.discount d) (Offer.code_setter (Offer.code d))
             (Offer.validFrom d) (Offer.validUntil d) (Offer.isActive d)
             (Offer.minOrderAmount d) (Offer.image d)
             (Offer.cloudinary_id d) now now in
  if negb (Offer.valid o) then inl ValidationError
  else match findOne_code st (Offer.code o) with
       | Some _ => inl DuplicateKey
       | None =>
           inr (o, {| offers := offers st ++ [o];
                      next_id := N.succ (next_id st) |})
       end.

Definition replace_offer (o : Offer.t) (l : list Offer.t) : list Offer.t :=
  map (fun x => if N.eqb (Offer._id x) (Offer._id o) then o else x) l.

(** [offer.save()] of the loaded document [loaded] after the assignments
    that made it [d]: validation, then the write under the unique index;
    [updatedAt] moves only when a path was modified. *)
Definition Offer_save (st : store) (now : Z) (loaded d : Offer.t)
  : error + (Offer.t * store) :=
  if negb (Offer.valid d) then inl ValidationError
  else match findOne_code_ne st (Offer.code d) (Offer._id loaded) with
       | Some _ => inl DuplicateKey
       | None =>
           let o := Offer.mk (Offer._id loaded) (Offer.title d) (Offer.description d)
                      (Offer.discount d) (Offer.code d) (Offer.validFrom d)
                      (Offer.validUntil d) (Offer.isActive d)
                      (Offer.minOrderAmount d) (Offer.image d)
                      (Offer.cloudinary_id d) (Offer.createdAt loaded)
                      (if Offer.unmodified loaded d then Offer.updatedAt loaded
                       else now) in
           inr (o, {| offers := replace_offer o (offers st);
                      next_id := next_id st |})
       end.

(** [offer.deleteOne()] *)
Definition Offer_deleteOne (st : store) (id : N) : store :=
  {| offers := filter (fun o => negb (N.eqb (Offer._id o) id)) (offers st);
     next_id := next_id st |}.

(** [.sort({ createdAt: -1 })]: newest first, by insertion. *)
Fixpoint insert_desc {A : Type} (key : A -> Z) (x : A) (l : list A) : list A :=
  match l with
  | [] => [x]
  | y :: r => if key y <? key x then x :: l else y :: insert_desc key x r
  end.

Definition sort_desc {A : Type} (key : A -> Z) (l : list A) : list A :=
  fold_right (insert_desc key) [] l.

(** ** The offer routes ([routes/offerRoutes.js]) *)

Inductive payload : Type :=
| Message (m : string)
| ErrorMessage (e : error)   (* the message text of a caught error *)
| OfferJson (o : Offer.t)
| OffersJson (l : list Offer.t).

Record response : Type := { status : Z; json : payload }.

Definition respond (s : Z) (p : payload) : response := {| status := s; json := p |}.

Record body : Type := {
  b_title : value;
  b_description : value;
  b_discount : value;
  b_code : value;
  b_validFrom : value;
  b_validUntil : value;
  b_isActive : value;
  b_minOrderAmount : value
}.

Record request : Type := {
  req_body : body;
  req_file : option File;
  req_id : N            (* [req.params.id], cast to an ObjectId *)
}.

Section Routes.

Variable h : Host.

(** GET /api/offers/all *)
Definition get_all_offers (st : store) : response :=
  respond 200 (OffersJson (sort_desc Offer.createdAt (offers st))).

(** GET /api/offers/:id, for an id that was cast *)
Definition get_offer (st : store) (id : N) : response :=
  match findById st id with
  | None => respond 404 (Message "Offer not found")
  | Some offer => respond 200 (OfferJson offer)
  end.

(** The query of the active listing:
    [{ isActive: true, validFrom: { $lte: now }, validUntil: { $gte: now } }] *)
Definition active_at (now : Z) (o : Offer.t) : bool :=
  match Offer.isActive o with Some true => true | _ => false end &&
  (Offer.validFrom o <=? now) && (now <=? Offer.validUntil o).

(** GET /api/offers *)
Definition get_offers (st : store) (now : Z) : response :=
  respond 200
    (OffersJson (sort_desc Offer.createdAt (filter (active_at now) (offers st)))).

(** The image upload of POST and PUT; [inl] is the caught upload error. *)
Definition upload_image (f : File) : error + (string * string) :=
  match cloudinary_upload h f with
  | Some (secure_url, public_id) =>
      if String.eqb secure_url "" then inl UploadError
      else inr (secure_url, public_id)
  | None => inl UploadError
  end.

(** The [catch] of POST /api/offers. *)
Definition post_catch (e : error) : response :=
  match e with
  | ValidationError => respond 400 (ErrorMessage ValidationError)
  | DuplicateKey => respond 400 (Message "Offer code already exists")
  | _ => respond 500 (ErrorMessage e)
  end.

(** POST /api/offers *)
Definition post_offer (st : store) (now : Z) (req : request) : response * store :=
  let b := req_body req in
  if negb (truthy (b_title b)) || negb (truthy (b_description b)) ||
     negb (truthy (b_discount b)) || negb (truthy (b_code b)) ||
     negb (truthy (b_validFrom b)) || negb (truthy (b_validUntil b))
  then (respond 400 (Message "Please provide all required fields"), st)
  else
  let discountNum := parseFloat_value (b_discount b) in
  if isNaN discountNum || num_ltb discountNum (Fin 0) || num_gtb discountNum (Fin 100)
  then (respond 400 (Message "Discount must be a number between 0 and 100"), st)
  else
  match new_Date h (b_validFrom b), new_Date h (b_validUntil b) with
  | Some fromDate, Some untilDate =>
      if untilDate <=? fromDate
      then (respond 400 (Message "Valid until date must be after valid from date"), st)
      else
      match b_code b with
      | VStr code =>
          match findOne_code st (toUpperCase code) with
          | Some _ => (respond 400 (Message "Offer code already exists"), st)
          | None =>
              match
                match req_file req with
                | Some f => upload_image f
                | None => inr ("", "")
                end
              with
              | inl e => (respond 500 (ErrorMessage e), st)
              | inr (imageUrl, cloudinaryId) =>
                  match b_title b, b_description b with
                  | VStr title, VStr description =>
                      let minOrderAmount :=
                        if truthy (b_minOrderAmount b)
                        then parseFloat_value (b_minOrderAmount b)
                        else Fin 0 in
                      match
                        Offer_create st now
                          (Offer.mk 0%N (trim title) (trim description)
                             discountNum (trim (toUpperCase code))
                             fromDate untilDate (Some true) minOrderAmount
                             imageUrl cloudinaryId now now)
                      with
                      | inr (offer, st') => (respond 201 (OfferJson offer), st')
                      | inl e => (post_catch e, st)
                      end
                  | _, _ => (post_catch TypeError, st)
                  end
              end
          end
      | _ => (post_catch TypeError, st)
      end
  | _, _ => (respond 400 (Message "Invalid date format"), st)
  end.

(** PUT /api/offers/:id, for an id that was cast.  The assignments to the
    loaded document are kept in the order of the source; a failed cast of
    a field surfaces when the document is saved, and every error but the
    code conflict is answered 500. *)
Definition put_offer (st : store) (now : Z) (req : request) : response * store :=
  let b := req_body req in
  match findById st (req_id req) with
  | None => (respond 404 (Message "Offer not found"), st)
  | Some offer =>
      let title :=
        if truthy (b_title b) then castString h (b_title b)
        else Some (Offer.title offer) in
      let description :=
        if truthy (b_description b) then castString h (b_description b)
        else Some (Offer.description offer) in
      let discount :=
        if negb (is_undefined (b_discount b)) then parseFloat_value (b_discount b)
        else Offer.discount offer in
      match
        if truthy (b_code b) then
          match b_code b with
          | VStr code =>
              match findOne_code_ne st (toUpperCase code) (Offer._id offer) with
              | Some _ => inl (respond 400 (Message "Offer code already exists"))
              | None => inr (Offer.code_setter (toUpperCase code))
              end
          | _ => inl (respond 500 (ErrorMessage TypeError))
          end
        else inr (Offer.code offer)
      with
      | inl r => (r, st)
      | inr code =>
          let validFrom :=
            if truthy (b_validFrom b) then new_Date h (b_validFrom b)
            else Some (Offer.validFrom offer) in
          let validUntil :=
            if truthy (b_validUntil b) then new_Date h (b_validUntil b)
            else Some (Offer.validUntil offer) in
          let isActive :=
            if negb (is_undefined (b_isActive b)) then castBoolean (b_isActive b)
            else Some (Offer.isActive offer) in
          let minOrderAmount :=
            if negb (is_undefined (b_minOrderAmount b))
            then parseFloat_value (b_minOrderAmount b)
            else Offer.minOrderAmount offer in
          match
            match req_file req with
            | Some f => upload_image f
            | None => inr (Offer.image offer, Offer.cloudinary_id offer)
            end
          with
          | inl e => (respond 500 (ErrorMessage e), st)
          | inr (image, cloudinary_id) =>
              match title, description, validFrom, validUntil, isActive with
              | Some title, Some description, Some validFrom, Some validUntil,
                Some isActive =>
                  match
                    Offer_save st now offer
                      (Offer.mk (Offer._id offer) title description discount code
                         validFrom validUntil isActive minOrderAmount
                         image cloudinary_id (Offer.createdAt offer)
                         (Offer.updatedAt offer))
                  with
                  | inr (saved, st') => (respond 200 (OfferJson saved), st')
                  | inl e => (respond 500 (ErrorMessage e), st)
                  end
              | _, _, _, _, _ => (respond 500 (ErrorMessage ValidationError), st)
              end
          end
      end
  end.

(** DELETE /api/offers/:id, for an id that was cast *)
Definition delete_offer (st : store) (id : N) : response * store :=
  match findById st id with
  | None => (respond 404 (Message "Offer not found"), st)
  | Some offer =>
      (respond 200 (Message "Offer deleted"), Offer_deleteOne st (Offer._id offer))
  end.

(** The three routes by id.  [Offer.findById(req.params.id)] casts the
    text of the path to an ObjectId first; for a text that is none the
    CastError it throws is answered 500 by the [catch] of the handler, and
    nothing is read or written. *)
Definition get_offer_route (st : store) (id : string) : response :=
  match castObjectId h id with
  | Some id => get_offer st id
  | None => respond 500 (ErrorMessage CastError)
  end.

Definition put_offer_route (st : store) (now : Z) (id : string) (b : body)
    (file : option File) : response * store :=
  match castObjectId h id with
  | Some id => put_offer st now {| req_body := b; req_file := file; req_id := id |}
  | None => (respond 500 (ErrorMessage CastError), st)
  end.

Definition delete_offer_route (st : store) (id : string) : response * store :=
  match castObjectId h id with
  | Some id => delete_offer st id
  | None => (respond 500 (ErrorMessage CastError), st)
  end.

(** The stores the routes can reach from the empty collection. *)
Inductive reachable : store -> Prop :=
| reach_empty : reachable empty_store
| reach_post st now req : reachable st -> reachable (snd (post_offer st now req))
| reach_put st now req : reachable st -> reachable (snd (put_offer st now req))
| reach_delete st id : reachable st -> reachable (snd (delete_offer st id)).

End Routes.


(** ** Orders

    [models/Order.js] is not part of the sources at hand; the records hold
    the fields the report and the receipt read. *)

Module Item.

(** Modelled from the spec: a line item of an order, "line items (name,
    quantity, unit price)", the schema of which is in the missing
    [models/Order.js]; the quantity is a whole number, and the price is
    given by its decimal, which the handlers read as a double
    ([amount]). *)
Record t : Type := mk {
  name : string;
  quantity : Z;
  price : Q
}.

End Item.

Module Order.

(** Modelled from the spec: the Order schema of the missing
    [models/Order.js], "customer identity, delivery
    type (pickup/delivery), address (required iff delivery), line items
    (name, quantity, unit price), delivery charge, total amount, status,
    payment status, timestamps"; an absent address or delivery charge is
    [None].  The amounts are given by their decimals, which the handlers
    read as doubles ([amount]). *)
Record t : Type := mk {
  _id : string;
  customerName : string;
  customerEmail : string;
  deliveryType : string;
  address : option string;
  items : list Item.t;
  deliveryCharge : option Q;
  totalAmount : Q;
  orderStatus : string;
  paymentStatus : string;
  createdAt : Z
}.

End Order.

(** ** The sales report (GET /api/sales/report, [models/Product.js], lines 304 to 372) *)

Record StatusCounts : Type := {
  Pending : nat;
  Preparing : nat;
  OutForDelivery : nat;     (* the key 'Out for Delivery' *)
  Delivered : nat
}.

Record Summary : Type := {
  totalSales : number;
  totalOrders : nat;
  totalDeliveryCharges : number;
  averageOrderValue : number;
  pickupOrders : nat;
  deliveryOrders : nat;
  statusCounts : StatusCounts
}.

Record Report : Type := {
  period : string;
  startDate : Z;
  endDate : Z;
  summary : Summary;
  orders : list Order.t
}.

(** The [switch (period)] of the report: the bounds [startDate] and
    [endDate] of the window for the clock reading [now]. *)
Definition report_window (period : string) (now : Z) : Z * Z :=
  if String.eqb period "daily" then
    (Date_ymd (getFullYear now) (getMonth now) (getDate now),
     Date_ymd (getFullYear now) (getMonth now) (getDate now + 1))
  else if String.eqb period "weekly" then
    let dayOfWeek := getDay now in
    let startDate := now in
    let startDate := setDate startDate (getDate now - dayOfWeek) in
    let startDate := setHours startDate 0 0 0 0 in
    let endDate := startDate in
    let endDate := setDate endDate (getDate startDate + 7) in
    (startDate, endDate)
  else if String.eqb period "monthly" then
    (Date_ymd (getFullYear now) (getMonth now) 1,
     Date_ymd (getFullYear now) (getMonth now + 1) 1)
  else
    (Date_ymd (getFullYear now) (getMonth now) (getDate now),
     Date_ymd (getFullYear now) (getMonth now) (getDate now + 1)).

(** [Order.find({ createdAt: { $gte: startDate, $lt: endDate },
    paymentStatus: 'completed' }).sort({ createdAt: -1 })] *)
Definition in_window (startDate endDate : Z) (o : Order.t) : bool :=
  (startDate <=? Order.createdAt o) && (Order.createdAt o <? endDate) &&
  String.eqb (Order.paymentStatus o) "completed".

Definition find_orders (db : list Order.t) (startDate endDate : Z) : list Order.t :=
  sort_desc Order.createdAt (filter (in_window startDate endDate) db).

Definition count_status (s : string) (l : list Order.t) : nat :=
  List.length (filter (fun o => String.eqb (Order.orderStatus o) s) l).

Definition count_type (s : string) (l : list Order.t) : nat :=
  List.length (filter (fun o => String.eqb (Order.deliveryType o) s) l).

(** The sums are those of [reduce], from the left and in doubles; the
    counts are lengths, which are exact. *)
Definition summarize (orders : list Order.t) : Summary :=
  let totalSales :=
    fold_left (fun sum order => num_add sum (amount (Order.totalAmount order)))
      orders (Fin 0) in
  let totalOrders := List.length orders in
  let totalDeliveryCharges :=
    fold_left
      (fun sum order =>
         num_add sum
           match Order.deliveryCharge order with
           | Some c => if num_zero (amount c) then Fin 0 else amount c
           | None => Fin 0
           end)
      orders (Fin 0) in
  {| totalSales := parseFloat (number_toFixed2 totalSales);
     totalOrders := totalOrders;
     totalDeliveryCharges := parseFloat (number_toFixed2 totalDeliveryCharges);
     averageOrderValue :=
       if (0 <? totalOrders)%nat
       then parseFloat (number_toFixed2 (num_div totalSales (num_of_nat totalOrders)))
       else Fin 0;
     pickupOrders := count_type "pickup" orders;
     deliveryOrders := count_type "delivery" orders;
     statusCounts :=
       {| Pending := count_status "Pending" orders;
          Preparing := count_status "Preparing" orders;
          OutForDelivery := count_status "Out for Delivery" orders;
          Delivered := count_status "Delivered" orders |} |}.

(** GET /api/sales/report; [period] is [req.query.period], ['daily'] when
    the query has none. *)
Definition get_report (db : list Order.t) (now : Z) (period : option string) : Report :=
  let period := match period with Some p => p | None => "daily" end in
  let '(startDate, endDate) := report_window period now in
  let orders := find_orders db startDate endDate in
  {| period := period;
     startDate := startDate;
     endDate := endDate;
     summary := summarize orders;
     orders := orders |}.

(** ** The receipt ([generateOrderPDF], [models/Product.js], lines 40 to 152) *)

Definition dq : string := String "034" "".

(** [s.slice(-n)] *)
Definition slice_last (n : nat) (s : string) : string :=
  substring (String.length s - n) n s.

(** An integer as [String(n)] writes it. *)
Definition Z_toString (z : Z) : string :=
  if z <? 0 then "-" ++ decimal (Z.to_N (- z)) else decimal (Z.to_N z).

Section Receipt.

Variable h : Host.

(** [order.deliveryType === 'delivery' && order.address ? ... : ''] *)
Definition address_line (order : Order.t) : string :=
  if String.eqb (Order.deliveryType order) "delivery" &&
     match Order.address order with
     | Some a => negb (String.eqb a "")
     | None => false
     end
  then "<p><strong>Address:</strong> " ++
       match Order.address order with Some a => a | None => "" end ++ "</p>"
  else "".

Definition item_row (item : Item.t) : string :=
  "
        <tr>
          <td>" ++
  Item.name item ++
  "</td>
          <td>" ++
  Z_toString (Item.quantity item) ++
  "</td>
          <td>$" ++
  number_toFixed2 (amount (Item.price item)) ++
  "</td>
          <td>$" ++
  number_toFixed2
    (num_mul (amount (Item.price item)) (amount (inject_Z (Item.quantity item)))) ++
  "</td>
        </tr>
      ".

(** [order.items.map(item => ...).join('')] *)
Definition item_rows (items : list Item.t) : string :=
  String.concat "" (map item_row items).

(** [order.deliveryCharge > 0 ? ... : ''] *)
Definition totals_block (order : Order.t) : string :=
  match Order.deliveryCharge order with
  | Some c =>
      if num_gtb (amount c) (Fin 0) then
        "<p>Subtotal: $" ++
        number_toFixed2 (num_sub (amount (Order.totalAmount order)) (amount c)) ++
        "</p>
    <p>Delivery Charge: $" ++
        number_toFixed2 (amount c) ++
        "</p>"
      else ""
  | None => ""
  end.

Definition generateOrderPDF (order : Order.t) : string :=
  "
<!DOCTYPE html>
<html>
<head>
  <title>Order Receipt - " ++
  slice_last 8 (Order._id order) ++
  "</title>
  <style>
    body {
      font-family: Arial, sans-serif;
      max-width: 800px;
      margin: 0 auto;
      padding: 20px;
    }
    .header {
      text-align: center;
      border-bottom: 2px solid #000;
      padding-bottom: 20px;
      margin-bottom: 20px;
    }
    .order-info {
      margin-bottom: 20px;
    }
    .order-info h2 {
      color: #333;
    }
    table {
      width: 100%;
      border-collapse: collapse;
      margin: 20px 0;
    }
    th, td {
      border: 1px solid #ddd;
      padding: 12px;
      text-align: left;
    }
    th {
      background-color: #f2f2f2;
      font-weight: bold;
    }
    .total {
      text-align: right;
      font-size: 18px;
      font-weight: bold;
      margin-top: 20px;
    }
    .footer {
      margin-top: 40px;
      text-align: center;
      color: #666;
      font-size: 12px;
    }
  </style>
</head>
<body>
  <div class=" ++ dq ++ "header" ++ dq ++ ">
    <h1>American Pizza</h1>
    <p>Order Receipt</p>
  </div>
  
  <div class=" ++ dq ++ "order-info" ++ dq ++ ">
    <h2>Order Information</h2>
    <p><strong>Order ID:</strong> " ++
  Order._id order ++
  "</p>
    <p><strong>Date:</strong> " ++
  toLocaleString h (Order.createdAt order) ++
  "</p>
    <p><strong>Customer:</strong> " ++
  Order.customerName order ++
  "</p>
    <p><strong>Email:</strong> " ++
  Order.customerEmail order ++
  "</p>
    <p><strong>Status:</strong> " ++
  Order.orderStatus order ++
  "</p>
    <p><strong>Type:</strong> " ++
  (if String.eqb (Order.deliveryType order) "pickup" then "Pickup" else "Delivery") ++
  "</p>
    " ++
  address_line order ++
  "
  </div>
  
  <h2>Order Items</h2>
  <table>
    <thead>
      <tr>
        <th>Item</th>
        <th>Quantity</th>
        <th>Price</th>
        <th>Total</th>
      </tr>
    </thead>
    <tbody>
      " ++
  item_rows (Order.items order) ++
  "
    </tbody>
  </table>
  
  <div class=" ++ dq ++ "total" ++ dq ++ ">
    " ++
  totals_block order ++
  "
    <p>Total Amount: $" ++
  number_toFixed2 (amount (Order.totalAmount order)) ++
  "</p>
  </div>
  
  <div class=" ++ dq ++ "footer" ++ dq ++ ">
    <p>Thank you for your order!</p>
    <p>American Pizza - Bahnhof str.119, 47137 Duisburg</p>
    <p>Contact: 015213759078 | kenkeswary11@icloud.com</p>
  </div>
</body>
</html>
  ".

End Receipt.

(** * Vocabulary of the properties *)

(** ** Listings and counts *)

Definition listed (r : response) : list Offer.t :=
  match json r with OffersJson l => l | _ => [] end.

Definition named_status (s : string) : bool :=
  String.eqb s "Pending" || String.eqb s "Preparing" ||
  String.eqb s "Out for Delivery" || String.eqb s "Delivered".

Definition status_sum (c : StatusCounts) : nat :=
  (Pending c + Preparing c + OutForDelivery c + Delivered c)%nat.

(** ** Digits and rounding *)

(** The value of the digits [d] read from left to right on top of [acc]. *)
Fixpoint uint_value (d : Decimal.uint) (acc : Z) : Z :=
  match d with
  | Decimal.Nil => acc
  | Decimal.D0 r => uint_value r (10 * acc + 0)
  | Decimal.D1 r => uint_value r (10 * acc + 1)
  | Decimal.D2 r => uint_value r (10 * acc + 2)
  | Decimal.D3 r => uint_value r (10 * acc + 3)
  | Decimal.D4 r => uint_value r (10 * acc + 4)
  | Decimal.D5 r => uint_value r (10 * acc + 5)
  | Decimal.D6 r => uint_value r (10 * acc + 6)
  | Decimal.D7 r => uint_value r (10 * acc + 7)
  | Decimal.D8 r => uint_value r (10 * acc + 8)
  | Decimal.D9 r => uint_value r (10 * acc + 9)
  end.

Definition not_digit_head (s : string) : Prop :=
  match s with
  | String c _ => is_digit c = false
  | EmptyString => True
  end.

(** The number a decimal literal denotes once its sign is read. *)
Definition parse_unsigned (neg : bool) (s1 : string) : number :=
  let '(ip, ni, s2) := read_digits s1 0 0 in
  let '(fp, nf, s3) :=
    match s2 with
    | String "." t => read_digits t 0 0
    | _ => (0, O, s2)
    end in
  match (ni + nf)%nat with
  | O => NaN
  | S _ =>
      let q := (inject_Z (ip * 10 ^ Z.of_nat nf + fp) *
                Qpower 10 (read_exponent s3 - Z.of_nat nf))%Q in
      round64 (if neg then Qopp q else q)
  end.

(** [r] is [x] rounded to two decimal places: a whole number of hundredths
    at most half a hundredth away from [x]. *)
Definition rounded2 (x r : Q) : Prop :=
  (exists n : Z, r == inject_Z n / 100)%Q /\ (Qabs (r - x) <= 1 # 200)%Q.

(** The sales of a list of orders as [reduce] adds them, in doubles,
    before the rounding to two decimals. *)
Definition sales_total (l : list Order.t) : number :=
  fold_left (fun sum order => num_add sum (amount (Order.totalAmount order))) l (Fin 0).

(** The delivery charges of a list of orders as [reduce] adds them, an
    absent charge counting 0. *)
Definition charges_total (l : list Order.t) : number :=
  fold_left
    (fun sum order =>
       num_add sum
         match Order.deliveryCharge order with
         | Some c => if num_zero (amount c) then Fin 0 else amount c
         | None => Fin 0
         end)
    l (Fin 0).

(** [x] read to two decimals: the double nearest to a hundredth at most
    half a hundredth away from a finite [x], and [x] itself otherwise. *)
Definition two_decimals (x r : number) : Prop :=
  match x with
  | Fin q => exists c, rounded2 q c /\ r = round64 c
  | _ => r = x
  end.

(** ** Report windows *)

(** The midnight that begins the day of [t]. *)
Definition midnight (t : Z) : Z := MakeDate (Day t) 0.

Definition period_of (p : option string) : string :=
  match p with Some p => p | None => "daily" end.

(** ** Creating an offer *)

Definition is_none {A : Type} (x : option A) : bool :=
  match x with None => true | Some _ => false end.

(** The presence check of POST: the six required fields are truthy. *)
Definition fields_present (b : body) : bool :=
  truthy (b_title b) && truthy (b_description b) && truthy (b_discount b) &&
  truthy (b_code b) && truthy (b_validFrom b) && truthy (b_validUntil b).

(** The discount parses as a number of [0, 100]. *)
Definition discount_accepted (v : value) : bool :=
  let d := parseFloat_value v in
  negb (isNaN d) && negb (num_ltb d (Fin 0)) && negb (num_gtb d (Fin 100)).

(** Both dates parse and [validUntil] is after [validFrom]. *)
Definition dates_accepted (h : Host) (b : body) : bool :=
  match new_Date h (b_validFrom b), new_Date h (b_validUntil b) with
  | Some f, Some u => f <? u
  | _, _ => false
  end.

Definition upload_accepted (h : Host) (req : request) : bool :=
  match req_file req with
  | Some f => match upload_image h f with inr _ => true | inl _ => false end
  | None => true
  end.

(** What is left of the validation of POST: the code is a string no stored
    offer has, the image is uploaded, and the document passes the
    validators of the schema and the unique index. *)
Definition rest_accepted (h : Host) (st : store) (req : request) : bool :=
  let b := req_body req in
  match b_code b, b_title b, b_description b with
  | VStr code, VStr title, VStr description =>
      is_none (findOne_code st (toUpperCase code)) &&
      upload_accepted h req &&
      negb (String.eqb (trim title) "") &&
      negb (String.eqb (trim description) "") &&
      negb (String.eqb (toUpperCase (trim (toUpperCase code))) "") &&
      negb (isNaN (if truthy (b_minOrderAmount b)
                   then parseFloat_value (b_minOrderAmount b) else Fin 0)) &&
      is_none (findOne_code st (toUpperCase (trim (toUpperCase code))))
  | _, _, _ => false
  end.

(** The document [Offer.create] makes of the paths it is given. *)
Definition new_offer (st : store) (now : Z) (d : Offer.t) : Offer.t :=
  Offer.mk (next_id st) (Offer.title d) (Offer.description d)
    (Offer.discount d) (Offer.code_setter (Offer.code d))
    (Offer.validFrom d) (Offer.validUntil d) (Offer.isActive d)
    (Offer.minOrderAmount d) (Offer.image d) (Offer.cloudinary_id d) now now.

(** The request creates [o]: it is answered 201 with [o], and [o] is
    stored under the next id, after the offers there were. *)
Definition creates (h : Host) (st : store) (now : Z) (req : request) (o : Offer.t)
  : Prop :=
  post_offer h st now req =
  (respond 201 (OfferJson o),
   {| offers := offers st ++ [o]; next_id := N.succ (next_id st) |}).

Definition set_discount (req : request) (v : value) : request :=
  let b := req_body req in
  {| req_body :=
       {| b_title := b_title b; b_description := b_description b;
          b_discount := v; b_code := b_code b;
          b_validFrom := b_validFrom b; b_validUntil := b_validUntil b;
          b_isActive := b_isActive b; b_minOrderAmount := b_minOrderAmount b |};
     req_file := req_file req;
     req_id := req_id req |}.

(** ** Updating an offer, and the collection *)

(** Another stored offer has the code [c]. *)
Definition code_taken (st : store) (c : string) (id : N) : Prop :=
  exists other, In other (offers st) /\ Offer.code other = c /\ Offer._id other <> id.

(** The fields of the saved document, each either taken from the request,
    through the conversion of its path, or left as it was stored;
    [updatedAt] is the time of the save when a field has changed. *)
Definition patched (h : Host) (now : Z) (req : request) (offer saved : Offer.t) : Prop :=
  let b := req_body req in
  Offer._id saved = Offer._id offer /\
  Some (Offer.title saved) =
    (if truthy (b_title b) then castString h (b_title b)
     else Some (Offer.title offer)) /\
  Some (Offer.description saved) =
    (if truthy (b_description b) then castString h (b_description b)
     else Some (Offer.description offer)) /\
  Offer.discount saved =
    (if is_undefined (b_discount b) then Offer.discount offer
     else parseFloat_value (b_discount b)) /\
  Some (Offer.code saved) =
    (if truthy (b_code b)
     then match b_code b with VStr c => Some (toUpperCase c) | _ => None end
     else Some (Offer.code offer)) /\
  Some (Offer.validFrom saved) =
    (if truthy (b_validFrom b) then new_Date h (b_validFrom b)
     else Some (Offer.validFrom offer)) /\
  Some (Offer.validUntil saved) =
    (if truthy (b_validUntil b) then new_Date h (b_validUntil b)
     else Some (Offer.validUntil offer)) /\
  Some (Offer.isActive saved) =
    (if is_undefined (b_isActive b) then Some (Offer.isActive offer)
     else castBoolean (b_isActive b)) /\
  Offer.minOrderAmount saved =
    (if is_undefined (b_minOrderAmount b) then Offer.minOrderAmount offer
     else parseFloat_value (b_minOrderAmount b)) /\
  Some (Offer.image saved, Offer.cloudinary_id saved) =
    match req_file req with
    | Some f => cloudinary_upload h f
    | None => Some (Offer.image offer, Offer.cloudinary_id offer)
    end /\
  Offer.createdAt saved = Offer.createdAt offer /\
  Offer.updatedAt saved =
    (if Offer.unmodified offer saved then Offer.updatedAt offer else now).

(** What PUT does once the code of the document is settled: the upload,
    the casts and the save. *)
Definition put_save (h : Host) (st : store) (now : Z) (req : request) (offer : Offer.t)
    (code : string) : response * store :=
  let b := req_body req in
  match
    match req_file req with
    | Some f => upload_image h f
    | None => inr (Offer.image offer, Offer.cloudinary_id offer)
    end
  with
  | inl e => (respond 500 (ErrorMessage e), st)
  | inr (image, cloudinary_id) =>
      match
        (if truthy (b_title b) then castString h (b_title b)
         else Some (Offer.title offer)),
        (if truthy (b_description b) then castString h (b_description b)
         else Some (Offer.description offer)),
        (if truthy (b_validFrom b) then new_Date h (b_validFrom b)
         else Some (Offer.validFrom offer)),
        (if truthy (b_validUntil b) then new_Date h (b_validUntil b)
         else Some (Offer.validUntil offer)),
        (if negb (is_undefined (b_isActive b)) then castBoolean (b_isActive b)
         else Some (Offer.isActive offer))
      with
      | Some title, Some description, Some validFrom, Some validUntil,
        Some isActive =>
          match
            Offer_save st now offer
              (Offer.mk (Offer._id offer) title description
                 (if negb (is_undefined (b_discount b))
                  then parseFloat_value (b_discount b) else Offer.discount offer)
                 code validFrom validUntil isActive
                 (if negb (is_undefined (b_minOrderAmount b))
                  then parseFloat_value (b_minOrderAmount b)
                  else Offer.minOrderAmount offer)
                 image cloudinary_id (Offer.createdAt offer)
                 (Offer.updatedAt offer))
          with
          | inr (saved, st') => (respond 200 (OfferJson saved), st')
          | inl e => (respond 500 (ErrorMessage e), st)
          end
      | _, _, _, _, _ => (respond 500 (ErrorMessage ValidationError), st)
      end
  end.

(** Stored codes are upper-cased, ids are below the next id, and neither
    an id nor a code is stored twice. *)
Definition store_ok (st : store) : Prop :=
  (forall o, In o (offers st) ->
     toUpperCase (Offer.code o) = Offer.code o /\ (Offer._id o < next_id st)%N) /\
  NoDup (map Offer._id (offers st)) /\
  NoDup (map Offer.code (offers st)).

(** ** Substrings and the receipt *)

(** The number of places of [s] where [m] begins. *)
Fixpoint count_sub (m s : string) : nat :=
  ((if starts_with m s then 1 else 0) +
   match s with
   | String _ r => count_sub m r
   | EmptyString => 0
   end)%nat.

Definition includes (m s : string) : bool := (0 <? count_sub m s)%nat.

Fixpoint no_char (c : ascii) (s : string) : bool :=
  match s with
  | String a r => negb (Ascii.eqb a c) && no_char c r
  | EmptyString => true
  end.

(** [m] and [s] differ at a place both have. *)
Fixpoint mismatch (m s : string) : bool :=
  match m, s with
  | String a m', String b s' => negb (Ascii.eqb a b) || mismatch m' s'
  | _, _ => false
  end.

(** Whether [m] begins at a place of [l] is settled inside [l], at each of
    its places: what follows [l] cannot matter. *)
Fixpoint closed (m l : string) : bool :=
  match l with
  | String _ r => (starts_with m l || mismatch m l) && closed m r
  | EmptyString => true
  end.

Definition lt_char : ascii := "<"%char.

Definition address_marker : string := "<p><strong>Address:</strong> ".
Definition subtotal_marker : string := "<p>Subtotal: $".
Definition charge_marker : string := "<p>Delivery Charge: $".
Definition row_marker : string := "<tr>".

Definition no_markup (s : string) : bool := no_char lt_char s.

(** No text of the order, and not the date the host writes, holds a [<]. *)
Definition markup_free (h : Host) (o : Order.t) : bool :=
  no_markup (Order._id o) &&
  no_markup (toLocaleString h (Order.createdAt o)) &&
  no_markup (Order.customerName o) &&
  no_markup (Order.customerEmail o) &&
  no_markup (Order.orderStatus o) &&
  match Order.address o with Some a => no_markup a | None => true end &&
  forallb (fun i => no_markup (Item.name i)) (Order.items o).

Definition address_shown (o : Order.t) : Prop :=
  Order.deliveryType o = "delivery" /\
  exists a, Order.address o = Some a /\ a <> "".

(** The delivery charge, as a double, is above 0. *)
Definition charged (o : Order.t) : Prop :=
  exists c, Order.deliveryCharge o = Some c /\ num_gtb (amount c) (Fin 0) = true.

Definition names_free (items : list Item.t) : bool :=
  forallb (fun i => no_markup (Item.name i)) items.

(** ** A host and documents for the examples *)

(** [Date.parse] on the date-only ISO form [YYYY-MM-DD], read as a
    midnight; this host takes every other string for an invalid date. *)
Definition parse_iso_date (s : string) : option Z :=
  let '(y, ny, r1) := read_digits s 0 0 in
  match r1 with
  | String "-" r1 =>
      let '(m, nm, r2) := read_digits r1 0 0 in
      match r2 with
      | String "-" r2 =>
          let '(d, nd, r3) := read_digits r2 0 0 in
          if (ny =? 4)%nat && (nm =? 2)%nat && (nd =? 2)%nat &&
             String.eqb r3 "" && (1 <=? m) && (m <=? 12) && (1 <=? d) && (d <=? 31)
          then Some (MakeDate (MakeDay y (m - 1) d) 0)
          else None
      | _ => None
      end
  | _ => None
  end.

(** The ObjectId a text of 24 hexadecimal digits denotes. *)
Definition hex_val (c : ascii) : option N :=
  let n := N.of_nat (nat_of_ascii c) in
  if (48 <=? n)%N && (n <=? 57)%N then Some (n - 48)%N
  else if (97 <=? n)%N && (n <=? 102)%N then Some (n - 87)%N
  else if (65 <=? n)%N && (n <=? 70)%N then Some (n - 55)%N
  else None.

Fixpoint read_hex (s : string) (acc : N) : option N :=
  match s with
  | String c r =>
      match hex_val c with
      | Some d => read_hex r (16 * acc + d)%N
      | None => None
      end
  | EmptyString => Some acc
  end.

Definition parse_hex24 (s : string) : option N :=
  if (String.length s =? 24)%nat then read_hex s 0 else None.

Definition sample_host : Host :=
  {| Date_parse := parse_iso_date;
     Number_toString :=
       fun n => match n with
                | NaN => "NaN"
                | PosInf => "Infinity"
                | NegInf => "-Infinity"
                | Fin q => Z_toString (Qfloor q)
                end;
     toLocaleString := fun t => Z_toString t;
     cloudinary_upload :=
       fun f => Some ("https://res.cloudinary.com/" ++ buffer f, buffer f);
     castObjectId := parse_hex24 |}.

(** The body of a request with the six required fields of an offer. *)
Definition offer_body (title description discount code validFrom validUntil : value)
  : body :=
  {| b_title := title; b_description := description; b_discount := discount;
     b_code := code; b_validFrom := validFrom; b_validUntil := validUntil;
     b_isActive := VUndefined; b_minOrderAmount := VUndefined |}.

Definition offer_request (b : body) : request :=
  {| req_body := b; req_file := None; req_id := 0%N |}.

(** "SAVE10", ten percent, valid through 2024. *)
Definition save10 (discount code : value) : request :=
  offer_request
    (offer_body (VStr "Ten percent") (VStr "Ten percent off your order")
       discount code (VStr "2024-01-01") (VStr "2024-12-31")).

(** Noon of Wednesday 3 January 2024. *)
Definition sample_now : Z := MakeDate (MakeDay 2024 0 3) (MakeTime 12 0 0 0).

(** The collection after "SAVE10" is created in the empty one. *)
Definition store_save10 : store :=
  snd (post_offer sample_host empty_store sample_now
         (save10 (VStr "10") (VStr "SAVE10"))).

(** An update that sends an empty title and nothing else. *)
Definition empty_title_update : request :=
  {| req_body :=
       {| b_title := VStr ""; b_description := VUndefined;
          b_discount := VUndefined; b_code := VUndefined;
          b_validFrom := VUndefined; b_validUntil := VUndefined;
          b_isActive := VUndefined; b_minOrderAmount := VUndefined |};
     req_file := None;
     req_id := 0%N |}.

(** An update of the discount and of the flag of offer 0. *)
Definition discount_update : request :=
  {| req_body :=
       {| b_title := VUndefined; b_description := VUndefined;
          b_discount := VStr "15"; b_code := VStr "save15";
          b_validFrom := VUndefined; b_validUntil := VUndefined;
          b_isActive := VBool false; b_minOrderAmount := VUndefined |};
     req_file := None;
     req_id := 0%N |}.

(** Two pizzas and a cola, delivered, paid, on the morning of [sample_now]. *)
Definition sample_order : Order.t :=
  Order.mk "65a1f0c2e4b0a1b2c3d4e5f6" "Ann" "ann@example.org" "delivery"
    (Some "Hauptstr. 1") [Item.mk "Pizza" 2 10; Item.mk "Cola" 1 (11 # 2)]
    (Some 3%Q) (57 # 2) "Pending" "completed"
    (MakeDate (MakeDay 2024 0 3) (MakeTime 9 0 0 0)).

(** A completed pickup order of the morning of [sample_now], of the given
    total. *)
Definition order_of_total (total : Q) : Order.t :=
  Order.mk "65a1f0c2e4b0a1b2c3d4e5fa" "Dan" "dan@example.org" "pickup"
    None [Item.mk "Pizza" 1 total] None total "Delivered" "completed"
    (MakeDate (MakeDay 2024 0 3) (MakeTime 9 0 0 0)).

(** A host that writes a date in words of its own. *)
Definition other_host : Host :=
  {| Date_parse := parse_iso_date;
     Number_toString := Number_toString sample_host;
     toLocaleString := fun t => "day " ++ Z_toString (Day t);
     cloudinary_upload := cloudinary_upload sample_host;
     castObjectId := parse_hex24 |}.

(** A delivery whose address is the empty text. *)
Definition blank_address_order : Order.t :=
  Order.mk "65a1f0c2e4b0a1b2c3d4e5f9" "Cleo" "cleo@example.org" "delivery"
    (Some "") [Item.mk "Pizza" 1 10] None 10 "Pending" "completed"
    (MakeDate (MakeDay 2024 0 3) (MakeTime 9 0 0 0)).

(** A pickup order whose customer name is written as an address line. *)
Definition forged_order : Order.t :=
  Order.mk "65a1f0c2e4b0a1b2c3d4e5f7" "<p><strong>Address:</strong> Nowhere</p>"
    "bob@example.org" "pickup" None [Item.mk "Pizza" 1 10]
    None 10 "Pending" "completed"
    (MakeDate (MakeDay 2024 0 3) (MakeTime 9 0 0 0)).


(** * The other handlers and the middleware *)

(** ** Listings, newest first *)

(** The order [.sort({ createdAt: -1 })] asks for: no document comes before
    one with a larger key. *)
Definition newest_first {A : Type} (key : A -> Z) (l : list A) : Prop :=
  StronglySorted (fun a b => key b <= key a) l.

(** ** Updates *)

(** An update that carries [validUntil] and no other field. *)
Definition until_update (id : N) (validUntil : value) : request :=
  {| req_body :=
       {| b_title := VUndefined; b_description := VUndefined;
          b_discount := VUndefined; b_code := VUndefined;
          b_validFrom := VUndefined; b_validUntil := validUntil;
          b_isActive := VUndefined; b_minOrderAmount := VUndefined |};
     req_file := None;
     req_id := id |}.

Definition is_string (v : value) : bool :=
  match v with VStr _ => true | _ => false end.

(** ** The sales statistics (GET /api/sales/stats, [models/Product.js], lines 377 to 467) *)

Module Stats.

(** The keys [orders] and [sales] of one period. *)
Record period : Type := {
  orders : nat;
  sales : number
}.

Record t : Type := {
  today : period;
  week : period;
  month : period
}.

End Stats.

(** The filter [{ createdAt: { $gte: start }, paymentStatus: 'completed' }]
    of the statistics: it has no upper bound. *)
Definition completed_since (start : Z) (o : Order.t) : bool :=
  (start <=? Order.createdAt o) && String.eqb (Order.paymentStatus o) "completed".

(** [Order.countDocuments(filter)] *)
Definition countDocuments (db : list Order.t) (start : Z) : nat :=
  List.length (filter (completed_since start) db).

Section Statistics.

(** [{ $sum: '$totalAmount' }] over the documents of a group.  It is the
    database that adds the amounts, in an order and with a precision of
    its own, so the sum is left to it. *)
Variable sum_totalAmount : list Order.t -> number.

(** [Order.aggregate([{ $match: filter },
    { $group: { _id: null, total: { $sum: '$totalAmount' } } }])]: the
    [total] of the one group when a document matches, no group otherwise. *)
Definition aggregate_total (db : list Order.t) (start : Z) : list number :=
  match filter (completed_since start) db with
  | [] => []
  | matched => [sum_totalAmount matched]
  end.

Definition get_stats (db : list Order.t) (now : Z) : Stats.t :=
  let todayStart := Date_ymd (getFullYear now) (getMonth now) (getDate now) in
  let todayOrders := countDocuments db todayStart in
  let todaySales := aggregate_total db todayStart in
  let todayTotal := match todaySales with total :: _ => total | [] => Fin 0 end in
  let weekStart := now in
  let weekStart := setDate weekStart (getDate now - getDay now) in
  let weekStart := setHours weekStart 0 0 0 0 in
  let weekOrders := countDocuments db weekStart in
  let weekSales := aggregate_total db weekStart in
  let weekTotal := match weekSales with total :: _ => total | [] => Fin 0 end in
  let monthStart := Date_ymd (getFullYear now) (getMonth now) 1 in
  let monthOrders := countDocuments db monthStart in
  let monthSales := aggregate_total db monthStart in
  let monthTotal := match monthSales with total :: _ => total | [] => Fin 0 end in
  {| Stats.today :=
       {| Stats.orders := todayOrders;
          Stats.sales := parseFloat (number_toFixed2 todayTotal) |};
     Stats.week :=
       {| Stats.orders := weekOrders;
          Stats.sales := parseFloat (number_toFixed2 weekTotal) |};
     Stats.month :=
       {| Stats.orders := monthOrders;
          Stats.sales := parseFloat (number_toFixed2 monthTotal) |} |}.

End Statistics.


(** ** Months *)

(** The year and the month (0 to 11) that follow the month [m] of [y]. *)
Definition next_month (y m : Z) : Z * Z := (y + (m + 1) / 12, (m + 1) mod 12).


(** ** The upload filter ([fileFilter], [middleware/upload.js], lines 8 to 18) *)

Definition lower_char (c : ascii) : ascii :=
  let n := nat_of_ascii c in
  if (65 <=? n)%nat && (n <=? 90)%nat then ascii_of_nat (n + 32) else c.

Fixpoint toLowerCase (s : string) : string :=
  match s with
  | String c r => String (lower_char c) (toLowerCase r)
  | EmptyString => EmptyString
  end.

Module Upload.

(** The file as multer hands it to the filter, before its bytes are read. *)
Record file : Type := {
  originalname : string;
  mimetype : string
}.

End Upload.

(** [word] occurs in [s]. *)
Definition occurs (word s : string) : Prop :=
  exists before after, s = before ++ word ++ after.

(** [/jpeg|jpg|png|webp/.test(s)]: one of the four words occurs in [s]. *)
Definition allowedTypes_test (s : string) : bool :=
  includes "jpeg" s || includes "jpg" s || includes "png" s || includes "webp" s.

(** What the filter hands to its callback: [inr true] for [cb(null, true)],
    [inl] the message of the error for [cb(new Error(...))]. *)
Definition fileFilter (file : Upload.file) : string + bool :=
  let isValidExt := allowedTypes_test (toLowerCase (Upload.originalname file)) in
  let isValidMime := allowedTypes_test (Upload.mimetype file) in
  if isValidExt && isValidMime then inr true
  else inl "Only image files are allowed!".

(** ** The CORS origin check of the server *)

(** What the checks read of [process.env]; [None] is a variable that is not
    set. *)
Record Env : Type := {
  NODE_ENV : option string;
  FRONTEND_URL : option string;
  CLOUDINARY_CLOUD_NAME : option string;
  CLOUDINARY_API_KEY : option string;
  CLOUDINARY_API_SECRET : option string;
  CLOUDINARY_UPLOAD_PRESET : option string
}.

(** [s.split(',')] *)
Fixpoint split_comma (s : string) : list string :=
  match s with
  | EmptyString => [EmptyString]
  | String c r =>
      if Ascii.eqb c "," then EmptyString :: split_comma r
      else match split_comma r with
           | x :: xs => String c x :: xs
           | [] => [String c EmptyString]
           end
  end.

(** A variable of [process.env] that is set and not empty. *)
Definition env_set (v : option string) : bool :=
  match v with
  | Some s => negb (String.eqb s "")
  | None => false
  end.

Definition env_value (v : option string) : string :=
  match v with Some s => s | None => "" end.

(** [process.env.NODE_ENV === 'production'] *)
Definition is_production (env : Env) : bool :=
  match NODE_ENV env with
  | Some v => String.eqb v "production"
  | None => false
  end.

(** [process.env.FRONTEND_URL.split(',').map(url => url.trim())] *)
Definition allowedUrls (env : Env) : list string :=
  map trim (split_comma (env_value (FRONTEND_URL env))).

(** The [origin] function of [corsOptions] in the server that refuses
    origins in production ([middleware/upload.js], lines 56 to 84):
    [true] for [callback(null, true)], [false] for the error
    'Not allowed by CORS'.  [None] is a request without an Origin header. *)
Definition cors_origin (env : Env) (origin : option string) : bool :=
  match origin with
  | None => true
  | Some origin =>
      if String.eqb origin "" then true
      else if negb (is_production env) &&
              (includes "localhost" origin || includes "127.0.0.1" origin)
      then true
      else if includes ".vercel.app" origin then true
      else if env_set (FRONTEND_URL env) &&
              existsb
                (fun allowedUrl =>
                   String.eqb origin allowedUrl || starts_with allowedUrl origin)
                (allowedUrls env)
      then true
      else if is_production env then false
      else true
  end.

(** [s.replace(/^https?:\/\//, '')] *)
Definition strip_protocol (s : string) : string :=
  if starts_with "http://" s then substring 7 (String.length s - 7) s
  else if starts_with "https://" s then substring 8 (String.length s - 8) s
  else s.

(** The [origin] function of the later server ([unnamed/part_001], lines 34
    to 71). *)
Definition cors_origin_open (env : Env) (origin : option string) : bool :=
  match origin with
  | None => true
  | Some origin =>
      if String.eqb origin "" then true
      else if includes "localhost" origin || includes "127.0.0.1" origin then true
      else if includes ".vercel.app" origin then true
      else if env_set (FRONTEND_URL env) &&
              existsb
                (fun allowedUrl =>
                   let allowedOrigin := strip_protocol allowedUrl in
                   let requestOrigin := strip_protocol origin in
                   String.eqb requestOrigin allowedOrigin ||
                   starts_with allowedOrigin requestOrigin)
                (allowedUrls env)
      then true
      else if is_production env then true
      else true
  end.

(** Whether a listed URL begins the origin. *)
Definition listed_origin (env : Env) (origin : string) : Prop :=
  env_set (FRONTEND_URL env) = true /\
  exists allowedUrl, In allowedUrl (allowedUrls env) /\
                     starts_with allowedUrl origin = true.

(** ** The Product schema ([models/Product.js], lines 1 to 35) *)

Module Product.

Record t : Type := mk {
  _id : N;
  name : string;
  description : string;
  category : string;
  price : number;
  image : string;
  cloudinary_id : string;   (* [""] when the path is not set *)
  featured : bool;
  createdAt : Z;
  updatedAt : Z
}.

(** The validators of the schema on a document whose paths were cast:
    [required] on name, description, category and image, and a price that
    is a number. *)
Definition valid (p : t) : bool :=
  negb (String.eqb (name p) "") &&
  negb (String.eqb (description p) "") &&
  negb (String.eqb (category p) "") &&
  negb (isNaN (price p)) &&
  negb (String.eqb (image p) "").

End Product.

(** ** The products collection *)

Record products : Type := {
  stored : list Product.t;
  next_product : N   (* the id the next created document gets *)
}.

Definition no_products : products := {| stored := []; next_product := 0%N |}.

Definition Product_findById (st : products) (id : N) : option Product.t :=
  find (fun p => N.eqb (Product._id p) id) (stored st).

(** [Product.create(doc)]: a string path that is [null] or [undefined] is
    not set ([None]) and fails [required]; the document gets a fresh id
    and its timestamps. *)
Definition Product_create (st : products) (now : Z)
    (name description category : option string) (price : number)
    (image cloudinary_id : string) (featured : bool)
  : error + (Product.t * products) :=
  match name, description, category with
  | Some name, Some description, Some category =>
      let p := Product.mk (next_product st) name description category price
                 image cloudinary_id featured now now in
      if negb (Product.valid p) then inl ValidationError
      else inr (p, {| stored := stored st ++ [p];
                      next_product := N.succ (next_product st) |})
  | _, _, _ => inl ValidationError
  end.

(** No path of [d] differs from the loaded document: nothing is modified. *)
Definition unmodified (loaded d : Product.t) : bool :=
  String.eqb (Product.name d) (Product.name loaded) &&
  String.eqb (Product.description d) (Product.description loaded) &&
  String.eqb (Product.category d) (Product.category loaded) &&
  num_eqb (Product.price d) (Product.price loaded) &&
  String.eqb (Product.image d) (Product.image loaded) &&
  String.eqb (Product.cloudinary_id d) (Product.cloudinary_id loaded) &&
  Bool.eqb (Product.featured d) (Product.featured loaded).

Definition replace_product (p : Product.t) (l : list Product.t) : list Product.t :=
  map (fun x => if N.eqb (Product._id x) (Product._id p) then p else x) l.

(** [product.save()] of the loaded document [loaded] after the assignments
    that made it [d]: validation, then the write; [updatedAt] moves only
    when a path was modified. *)
Definition Product_save (st : products) (now : Z) (loaded d : Product.t)
  : error + (Product.t * products) :=
  if negb (Product.valid d) then inl ValidationError
  else
    let p := Product.mk (Product._id loaded) (Product.name d)
               (Product.description d) (Product.category d) (Product.price d)
               (Product.image d) (Product.cloudinary_id d) (Product.featured d)
               (Product.createdAt loaded)
               (if unmodified loaded d then Product.updatedAt loaded else now) in
    inr (p, {| stored := replace_product p (stored st);
               next_product := next_product st |}).

(** [Product.findByIdAndDelete(id)] *)
Definition Product_findByIdAndDelete (st : products) (id : N) : products :=
  {| stored := filter (fun p => negb (N.eqb (Product._id p) id)) (stored st);
     next_product := next_product st |}.

(** ** The product routes ([models/Product.js], lines 706 to 977)

    The answers keep the status and the message; the [error] field, a
    stack trace outside production, is left out.  What the image host
    keeps is not represented, so the deletion of a replaced image, whose
    failure the handlers catch and log, does not appear. *)

(** The answer of [cloudinary.uploader.upload]: it throws an error with a
    message, or returns [secure_url] and [public_id], each [""] when it is
    missing. *)
Inductive upload_answer : Type :=
| UploadThrows (message : string)
| Uploaded (secure_url public_id : string).

(** The image host: the upload with the option [upload_preset] ([Some]) or
    without it, signed ([None]). *)
Record Cloudinary : Type := {
  uploader_upload : option string -> File -> upload_answer
}.

Inductive product_payload : Type :=
| PMessage (m : string)
| PValidation                         (* the messages of the validators *)
| ProductJson (p : Product.t)
| ProductsJson (l : list Product.t).

Record product_response : Type := { p_status : Z; p_json : product_payload }.

Definition answer (s : Z) (p : product_payload) : product_response :=
  {| p_status := s; p_json := p |}.

Record product_body : Type := {
  pb_name : value;
  pb_description : value;
  pb_category : value;
  pb_price : value;
  pb_featured : value
}.

Record product_request : Type := {
  preq_body : product_body;
  preq_file : option File;
  preq_id : N            (* [req.params.id] *)
}.

(** [v === "true"] *)
Definition is_true_string (v : value) : bool :=
  match v with VStr s => String.eqb s "true" | _ => false end.

(** [process.env.CLOUDINARY_UPLOAD_PRESET || "pizza_unsigned"] *)
Definition upload_preset (env : Env) : string :=
  if env_set (CLOUDINARY_UPLOAD_PRESET env)
  then env_value (CLOUDINARY_UPLOAD_PRESET env)
  else "pizza_unsigned".

Section ProductRoutes.

Variable h : Host.
Variable cloudinary : Cloudinary.
Variable env : Env.

(** GET /api/products *)
Definition get_products (st : products) : product_response :=
  answer 200 (ProductsJson (sort_desc Product.createdAt (stored st))).

(** GET /api/products/:id *)
Definition get_product (st : products) (id : N) : product_response :=
  match Product_findById st id with
  | None => answer 404 (PMessage "Product not found")
  | Some product => answer 200 (ProductJson product)
  end.

(** The upload of POST, with its fallback: [inl] is the answer the handler
    returns from inside the [catch], [inr] what [uploaded] holds. *)
Definition post_upload (file : File) : product_response + (string * string) :=
  let uploadPreset := upload_preset env in
  match
    if negb (String.eqb uploadPreset "")
    then uploader_upload cloudinary (Some uploadPreset) file
    else UploadThrows "No upload preset configured"
  with
  | Uploaded secure_url public_id => inr (secure_url, public_id)
  | UploadThrows message =>
      if negb (String.eqb message "") && includes "preset" message then
        match uploader_upload cloudinary None file with
        | Uploaded secure_url public_id => inr (secure_url, public_id)
        | UploadThrows _ =>
            inl (answer 500
                   (PMessage
                      ("Failed to upload image to Cloudinary. Please create an upload preset named "
                       ++ dq ++ uploadPreset ++ dq ++
                       " in your Cloudinary dashboard, or ensure your Cloudinary API credentials are correct.")))
        end
      else
        inl (answer 500
               (PMessage
                  ("Failed to upload image to Cloudinary: " ++
                   (if String.eqb message "" then "Unknown error" else message))))
  end.

(** POST /api/products *)
Definition post_product (st : products) (now : Z) (req : product_request)
  : product_response * products :=
  let b := preq_body req in
  match preq_file req with
  | None => (answer 400 (PMessage "Image file is required"), st)
  | Some file =>
      if negb (env_set (CLOUDINARY_CLOUD_NAME env)) ||
         negb (env_set (CLOUDINARY_API_KEY env)) ||
         negb (env_set (CLOUDINARY_API_SECRET env))
      then (answer 500
              (PMessage
                 "Cloudinary configuration is missing. Please set CLOUDINARY_CLOUD_NAME, CLOUDINARY_API_KEY, and CLOUDINARY_API_SECRET environment variables."),
            st)
      else
      match post_upload file with
      | inl r => (r, st)
      | inr (secure_url, public_id) =>
          if String.eqb secure_url ""
          then (answer 500
                  (PMessage
                     "Failed to upload image to Cloudinary - no secure URL returned"),
                st)
          else
          match
            Product_create st now (castString h (pb_name b))
              (castString h (pb_description b)) (castString h (pb_category b))
              (parseFloat_value (pb_price b)) secure_url public_id
              (is_true_string (pb_featured b))
          with
          | inr (product, st') => (answer 201 (ProductJson product), st')
          | inl _ => (answer 400 PValidation, st)
          end
      end
  end.

(** The upload of PUT: [inl] is the message of the error that reaches the
    outer [catch]. *)
Definition put_upload (file : File) : string + (string * string) :=
  let uploadPreset := upload_preset env in
  match
    match uploader_upload cloudinary (Some uploadPreset) file with
    | Uploaded secure_url public_id => inr (secure_url, public_id)
    | UploadThrows message =>
        if negb (String.eqb message "") && includes "preset" message then
          match uploader_upload cloudinary None file with
          | Uploaded secure_url public_id => inr (secure_url, public_id)
          | UploadThrows message' => inl message'
          end
        else inl message
    end
  with
  | inl message => inl message
  | inr (secure_url, public_id) =>
      if String.eqb secure_url "" then inl "Failed to upload image to Cloudinary"
      else inr (secure_url, public_id)
  end.

(** PUT /api/products/:id *)
Definition put_product (st : products) (now : Z) (req : product_request)
  : product_response * products :=
  let b := preq_body req in
  match Product_findById st (preq_id req) with
  | None => (answer 404 (PMessage "Product not found"), st)
  | Some product =>
      match
        match preq_file req with
        | Some file => put_upload file
        | None => inr (Product.image product, Product.cloudinary_id product)
        end
      with
      | inl message =>
          (answer 500
             (PMessage (if String.eqb message "" then "Failed to update product"
                        else message)),
           st)
      | inr (imageUrl, cloudinaryId) =>
          let name :=
            if truthy (pb_name b) then castString h (pb_name b)
            else Some (Product.name product) in
          let description :=
            if truthy (pb_description b) then castString h (pb_description b)
            else Some (Product.description product) in
          let category :=
            if truthy (pb_category b) then castString h (pb_category b)
            else Some (Product.category product) in
          let price :=
            if truthy (pb_price b) then parseFloat_value (pb_price b)
            else Product.price product in
          let featured :=
            if negb (is_undefined (pb_featured b))
            then is_true_string (pb_featured b)
            else Product.featured product in
          match name, description, category with
          | Some name, Some description, Some category =>
              match
                Product_save st now product
                  (Product.mk (Product._id product) name description category
                     price imageUrl cloudinaryId featured
                     (Product.createdAt product) (Product.updatedAt product))
              with
              | inr (saved, st') => (answer 200 (ProductJson saved), st')
              | inl _ => (answer 500 PValidation, st)
              end
          | _, _, _ => (answer 500 PValidation, st)
          end
      end
  end.

(** DELETE /api/products/:id *)
Definition delete_product (st : products) (id : N) : product_response * products :=
  match Product_findById st id with
  | None => (answer 404 (PMessage "Product not found"), st)
  | Some product =>
      (answer 200 (PMessage "Product deleted successfully"),
       Product_findByIdAndDelete st id)
  end.

(** The collections the routes can reach from the empty one. *)
Inductive reachable_products : products -> Prop :=
| reach_none : reachable_products no_products
| reach_post_product st now req :
    reachable_products st -> reachable_products (snd (post_product st now req))
| reach_put_product st now req :
    reachable_products st -> reachable_products (snd (put_product st now req))
| reach_delete_product st id :
    reachable_products st -> reachable_products (snd (delete_product st id)).

End ProductRoutes.

(** ** Products: vocabulary *)

(** The three variables the upload needs are set. *)
Definition config_set (env : Env) : bool :=
  env_set (CLOUDINARY_CLOUD_NAME env) && env_set (CLOUDINARY_API_KEY env) &&
  env_set (CLOUDINARY_API_SECRET env).

(** A string path that is set and not empty. *)
Definition required (s : option string) : bool :=
  match s with
  | Some s => negb (String.eqb s "")
  | None => false
  end.

(** The image host returns [secure_url] and [public_id] for the file,
    at the first attempt or, after an error about the preset, at the
    signed one. *)
Definition uploads (cloudinary : Cloudinary) (env : Env) (file : File)
    (secure_url public_id : string) : Prop :=
  uploader_upload cloudinary (Some (upload_preset env)) file =
    Uploaded secure_url public_id \/
  exists message,
    uploader_upload cloudinary (Some (upload_preset env)) file =
      UploadThrows message /\
    includes "preset" message = true /\
    uploader_upload cloudinary None file = Uploaded secure_url public_id.

(** The fields of the request body pass the validators of the schema. *)
Definition product_fields_valid (h : Host) (b : product_body) : bool :=
  required (castString h (pb_name b)) &&
  required (castString h (pb_description b)) &&
  required (castString h (pb_category b)) &&
  negb (isNaN (parseFloat_value (pb_price b))).

(** Ids are below the next id and none is stored twice, and every stored
    product passes the validators. *)
Definition products_ok (st : products) : Prop :=
  (forall p, In p (stored st) ->
     (Product._id p < next_product st)%N /\ Product.valid p = true) /\
  NoDup (map Product._id (stored st)).

(** An update without a field and without a file. *)
Definition empty_product_update (id : N) : product_request :=
  {| preq_body :=
       {| pb_name := VUndefined; pb_description := VUndefined;
          pb_category := VUndefined; pb_price := VUndefined;
          pb_featured := VUndefined |};
     preq_file := None;
     preq_id := id |}.

(** ** The sales report document ([generateSalesReportPDF], [models/Product.js], lines 154 to 281) *)

(** A count as [String(n)] writes it. *)
Definition nat_toString (n : nat) : string := decimal (N.of_nat n).

Section SalesReportDocument.

Variable h : Host.

(** [toLocaleDateString] of a date, as the host writes it. *)
Variable toLocaleDateString : Z -> string.

Definition report_row (order : Order.t) : string :=
  "
        <tr>
          <td>" ++
  (slice_last 8 (Order._id order)) ++
  "</td>
          <td>" ++
  (Order.customerName order) ++
  "</td>
          <td>" ++
  (toLocaleString h (Order.createdAt order)) ++
  "</td>
          <td>$" ++
  (number_toFixed2 (amount (Order.totalAmount order))) ++
  "</td>
          <td>" ++
  (Order.orderStatus order) ++
  "</td>
        </tr>
      ".

(** [reportData.orders.map(order => ...).join('')] *)
Definition report_rows (orders : list Order.t) : string :=
  String.concat "" (map report_row orders).

(** The document of the report [reportData], written at the instant [now]. *)
Definition generateSalesReportPDF (reportData : Report) (now : Z) : string :=
  "
<!DOCTYPE html>
<html>
<head>
  <title>Sales Report - " ++
  (period reportData) ++
  "</title>
  <style>
    body {
      font-family: Arial, sans-serif;
      max-width: 1000px;
      margin: 0 auto;
      padding: 20px;
    }
    .header {
      text-align: center;
      border-bottom: 2px solid #000;
      padding-bottom: 20px;
      margin-bottom: 20px;
    }
    .summary {
      display: grid;
      grid-template-columns: repeat(2, 1fr);
      gap: 20px;
      margin: 20px 0;
    }
    .summary-card {
      border: 1px solid #ddd;
      padding: 15px;
      border-radius: 5px;
    }
    .summary-card h3 {
      margin-top: 0;
      color: #333;
    }
    table {
      width: 100%;
      border-collapse: collapse;
      margin: 20px 0;
    }
    th, td {
      border: 1px solid #ddd;
      padding: 10px;
      text-align: left;
    }
    th {
      background-color: #f2f2f2;
      font-weight: bold;
    }
    .footer {
      margin-top: 40px;
      text-align: center;
      color: #666;
      font-size: 12px;
    }
  </style>
</head>
<body>
  <div class=" ++ dq ++ "header" ++ dq ++ ">
    <h1>American Pizza</h1>
    <h2>Sales Report - " ++
  (toUpperCase (period reportData)) ++
  "</h2>
    <p>Period: " ++
  (toLocaleDateString (startDate reportData)) ++
  " to " ++
  (toLocaleDateString (endDate reportData)) ++
  "</p>
  </div>
  
  <div class=" ++ dq ++ "summary" ++ dq ++ ">
    <div class=" ++ dq ++ "summary-card" ++ dq ++ ">
      <h3>Total Sales</h3>
      <p style=" ++ dq ++ "font-size: 24px; font-weight: bold;" ++ dq ++ ">$" ++
  (number_toFixed2 (totalSales (summary reportData))) ++
  "</p>
    </div>
    <div class=" ++ dq ++ "summary-card" ++ dq ++ ">
      <h3>Total Orders</h3>
      <p style=" ++ dq ++ "font-size: 24px; font-weight: bold;" ++ dq ++ ">" ++
  (nat_toString (totalOrders (summary reportData))) ++
  "</p>
    </div>
    <div class=" ++ dq ++ "summary-card" ++ dq ++ ">
      <h3>Average Order Value</h3>
      <p style=" ++ dq ++ "font-size: 24px; font-weight: bold;" ++ dq ++ ">$" ++
  (number_toFixed2 (averageOrderValue (summary reportData))) ++
  "</p>
    </div>
    <div class=" ++ dq ++ "summary-card" ++ dq ++ ">
      <h3>Delivery Charges</h3>
      <p style=" ++ dq ++ "font-size: 24px; font-weight: bold;" ++ dq ++ ">$" ++
  (number_toFixed2 (totalDeliveryCharges (summary reportData))) ++
  "</p>
    </div>
  </div>
  
  <h2>Order Status Breakdown</h2>
  <table>
    <tr>
      <th>Status</th>
      <th>Count</th>
    </tr>
    <tr><td>Pending</td><td>" ++
  (nat_toString (Pending (statusCounts (summary reportData)))) ++
  "</td></tr>
    <tr><td>Preparing</td><td>" ++
  (nat_toString (Preparing (statusCounts (summary reportData)))) ++
  "</td></tr>
    <tr><td>Out for Delivery</td><td>" ++
  (nat_toString (OutForDelivery (statusCounts (summary reportData)))) ++
  "</td></tr>
    <tr><td>Delivered</td><td>" ++
  (nat_toString (Delivered (statusCounts (summary reportData)))) ++
  "</td></tr>
  </table>
  
  <h2>Order Details</h2>
  <table>
    <thead>
      <tr>
        <th>Order ID</th>
        <th>Customer</th>
        <th>Date</th>
        <th>Total</th>
        <th>Status</th>
      </tr>
    </thead>
    <tbody>
      " ++
  report_rows (orders reportData) ++
  "
    </tbody>
  </table>
  
  <div class=" ++ dq ++ "footer" ++ dq ++ ">
    <p>Generated on " ++
  (toLocaleString h now) ++
  "</p>
    <p>American Pizza - Sales Report</p>
  </div>
</body>
</html>
  ".

End SalesReportDocument.

(** No text of the listed orders holds a [<]. *)
Definition rows_free (h : Host) (l : list Order.t) : bool :=
  forallb
    (fun order =>
       no_markup (Order._id order) && no_markup (Order.customerName order) &&
       no_markup (toLocaleString h (Order.createdAt order)) &&
       no_markup (Order.orderStatus order)) l.

(** No text of the report, and no date the host writes for it, holds a
    [<]. *)
Definition report_markup_free (h : Host) (toLocaleDateString : Z -> string)
    (reportData : Report) (now : Z) : bool :=
  no_markup (period reportData) &&
  no_markup (toLocaleDateString (startDate reportData)) &&
  no_markup (toLocaleDateString (endDate reportData)) &&
  no_markup (toLocaleString h now) &&
  rows_free h (orders reportData).

(** ** More of the receipt *)

Definition total_marker : string := "<p>Total Amount: $".

(** ** More requests and a second host for the examples *)

(** The offer an answer carries. *)
Definition answered_offer (r : response) : Offer.t :=
  match json r with
  | OfferJson o => o
  | _ => Offer.mk 0 "" "" NaN "" 0 0 None NaN "" "" 0 0
  end.

(** The stored "SAVE10". *)
Definition offer_save10 : Offer.t :=
  answered_offer
    (fst (post_offer sample_host empty_store sample_now
            (save10 (VStr "10") (VStr "SAVE10")))).

(** An update that carries a discount and no other field. *)
Definition discount_only_update (id : N) (discount : value) : request :=
  {| req_body :=
       {| b_title := VUndefined; b_description := VUndefined;
          b_discount := discount; b_code := VUndefined;
          b_validFrom := VUndefined; b_validUntil := VUndefined;
          b_isActive := VUndefined; b_minOrderAmount := VUndefined |};
     req_file := None;
     req_id := id |}.

(** An image host without the preset: the upload with a preset throws,
    the signed one returns a URL made of the bytes of the file. *)
Definition sample_cloudinary : Cloudinary :=
  {| uploader_upload :=
       fun preset file =>
         match preset with
         | Some _ => UploadThrows "Upload preset not found"
         | None => Uploaded ("https://res.cloudinary.com/" ++ buffer file) (buffer file)
         end |}.

Definition sample_env : Env :=
  {| NODE_ENV := Some "production";
     FRONTEND_URL := Some "https://pizza.example.com, https://admin.example.com";
     CLOUDINARY_CLOUD_NAME := Some "pizza";
     CLOUDINARY_API_KEY := Some "key";
     CLOUDINARY_API_SECRET := Some "secret";
     CLOUDINARY_UPLOAD_PRESET := None |}.

Definition margherita_request : product_request :=
  {| preq_body :=
       {| pb_name := VStr "Margherita"; pb_description := VStr "Tomato and mozzarella";
          pb_category := VStr "pizza"; pb_price := VStr "8.50";
          pb_featured := VStr "true" |};
     preq_file := Some {| mimetype := "image/png"; buffer := "margherita" |};
     preq_id := 0%N |}.

(** The products after the Margherita is created in the empty collection. *)
Definition store_margherita : products :=
  snd (post_product sample_host sample_cloudinary sample_env no_products sample_now
         margherita_request).

(** The product an answer carries. *)
Definition answered_product (r : product_response) : Product.t :=
  match p_json r with
  | ProductJson p => p
  | _ => Product.mk 0 "" "" "" NaN "" "" false 0 0
  end.

(** The stored Margherita. *)
Definition margherita : Product.t :=
  answered_product
    (fst (post_product sample_host sample_cloudinary sample_env no_products
            sample_now margherita_request)).

(** An update of product 0 that sends the JSON values [true] and 0. *)
Definition json_product_update : product_request :=
  {| preq_body :=
       {| pb_name := VStr "Margherita XL"; pb_description := VUndefined;
          pb_category := VUndefined; pb_price := VNum (Fin 0);
          pb_featured := VBool true |};
     preq_file := None;
     preq_id := 0%N |}.

(** * Properties *)


(** ** The embedding on concrete inputs *)

Example parseFloat_examples :
  num_eq (parseFloat "  12.5abc") (Fin (25 # 2)) /\
  num_eq (parseFloat "1e2") (Fin 100) /\
  num_eq (parseFloat ".5") (Fin (1 # 2)) /\
  num_eq (parseFloat "-7.") (Fin (-7)) /\
  parseFloat "abc" = NaN /\
  parseFloat "." = NaN /\
  parseFloat "" = NaN /\
  parseFloat "-Infinity" = NegInf.
Proof. vm_compute. repeat split. Qed.

(** The doubles nearest to 0.1, 5.45 and 1.005; half-way cases go to the
    even significand; the largest double, the overflow to an infinity and
    the smallest double. *)
Example round64_examples :
  round64 (1 # 10) = Fin (3602879701896397 # 36028797018963968) /\
  round64 (545 # 100) = Fin (6136154492292301 # 1125899906842624) /\
  round64 (1005 # 1000) = Fin (1131529406376837 # 1125899906842624) /\
  round64 (inject_Z (2 ^ 53 + 1)) = Fin (inject_Z (2 ^ 53)) /\
  round64 (inject_Z (2 ^ 53 + 3)) = Fin (inject_Z (2 ^ 53 + 4)) /\
  round64 (inject_Z (2 ^ 1024 - 2 ^ 970 - 1)) = Fin (inject_Z (2 ^ 1024 - 2 ^ 971)) /\
  round64 (inject_Z (2 ^ 1024 - 2 ^ 970)) = PosInf /\
  num_eq (round64 (Qpower 2 (-1074))) (Fin (Qpower 2 (-1074))) /\
  round64 (Qpower 2 (-1075)) = Fin 0 /\
  num_add (Fin 5) (round64 (545 # 100)) = round64 (1045 # 100) /\
  number_toFixed2
    (num_div (num_add (Fin 5) (round64 (545 # 100))) (num_of_nat 2)) = "5.22" /\
  number_toFixed2 (round64 (1005 # 1000)) = "1.00".
Proof. vm_compute. repeat split. Qed.

Example toFixed2_examples :
  toFixed2 (57 # 2) = "28.50" /\
  toFixed2 (1 # 8) = "0.13" /\
  toFixed2 (- 1 # 1000) = "-0.00" /\
  toFixed2 (1 # 3) = "0.33" /\
  toFixed2 (- 5 # 2) = "-2.50".
Proof. repeat split. Qed.

Example string_examples :
  trim "  SAVE 10 " = "SAVE 10" /\
  toUpperCase "save10-x" = "SAVE10-X" /\
  slice_last 8 "65a1f0c2e4b0a1b2c3d4e5f6" = "c3d4e5f6".
Proof. repeat split. Qed.

(** 1 January 1970 is day 0, a Thursday; 29 February 2024 is day 19782;
    the 32nd of December is the first of January. *)
Example calendar_examples :
  civil_from_days 0 = (1970, 0, 1) /\
  getDay 0 = 4 /\
  civil_from_days 19782 = (2024, 1, 29) /\
  MakeDay 2024 1 29 = 19782 /\
  MakeDay 2023 11 32 = MakeDay 2024 0 1 /\
  MakeDay 2023 12 1 = MakeDay 2024 0 1 /\
  Date_ymd 99 0 1 = Date_ymd 1999 0 1.
Proof. repeat split. Qed.


(** ** Sorting keeps the documents *)

Lemma insert_desc_perm {A : Type} (key : A -> Z) (x : A) (l : list A) :
  Permutation (x :: l) (insert_desc key x l).
Proof.
  induction l as [|y r IH]; simpl.
  - apply Permutation_refl.
  - destruct (key y <? key x).
    + apply Permutation_refl.
    + eapply perm_trans; [apply perm_swap|].
      now apply perm_skip.
Qed.

Lemma sort_desc_perm {A : Type} (key : A -> Z) (l : list A) :
  Permutation l (sort_desc key l).
Proof.
  induction l as [|x r IH]; simpl.
  - apply perm_nil.
  - eapply perm_trans; [apply perm_skip, IH|].
    apply insert_desc_perm.
Qed.

Lemma sort_desc_In {A : Type} (key : A -> Z) (l : list A) (x : A) :
  In x (sort_desc key l) <-> In x l.
Proof.
  split; apply Permutation_in;
    [apply Permutation_sym|]; apply sort_desc_perm.
Qed.

Lemma sort_desc_length {A : Type} (key : A -> Z) (l : list A) :
  List.length (sort_desc key l) = List.length l.
Proof.
  symmetry. apply Permutation_length, sort_desc_perm.
Qed.

(** ** The active listing *)

Lemma active_at_spec (now : Z) (o : Offer.t) :
  active_at now o = true <->
  Offer.isActive o = Some true /\
  Offer.validFrom o <= now /\ now <= Offer.validUntil o.
Proof.
  unfold active_at.
  rewrite !andb_true_iff, !Z.leb_le.
  destruct (Offer.isActive o) as [[|]|]; intuition congruence.
Qed.

(** C7: an offer is in the public listing of the active offers exactly when
    it is stored, its [isActive] flag is [true] and the query instant lies
    in [validFrom, validUntil], both ends included; so an offer whose
    [validUntil] has passed is left out even when its flag is [true]. *)
Theorem active_listing_iff (st : store) (now : Z) (o : Offer.t) :
  (In o (listed (get_offers st now)) <->
   In o (offers st) /\ Offer.isActive o = Some true /\
   Offer.validFrom o <= now /\ now <= Offer.validUntil o) /\
  (Offer.isActive o = Some true -> Offer.validUntil o < now ->
   ~ In o (listed (get_offers st now))).
Proof.
  unfold listed, get_offers; simpl.
  rewrite sort_desc_In, filter_In, active_at_spec.
  split; [tauto | lia].
Qed.

(** ** The counts of the sales report *)

Lemma count_status_cons (s : string) (o : Order.t) (l : list Order.t) :
  count_status s (o :: l) =
  ((if String.eqb (Order.orderStatus o) s then 1 else 0) + count_status s l)%nat.
Proof.
  unfold count_status; simpl. now destruct (String.eqb _ _).
Qed.

Lemma count_type_cons (s : string) (o : Order.t) (l : list Order.t) :
  count_type s (o :: l) =
  ((if String.eqb (Order.deliveryType o) s then 1 else 0) + count_type s l)%nat.
Proof.
  unfold count_type; simpl. now destruct (String.eqb _ _).
Qed.

Ltac eqb_cases :=
  repeat match goal with
  | |- context [String.eqb ?a ?b] =>
      let E := fresh "E" in
      destruct (String.eqb a b) eqn:E;
      [apply String.eqb_eq in E|]
  end.

(** The four counts and the orders of any other status add up to the
    number of orders. *)
Lemma status_partition (l : list Order.t) :
  (count_status "Pending" l + count_status "Preparing" l +
   count_status "Out for Delivery" l + count_status "Delivered" l +
   List.length (filter (fun o => negb (named_status (Order.orderStatus o))) l)
   = List.length l)%nat.
Proof.
  induction l as [|o r IH]; [reflexivity|].
  rewrite !count_status_cons. simpl filter. unfold named_status at 1.
  eqb_cases; simpl; try congruence; lia.
Qed.

Lemma type_partition (l : list Order.t) :
  (count_type "pickup" l + count_type "delivery" l +
   List.length
     (filter (fun o => negb (String.eqb (Order.deliveryType o) "pickup" ||
                          String.eqb (Order.deliveryType o) "delivery")) l)
   = List.length l)%nat.
Proof.
  induction l as [|o r IH]; [reflexivity|].
  rewrite !count_type_cons. simpl filter.
  eqb_cases; simpl; try congruence; lia.
Qed.

Lemma filter_In_length {A : Type} (f : A -> bool) (l : list A) (x : A) :
  In x l -> f x = true -> (0 < List.length (filter f l))%nat.
Proof.
  intros Hin Hf.
  assert (H : In x (filter f l)) by (apply filter_In; auto).
  destruct (filter f l); [destruct H | simpl; lia].
Qed.

(** C10: in every report the four status counts add up to at most the
    number of orders, to strictly less as soon as an order of the window has
    another status, and the pickup and delivery counts add up to at most
    the number of orders. *)
Theorem report_counts_bounded (db : list Order.t) (now : Z) (p : option string) :
  let r := get_report db now p in
  let s := summary r in
  (status_sum (statusCounts s) <= totalOrders s)%nat /\
  ((exists o, In o (orders r) /\ named_status (Order.orderStatus o) = false) ->
   (status_sum (statusCounts s) < totalOrders s)%nat) /\
  (pickupOrders s + deliveryOrders s <= totalOrders s)%nat.
Proof.
  unfold get_report.
  destruct (report_window _ now) as [startDate endDate]. cbn zeta.
  set (l := find_orders db startDate endDate).
  cbn [summary orders summarize statusCounts totalOrders pickupOrders
       deliveryOrders status_sum Pending Preparing OutForDelivery Delivered].
  pose proof (status_partition l) as HS.
  pose proof (type_partition l) as HT.
  unfold status_sum; cbn [Pending Preparing OutForDelivery Delivered].
  split; [lia|]. split; [|lia].
  intros (o & Hin & Hst).
  assert (0 < List.length
            (filter (fun o => negb (named_status (Order.orderStatus o))) l))%nat.
  { apply filter_In_length with o; [exact Hin|]. now rewrite Hst. }
  lia.
Qed.



(** ** Reading back the digits [decimal] writes *)

Lemma read_digits_stop (s : string) (acc : Z) (cnt : nat) :
  not_digit_head s -> read_digits s acc cnt = (acc, cnt, s).
Proof.
  destruct s as [|c r]; simpl; [reflexivity|]. now intros ->.
Qed.

Lemma read_digits_uint (d : Decimal.uint) (rest : string) (acc : Z) (cnt : nat) :
  not_digit_head rest ->
  read_digits (NilEmpty.string_of_uint d ++ rest) acc cnt =
  (uint_value d acc, (cnt + Decimal.nb_digits d)%nat, rest).
Proof.
  intros Hrest. revert acc cnt.
  induction d; intros acc cnt; cbn [NilEmpty.string_of_uint Decimal.nb_digits uint_value];
    try (cbn [append read_digits]; change (is_digit _) with true; cbv iota;
         rewrite IHd, Nat.add_succ_r; reflexivity).
  simpl append. rewrite read_digits_stop by assumption.
  now rewrite Nat.add_0_r.
Qed.

Lemma uint_value_acc (d : Decimal.uint) (acc : Z) :
  uint_value d acc = acc * 10 ^ Z.of_nat (Decimal.nb_digits d) + uint_value d 0.
Proof.
  revert acc.
  induction d; intros acc; cbn [uint_value Decimal.nb_digits];
    try (rewrite IHd, (IHd (10 * 0 + _)), Nat2Z.inj_succ, Z.pow_succ_r by lia; ring).
  cbn. ring.
Qed.

Lemma of_uint_acc_value (d : Decimal.uint) (acc : positive) :
  Z.pos (Pos.of_uint_acc d acc) = uint_value d (Z.pos acc).
Proof.
  revert acc.
  induction d; intros acc; cbn [Pos.of_uint_acc uint_value];
    try (rewrite IHd; f_equal; lia).
  reflexivity.
Qed.

Lemma of_uint_value (d : Decimal.uint) :
  Z.of_N (N.of_uint d) = uint_value d 0.
Proof.
  unfold N.of_uint.
  induction d; cbn [Pos.of_uint uint_value];
    try (cbn [Z.of_N]; rewrite of_uint_acc_value; reflexivity).
  - reflexivity.
  - exact IHd.
Qed.

Lemma read_digits_decimal (n : N) (rest : string) :
  not_digit_head rest ->
  read_digits (decimal n ++ rest) 0 0 =
  (Z.of_N n, Decimal.nb_digits (N.to_uint n), rest).
Proof.
  intros Hrest. unfold decimal.
  rewrite read_digits_uint by assumption.
  now rewrite <- of_uint_value, DecimalN.Unsigned.of_to.
Qed.

(** [decimal] writes at least one digit. *)
Lemma string_of_uint_head (d : Decimal.uint) :
  d <> Decimal.Nil ->
  exists c r, NilEmpty.string_of_uint d = String c r /\ is_digit c = true.
Proof.
  destruct d; intros Hd; try (simpl; eexists; eexists; split; reflexivity).
  now destruct Hd.
Qed.

Lemma decimal_head (n : N) :
  exists c r, decimal n = String c r /\ is_digit c = true.
Proof.
  apply string_of_uint_head.
  destruct n as [|p]; [discriminate|].
  apply DecimalPos.Unsigned.to_uint_nonnil.
Qed.

Lemma nb_digits_pos (n : N) : (0 < Decimal.nb_digits (N.to_uint n))%nat.
Proof.
  assert (H : N.to_uint n <> Decimal.Nil).
  { destruct n as [|p]; [discriminate|].
    apply DecimalPos.Unsigned.to_uint_nonnil. }
  destruct (N.to_uint n); simpl; try lia. now destruct H.
Qed.

Lemma digit_not_space (c : ascii) : is_digit c = true -> is_space c = false.
Proof.
  unfold is_digit, is_space. intros H.
  apply andb_true_iff in H as [H1 H2].
  apply Nat.leb_le in H1. apply Nat.leb_le in H2.
  apply orb_false_iff; split.
  - apply andb_false_iff. right. apply Nat.leb_gt. lia.
  - apply Nat.eqb_neq. lia.
Qed.

Lemma digit_char_is_digit (d : Z) :
  0 <= d <= 9 -> is_digit (digit_char d) = true /\ digit_val (digit_char d) = d.
Proof.
  intros H.
  assert (C : d = 0 \/ d = 1 \/ d = 2 \/ d = 3 \/ d = 4 \/ d = 5 \/ d = 6 \/
              d = 7 \/ d = 8 \/ d = 9) by lia.
  repeat (destruct C as [-> | C]; [split; reflexivity|]).
  subst; split; reflexivity.
Qed.

(** [parseFloat] on a literal that begins with a digit, signed or not. *)
Lemma parseFloat_digit_head (neg : bool) (c : ascii) (r : string) :
  is_digit c = true ->
  parseFloat ((if neg then "-" else "") ++ String c r) =
  parse_unsigned neg (String c r).
Proof.
  intros Hc.
  destruct c as [[] [] [] [] [] [] [] []]; vm_compute in Hc;
    try discriminate Hc; destruct neg; reflexivity.
Qed.

Lemma parse_unsigned_fixed (neg : bool) (m : N) (d1 d2 : Z) :
  0 <= d1 <= 9 -> 0 <= d2 <= 9 ->
  parse_unsigned neg
    (decimal m ++ "." ++ String (digit_char d1) (String (digit_char d2) "")) =
  round64
    (let q := (inject_Z (Z.of_N m * 10 ^ 2 + (10 * d1 + d2)) * Qpower 10 (0 - 2))%Q in
     if neg then Qopp q else q).
Proof.
  intros H1 H2. unfold parse_unsigned.
  rewrite read_digits_decimal by reflexivity.
  cbn [append].
  destruct (digit_char_is_digit d1 H1) as [D1 V1].
  destruct (digit_char_is_digit d2 H2) as [D2 V2].
  cbn [read_digits]. rewrite D1, D2, V1, V2.
  cbn [read_exponent].
  pose proof (nb_digits_pos m) as Hn.
  destruct (Decimal.nb_digits (N.to_uint m)) as [|k]; [lia|].
  cbn [Nat.add]. 
  replace (10 * (10 * 0 + d1) + d2) with (10 * d1 + d2) by ring.
  reflexivity.
Qed.

Lemma cents_nonneg (x : Q) : 0 <= cents (Qabs x).
Proof.
  unfold cents. change 0 with (Qfloor 0).
  apply Qfloor_resp_le.
  pose proof (Qabs_nonneg x) as H.
  setoid_replace 0%Q with (0 * 100 + 0)%Q by ring.
  apply Qplus_le_compat; [apply Qmult_le_compat_r; [exact H|]|]; discriminate.
Qed.

(** [toFixed2] read back by [parseFloat] is the double nearest to the
    rounded value. *)
Lemma parseFloat_toFixed2 (x : Q) :
  exists q, parseFloat (toFixed2 x) = round64 q /\ (q == round2 x)%Q.
Proof.
  unfold toFixed2, round2.
  set (n := cents (Qabs x)).
  assert (Hn : 0 <= n) by apply cents_nonneg.
  destruct (decimal_head (Z.to_N (n / 100))) as (c & r & E & Hc).
  assert (Hd1 : 0 <= n mod 100 / 10 <= 9).
  { pose proof (Z.mod_pos_bound n 100 ltac:(lia)).
    split; [apply Z.div_pos; lia|].
    apply Z.lt_succ_r. apply Z.div_lt_upper_bound; lia. }
  assert (Hd2 : 0 <= n mod 10 <= 9).
  { pose proof (Z.mod_pos_bound n 10 ltac:(lia)). lia. }
  pose proof (parse_unsigned_fixed (Qnum x <? 0) (Z.to_N (n / 100)) _ _ Hd1 Hd2) as P.
  rewrite E in P |- *.
  change (String c r ++ "." ++ ?t) with (String c (r ++ "." ++ t)) in P |- *.
  rewrite (parseFloat_digit_head (Qnum x <? 0) c _ Hc).
  rewrite P. eexists; split; [reflexivity|].
  rewrite Z2N.id by (apply Z.div_pos; lia).
  assert (Hv : n / 100 * 10 ^ 2 + (10 * (n mod 100 / 10) + n mod 10) = n).
  { change (10 ^ 2) with 100.
    pose proof (Z.div_mod n 100 ltac:(lia)).
    pose proof (Z.div_mod (n mod 100) 10 ltac:(lia)).
    assert (n mod 100 mod 10 = n mod 10).
    { apply Z.mod_mod_divide. exists 10; lia. }
    lia. }
  cbv zeta. rewrite Hv.
  change (Qpower 10 (0 - 2)) with (1 # 100)%Q.
  assert (Hq : (inject_Z n * (1 # 100) == inject_Z n / 100)%Q) by reflexivity.
  destruct (Qnum x <? 0); rewrite Hq; reflexivity.
Qed.

(** ** The average order value *)

Lemma cents_close (y : Q) :
  (Qabs (inject_Z (cents y) / 100 - y) <= 1 # 200)%Q.
Proof.
  unfold cents.
  pose proof (Qfloor_le (y * 100 + (1 # 2))) as Hlo.
  pose proof (Qlt_floor (y * 100 + (1 # 2))) as Hhi.
  set (n := Qfloor (y * 100 + (1 # 2))) in *.
  rewrite inject_Z_plus in Hhi. change (inject_Z 1) with 1%Q in Hhi.
  unfold Qdiv. change (/ 100)%Q with (1 # 100)%Q.
  apply Qabs_Qle_condition. split; lra.
Qed.

Lemma Qnum_neg_iff (x : Q) : (Qnum x <? 0) = true <-> (x < 0)%Q.
Proof.
  rewrite Z.ltb_lt. unfold Qlt; simpl. lia.
Qed.

Lemma round2_rounded (x : Q) : rounded2 x (round2 x).
Proof.
  unfold rounded2, round2.
  pose proof (cents_close (Qabs x)) as H.
  set (n := cents (Qabs x)) in *.
  destruct (Qnum x <? 0) eqn:E.
  - apply Qnum_neg_iff in E. split.
    + exists (- n). rewrite inject_Z_opp. field.
    + assert (Ex : (Qabs x == - x)%Q) by (apply Qabs_neg; lra).
      rewrite Ex in H.
      unfold Qdiv in *. change (/ 100)%Q with (1 # 100)%Q in *.
      apply Qabs_Qle_condition in H. apply Qabs_Qle_condition. lra.
  - assert (Hx : (0 <= x)%Q).
    { apply Qnot_lt_le. intros Hlt. apply Qnum_neg_iff in Hlt. congruence. }
    split.
    + exists n. reflexivity.
    + assert (Ex : (Qabs x == x)%Q) by (apply Qabs_pos; exact Hx).
      now rewrite Ex in H.
Qed.

Lemma rounded2_compat (x r r' : Q) : (r == r')%Q -> rounded2 x r' -> rounded2 x r.
Proof.
  intros E [[n Hn] Hc]. split.
  - exists n. now rewrite E.
  - now rewrite E.
Qed.

(** *** The rounding to a double

    [round64] is a number, and a finite one is within half the spacing
    of the doubles of what it rounds: a relative error of [2 ^ -53], or
    half the smallest double. *)

Lemma round64_not_NaN (x : Q) : isNaN (round64 x) = false.
Proof.
  unfold round64. destruct (Qeq_bool x 0); [reflexivity|]. cbv zeta.
  destruct (Qle_bool _ _); [|reflexivity].
  now destruct (Qnum x <? 0).
Qed.

Lemma rne_close (q : Q) : (Qabs (inject_Z (rne q) - q) <= 1 # 2)%Q.
Proof.
  unfold rne.
  pose proof (Qfloor_le q) as Hlo.
  pose proof (Qlt_floor q) as Hhi.
  set (f := Qfloor q) in *.
  rewrite inject_Z_plus in Hhi. change (inject_Z 1) with 1%Q in Hhi.
  apply Qabs_Qle_condition.
  destruct (q - inject_Z f ?= 1 # 2)%Q eqn:E.
  - apply Qeq_alt in E.
    destruct (Z.even f); [|rewrite inject_Z_plus; change (inject_Z 1) with 1%Q];
      split; lra.
  - apply Qlt_alt in E. split; lra.
  - apply Qgt_alt in E. rewrite inject_Z_plus. change (inject_Z 1) with 1%Q.
    split; lra.
Qed.

Lemma Qpower2_pos (e : Z) : (0 < Qpower 2 e)%Q.
Proof. apply Qpower_0_lt. reflexivity. Qed.

Lemma Qpower2_inject (k : Z) : 0 <= k -> (Qpower 2 k == inject_Z (2 ^ k))%Q.
Proof. intros H. now rewrite Zpower_Qpower. Qed.

Lemma Qlog2_le (x : Q) : (0 < x)%Q -> (Qpower 2 (Qlog2 x) <= x)%Q.
Proof.
  intros Hx. unfold Qlog2.
  destruct (Qle_bool _ x) eqn:E; [now apply Qle_bool_iff|]. clear E.
  destruct x as [n d]. cbn [Qnum Qden].
  assert (Hn : 0 < n) by (unfold Qlt in Hx; cbn in Hx; lia).
  pose proof (Z.log2_spec n Hn) as [Hn1 _].
  pose proof (Z.log2_spec (Z.pos d) ltac:(lia)) as [_ Hd2].
  pose proof (Z.log2_nonneg n) as Ln.
  pose proof (Z.log2_nonneg (Z.pos d)) as Ld.
  replace (Z.log2 n - Z.log2 (Z.pos d) - 1)
    with (Z.log2 n - Z.succ (Z.log2 (Z.pos d))) by lia.
  rewrite Qpower_minus by discriminate.
  rewrite !Qpower2_inject by lia.
  set (A := 2 ^ Z.log2 n) in *. set (B := 2 ^ Z.succ (Z.log2 (Z.pos d))) in *.
  assert (HA : 0 < A) by (apply Z.pow_pos_nonneg; lia).
  assert (HB : 0 < B) by (apply Z.pow_pos_nonneg; lia).
  destruct B as [|pb|pb]; try lia.
  rewrite <- Qmake_Qdiv. unfold Qle. cbn [Qnum Qden]. nia.
Qed.


(** The spacing of the doubles around [a > 0] is at most [a * 2 ^ -52],
    or it is the smallest one. *)
Lemma spacing_bound (a : Q) :
  (0 < a)%Q ->
  let P := Qpower 2 (Z.max (Qlog2 a - 52) (-1074)) in
  (P * (1 # 2) <= a * (1 # 9007199254740992) + Qpower 2 (-1075))%Q.
Proof.
  intros Ha. cbv zeta.
  pose proof (Qlog2_le a Ha) as HL.
  pose proof (Qpower2_pos (-1075)) as Htiny.
  destruct (Z.max_spec (Qlog2 a - 52) (-1074)) as [[_ ->]|[_ ->]].
  - assert (E : (Qpower 2 (-1074) == 2 * Qpower 2 (-1075))%Q).
    { change (-1074) with (1 + -1075). now rewrite Qpower_plus by discriminate. }
    rewrite E. lra.
  - assert (E : (Qpower 2 (Qlog2 a - 52) ==
                 Qpower 2 (Qlog2 a) * (1 # 4503599627370496))%Q).
    { unfold Z.sub. rewrite Qpower_plus by discriminate. reflexivity. }
    rewrite E. lra.
Qed.

Lemma scaled_close (a P : Q) :
  (0 < P)%Q ->
  (Qabs (inject_Z (rne (a / P)) * P - a) <= P * (1 # 2))%Q.
Proof.
  intros HP.
  pose proof (rne_close (a / P)) as H.
  set (m := inject_Z (rne (a / P))) in *.
  assert (E : (a == a / P * P)%Q) by (field; lra).
  set (t := (a / P)%Q) in *.
  apply Qabs_Qle_condition in H as [H1 H2].
  apply Qabs_Qle_condition.
  rewrite E. split; nra.
Qed.

Lemma round64_close (x r : Q) :
  round64 x = Fin r ->
  (Qabs (r - x) <= Qabs x * (1 # 9007199254740992) + Qpower 2 (-1075))%Q.
Proof.
  unfold round64.
  pose proof (Qpower2_pos (-1075)) as Htiny.
  destruct (Qeq_bool x 0) eqn:E0.
  { apply Qeq_bool_iff in E0. intros H. injection H as <-.
    rewrite E0. cbn. apply Qlt_le_weak. exact Htiny. }
  assert (Hx : ~ (x == 0)%Q).
  { intros H. apply Qeq_bool_iff in H. congruence. }
  cbv zeta.
  set (a := Qabs x).
  set (P := Qpower 2 (Z.max (Qlog2 a - 52) (-1074))).
  set (v := (inject_Z (rne (a / P)) * P)%Q).
  destruct (Qle_bool _ v); [now destruct (Qnum x <? 0)|].
  intros H. injection H as <-. rewrite Qred_correct.
  assert (HP : (0 < P)%Q) by apply Qpower2_pos.
  pose proof (scaled_close a P HP) as Hv. fold v in Hv.
  apply Qabs_Qle_condition in Hv as [Hv1 Hv2].
  destruct (Qnum x <? 0) eqn:En.
  - apply Qnum_neg_iff in En.
    assert (Ea : (a == - x)%Q) by (apply Qabs_neg; lra).
    assert (Ha : (0 < a)%Q) by lra.
    pose proof (spacing_bound a Ha) as Hs. cbv zeta in Hs. fold P in Hs.
    apply Qabs_Qle_condition. split; lra.
  - assert (Hx0 : (0 <= x)%Q).
    { apply Qnot_lt_le. intros Hlt. apply Qnum_neg_iff in Hlt. congruence. }
    assert (Ea : (a == x)%Q) by (apply Qabs_pos; exact Hx0).
    assert (Ha : (0 < a)%Q).
    { destruct (Qlt_le_dec 0 a) as [H|H]; [exact H|].
      exfalso. apply Hx. lra. }
    pose proof (spacing_bound a Ha) as Hs. cbv zeta in Hs. fold P in Hs.
    apply Qabs_Qle_condition. split; lra.
Qed.


(** The quotient by a positive count is the rounded quotient. *)
Lemma num_div_count (s : Q) (n : nat) :
  (0 < n)%nat ->
  num_div (Fin s) (num_of_nat n) = round64 (s / inject_Z (Z.of_nat n)).
Proof.
  intros Hn. unfold num_div, num_of_nat.
  destruct (Qeq_bool (inject_Z (Z.of_nat n)) 0) eqn:E; [|reflexivity].
  apply Qeq_bool_iff in E. unfold Qeq in E. cbn in E. lia.
Qed.

(** [parseFloat(x.toFixed(2))] reads [x] to two decimals. *)
Lemma parseFloat_number_toFixed2 (x : number) :
  two_decimals x (parseFloat (number_toFixed2 x)).
Proof.
  destruct x as [|q| |]; cbn [two_decimals number_toFixed2]; try reflexivity.
  destruct (parseFloat_toFixed2 q) as (c & E & Hc).
  exists c. split; [|exact E].
  eapply rounded2_compat; [exact Hc | apply round2_rounded].
Qed.

(** C6: the reported average order value is the total sales divided by the
    number of orders, as JavaScript adds and divides them, read to two
    decimal places, when the report has orders; the quotient of JavaScript
    is the exact one up to the rounding of a double; and the average is
    the number 0 when the report has no orders, where the quotient itself
    is [NaN]. *)
Theorem average_order_value (db : list Order.t) (now : Z) (p : option string) :
  let r := get_report db now p in
  let n := List.length (orders r) in
  let quotient := num_div (sales_total (orders r)) (num_of_nat n) in
  totalOrders (summary r) = n /\
  ((0 < n)%nat -> two_decimals quotient (averageOrderValue (summary r))) /\
  ((0 < n)%nat ->
   forall s q, sales_total (orders r) = Fin s -> quotient = Fin q ->
     let exact := (s / inject_Z (Z.of_nat n))%Q in
     (Qabs (q - exact) <=
      Qabs exact * (1 # 9007199254740992) + Qpower 2 (-1075))%Q) /\
  (n = 0%nat -> averageOrderValue (summary r) = Fin 0 /\ quotient = NaN).
Proof.
  unfold get_report.
  destruct (report_window _ now) as [startDate endDate]. cbn zeta.
  set (l := find_orders db startDate endDate).
  cbn [summary orders summarize averageOrderValue totalOrders].
  fold (sales_total l).
  split; [reflexivity|]. split; [|split].
  - intros Hn. apply Nat.ltb_lt in Hn. rewrite Hn.
    apply parseFloat_number_toFixed2.
  - intros Hn s q Es. rewrite Es, (num_div_count s _ Hn).
    apply round64_close.
  - intros E. rewrite E. cbn [Nat.ltb Nat.leb]. split; [reflexivity|].
    destruct l; [reflexivity | discriminate E].
Qed.



(** ** The calendar *)

(** A day [doe] of a 400-year era: its year of the era and the day of
    that year. *)
Lemma year_of_era (doe : Z) :
  0 <= doe < 146097 ->
  let yoe := (doe - doe / 1460 + doe / 36524 - doe / 146096) / 365 in
  0 <= yoe < 400 /\ 0 <= doe - (365 * yoe + yoe / 4 - yoe / 100) <= 365.
Proof.
  intros H yoe. subst yoe. Z.div_mod_to_equations. lia.
Qed.

(** A day [doy] of a year that starts on 1 March: its month and the day of
    the month. *)
Lemma month_of_year (doy : Z) :
  0 <= doy <= 365 ->
  let mp := (5 * doy + 2) / 153 in
  0 <= mp < 12 /\ 1 <= doy - (153 * mp + 2) / 5 + 1 <= 31.
Proof.
  intros H mp. subst mp. Z.div_mod_to_equations. lia.
Qed.

(** The first day of the month of [t], and where [t] is in its month. *)
Lemma days_from_civil_of_time (t : Z) :
  0 <= MonthFromTime t <= 11 /\
  1 <= DateFromTime t <= 31 /\
  days_from_civil (YearFromTime t) (MonthFromTime t) + DateFromTime t - 1 = Day t.
Proof.
  unfold YearFromTime, MonthFromTime, DateFromTime, civil_from_days.
  set (z := Day t + 719468).
  pose proof (Z.mod_pos_bound z 146097 ltac:(lia)) as Hdoe.
  pose proof (Z.div_mod z 146097 ltac:(lia)) as Hz.
  pose proof (year_of_era _ Hdoe) as Hy. cbv zeta in Hy.
  set (era := z / 146097) in *. set (doe := z mod 146097) in *.
  set (yoe := (doe - doe / 1460 + doe / 36524 - doe / 146096) / 365) in *.
  destruct Hy as [Hyoe Hdoy].
  pose proof (month_of_year _ Hdoy) as Hm. cbv zeta in Hm.
  set (doy := doe - (365 * yoe + yoe / 4 - yoe / 100)) in *.
  set (mp := (5 * doy + 2) / 153) in *.
  destruct Hm as [Hmp Hd].
  set (d := doy - (153 * mp + 2) / 5 + 1) in *.
  cbn [fst snd].
  unfold days_from_civil.
  assert (Eera : (yoe + era * 400) / 400 = era)
    by (symmetry; apply Z.div_unique with yoe; lia).
  assert (Eyoe : (yoe + era * 400) mod 400 = yoe)
    by (symmetry; apply Z.mod_unique with era; lia).
  destruct (mp <? 10) eqn:Emp; [apply Z.ltb_lt in Emp | apply Z.ltb_ge in Emp].
  - (* March to December *)
    replace (mp + 3 <=? 2) with false by (symmetry; apply Z.leb_gt; lia).
    replace (mp + 3 - 1 <=? 1) with false by (symmetry; apply Z.leb_gt; lia).
    replace (mp + 3 - 1 - 2) with mp by lia.
    rewrite Eera, Eyoe. subst z d doy. lia.
  - (* January and February, of the next civil year *)
    replace (mp - 9 <=? 2) with true by (symmetry; apply Z.leb_le; lia).
    replace (mp - 9 - 1 <=? 1) with true by (symmetry; apply Z.leb_le; lia).
    replace (mp - 9 - 1 + 10) with mp by lia.
    replace (yoe + era * 400 + 1 - 1) with (yoe + era * 400) by lia.
    rewrite Eera, Eyoe. subst z d doy. lia.
Qed.

Lemma MakeDay_of_time (t date : Z) :
  MakeDay (YearFromTime t) (MonthFromTime t) date = Day t + (date - DateFromTime t).
Proof.
  destruct (days_from_civil_of_time t) as (Hm & _ & Hd).
  unfold MakeDay.
  rewrite (Z.div_small (MonthFromTime t) 12), (Z.mod_small (MonthFromTime t) 12) by lia.
  rewrite Z.add_0_r. lia.
Qed.

Lemma TimeWithinDay_bound (t : Z) : 0 <= TimeWithinDay t < msPerDay.
Proof. apply Z.mod_pos_bound. reflexivity. Qed.

Lemma Day_MakeDate (day time : Z) :
  0 <= time < msPerDay ->
  Day (MakeDate day time) = day /\ TimeWithinDay (MakeDate day time) = time.
Proof.
  intros H. unfold Day, TimeWithinDay, MakeDate. split.
  - symmetry. apply Z.div_unique with time; lia.
  - symmetry. apply Z.mod_unique with day; lia.
Qed.

Lemma MakeDate_Day (t : Z) : MakeDate (Day t) (TimeWithinDay t) = t.
Proof.
  unfold MakeDate, Day, TimeWithinDay.
  pose proof (Z.div_mod t msPerDay ltac:(discriminate)). lia.
Qed.

(** [setDate] moves a date by whole days and keeps the time of the day. *)
Lemma setDate_shift (t k : Z) :
  setDate t (getDate t + k) = t + k * msPerDay.
Proof.
  unfold setDate, getDate. rewrite MakeDay_of_time.
  pose proof (MakeDate_Day t) as E. unfold MakeDate in *. lia.
Qed.

(** [setHours(0, 0, 0, 0)] is the midnight that begins the day. *)
Lemma setHours_midnight (t : Z) : setHours t 0 0 0 0 = MakeDate (Day t) 0.
Proof. reflexivity. Qed.

(** [new Date(y, m, d)] on the year and month of [t], outside the years
    that the constructor reads as 19xx. *)
Lemma Date_ymd_of_time (t date : Z) :
  getFullYear t < 0 \/ 99 < getFullYear t ->
  Date_ymd (getFullYear t) (getMonth t) date =
  MakeDate (Day t + (date - getDate t)) 0.
Proof.
  intros Hy. unfold Date_ymd, getFullYear, getMonth, getDate in *.
  replace ((0 <=? YearFromTime t) && (YearFromTime t <=? 99)) with false.
  - now rewrite MakeDay_of_time.
  - symmetry. apply andb_false_iff.
    destruct Hy; [left; apply Z.leb_gt | right; apply Z.leb_gt]; lia.
Qed.

(** The years since 1970 are read as they are. *)
Lemma year_since_epoch (t : Z) : 0 <= t -> 99 < getFullYear t.
Proof.
  intros Ht. unfold getFullYear, YearFromTime, civil_from_days.
  assert (Hd : 0 <= Day t) by (apply Z.div_pos; [exact Ht | reflexivity]).
  set (z := Day t + 719468).
  pose proof (Z.mod_pos_bound z 146097 ltac:(lia)) as Hdoe.
  pose proof (year_of_era _ Hdoe) as [Hyoe _].
  assert (4 <= z / 146097) by (apply Z.div_le_lower_bound; lia).
  cbn [fst]. cbv zeta in Hyoe.
  destruct (_ <=? 2); lia.
Qed.

(** ** The weekly window *)

Lemma weekly_window (now : Z) :
  report_window "weekly" now =
  (midnight now - getDay now * msPerDay,
   midnight now - getDay now * msPerDay + 7 * msPerDay).
Proof.
  unfold report_window. cbn [String.eqb Ascii.eqb Bool.eqb]. cbv iota. cbv zeta.
  replace (getDate now - getDay now) with (getDate now + - getDay now) by lia.
  rewrite setDate_shift, setHours_midnight.
  assert (E : MakeDate (Day (now + - getDay now * msPerDay)) 0 =
              midnight now - getDay now * msPerDay).
  { unfold midnight, MakeDate, Day.
    replace (now + - getDay now * msPerDay) with (now + (- getDay now) * msPerDay) by lia.
    rewrite Z.div_add by discriminate. lia. }
  rewrite E, setDate_shift. reflexivity.
Qed.

Lemma getDay_bound (t : Z) : 0 <= getDay t <= 6.
Proof.
  unfold getDay, WeekDay. pose proof (Z.mod_pos_bound (Day t + 4) 7 ltac:(lia)). lia.
Qed.

Lemma get_report_startDate (db : list Order.t) (now : Z) (p : option string) :
  startDate (get_report db now p) = fst (report_window (period_of p) now).
Proof.
  unfold get_report, period_of. now destruct (report_window _ now).
Qed.

Lemma get_report_endDate (db : list Order.t) (now : Z) (p : option string) :
  endDate (get_report db now p) = snd (report_window (period_of p) now).
Proof.
  unfold get_report, period_of. now destruct (report_window _ now).
Qed.

Lemma get_report_orders (db : list Order.t) (now : Z) (p : option string) :
  orders (get_report db now p) =
  find_orders db (fst (report_window (period_of p) now))
                 (snd (report_window (period_of p) now)).
Proof.
  unfold get_report, period_of. now destruct (report_window _ now).
Qed.

(** C2: for every reference instant the window of the weekly report starts
    at midnight on a Sunday, at or before the instant and less than seven
    days before it, and ends exactly seven days after its start; on a
    Wednesday the start is the midnight three days before that of the day,
    and on a Sunday it is the midnight of the day itself. *)
Theorem weekly_window_spec (db : list Order.t) (now : Z) :
  let r := get_report db now (Some "weekly") in
  getDay (startDate r) = 0 /\
  TimeWithinDay (startDate r) = 0 /\
  startDate r <= now < startDate r + 7 * msPerDay /\
  startDate r = midnight now - getDay now * msPerDay /\
  endDate r = startDate r + 7 * msPerDay /\
  (getDay now = 3 -> startDate r = midnight now - 3 * msPerDay) /\
  (getDay now = 0 -> startDate r = midnight now).
Proof.
  cbv zeta. rewrite get_report_startDate, get_report_endDate.
  cbn [period_of]. rewrite weekly_window. cbn [fst snd].
  pose proof (getDay_bound now) as Hw.
  pose proof (TimeWithinDay_bound now) as Ht.
  pose proof (MakeDate_Day now) as En.
  assert (Es : midnight now - getDay now * msPerDay =
               MakeDate (Day now - getDay now) 0)
    by (unfold midnight, MakeDate; lia).
  destruct (Day_MakeDate (Day now - getDay now) 0 ltac:(split; [lia | reflexivity]))
    as [Ed Et].
  split.
  { rewrite Es. unfold getDay at 1, WeekDay at 1. rewrite Ed.
    unfold getDay, WeekDay.
    replace (Day now - (Day now + 4) mod 7 + 4)
      with ((Day now + 4) - (Day now + 4) mod 7) by lia.
    rewrite Zminus_mod, Z.mod_mod, Z.sub_diag by lia. reflexivity. }
  split; [now rewrite Es|].
  split; [unfold midnight, MakeDate in *; unfold msPerDay in *; lia|].
  split; [reflexivity|]. split; [reflexivity|].
  split; intros ->; lia.
Qed.

(** Wednesday 3 January 2024, 10:30: the week began on Sunday 31 December. *)
Example weekly_window_2024 :
  let now := MakeDate (MakeDay 2024 0 3) (MakeTime 10 30 0 0) in
  getDay now = 3 /\
  report_window "weekly" now =
  (MakeDate (MakeDay 2023 11 31) 0, MakeDate (MakeDay 2024 0 7) 0).
Proof. split; reflexivity. Qed.

(** ** The daily window *)

Lemma daily_window (now : Z) :
  getFullYear now < 0 \/ 99 < getFullYear now ->
  report_window "daily" now = (midnight now, midnight now + msPerDay).
Proof.
  intros Hy. unfold report_window. cbn [String.eqb Ascii.eqb Bool.eqb]. cbv iota.
  rewrite !Date_ymd_of_time by exact Hy.
  unfold midnight, MakeDate. f_equal; lia.
Qed.

Lemma in_window_spec (s e : Z) (o : Order.t) :
  in_window s e o = true <->
  Order.paymentStatus o = "completed" /\ s <= Order.createdAt o < e.
Proof.
  unfold in_window.
  rewrite !andb_true_iff, Z.leb_le, Z.ltb_lt, String.eqb_eq. tauto.
Qed.

(** C3: the daily report holds exactly the stored orders whose payment is
    completed and that were created from the midnight that begins the
    current day, included, to the next midnight, excluded: an order created
    one second before that midnight is left out, and a completed one
    created one second after it is in the report.  The year of the clock
    is taken outside 0..99, which [new Date(y, m, d)] reads as 19xx. *)
Theorem daily_report_orders (db : list Order.t) (now : Z) (o : Order.t) :
  getFullYear now < 0 \/ 99 < getFullYear now ->
  let r := get_report db now (Some "daily") in
  startDate r = midnight now /\
  endDate r = midnight now + msPerDay /\
  (In o (orders r) <->
   In o db /\ Order.paymentStatus o = "completed" /\
   midnight now <= Order.createdAt o < midnight now + msPerDay) /\
  (Order.createdAt o = midnight now - 1000 -> ~ In o (orders r)) /\
  (In o db -> Order.paymentStatus o = "completed" ->
   Order.createdAt o = midnight now + 1000 -> In o (orders r)).
Proof.
  intros Hy.
  cbv zeta. rewrite get_report_startDate, get_report_endDate, get_report_orders.
  cbn [period_of]. rewrite (daily_window now Hy). cbn [fst snd].
  split; [reflexivity|]. split; [reflexivity|].
  unfold find_orders. rewrite sort_desc_In, filter_In, in_window_spec.
  unfold msPerDay.
  split; [tauto|]. split; [lia|]. intros Hin Hp Hc. repeat split; auto; lia.
Qed.



(** ** Creating an offer *)

Lemma upper_char_idem (c : ascii) : upper_char (upper_char c) = upper_char c.
Proof.
  destruct c as [[] [] [] [] [] [] [] []]; reflexivity.
Qed.

Lemma toUpperCase_idem (s : string) : toUpperCase (toUpperCase s) = toUpperCase s.
Proof.
  induction s as [|c r IH]; [reflexivity|].
  cbn [toUpperCase]. now rewrite upper_char_idem, IH.
Qed.

Lemma upper_char_space (c : ascii) : is_space (upper_char c) = is_space c.
Proof.
  destruct c as [[] [] [] [] [] [] [] []]; reflexivity.
Qed.

Lemma toUpperCase_trimStart (s : string) :
  toUpperCase (trimStart s) = trimStart (toUpperCase s).
Proof.
  induction s as [|c r IH]; [reflexivity|].
  cbn [trimStart toUpperCase]. rewrite upper_char_space.
  destruct (is_space c); [exact IH | reflexivity].
Qed.

Lemma toUpperCase_rev_string (s acc : string) :
  toUpperCase (rev_string s acc) = rev_string (toUpperCase s) (toUpperCase acc).
Proof.
  revert acc. induction s as [|c r IH]; intros acc; [reflexivity|].
  cbn [rev_string toUpperCase]. now rewrite IH.
Qed.

(** Trimming and upper-casing a string can be done in either order. *)
Lemma toUpperCase_trim (s : string) : toUpperCase (trim s) = trim (toUpperCase s).
Proof.
  unfold trim, trimEnd.
  now rewrite toUpperCase_rev_string, toUpperCase_trimStart,
    toUpperCase_rev_string, toUpperCase_trimStart.
Qed.

Lemma fields_present_neg (b : body) :
  negb (truthy (b_title b)) || negb (truthy (b_description b)) ||
  negb (truthy (b_discount b)) || negb (truthy (b_code b)) ||
  negb (truthy (b_validFrom b)) || negb (truthy (b_validUntil b)) =
  negb (fields_present b).
Proof.
  unfold fields_present.
  destruct (truthy (b_title b)), (truthy (b_description b)),
    (truthy (b_discount b)), (truthy (b_code b)), (truthy (b_validFrom b)),
    (truthy (b_validUntil b)); reflexivity.
Qed.

Lemma discount_accepted_neg (v : value) :
  isNaN (parseFloat_value v) || num_ltb (parseFloat_value v) (Fin 0) ||
  num_gtb (parseFloat_value v) (Fin 100) = negb (discount_accepted v).
Proof.
  unfold discount_accepted. cbv zeta.
  destruct (isNaN _), (num_ltb _ _), (num_gtb _ _); reflexivity.
Qed.

Lemma Offer_create_inr (st : store) (now : Z) (d : Offer.t) (r : Offer.t * store) :
  Offer_create st now d = inr r ->
  r = (new_offer st now d,
       {| offers := offers st ++ [new_offer st now d];
          next_id := N.succ (next_id st) |}) /\
  Offer.valid (new_offer st now d) = true /\
  findOne_code st (Offer.code (new_offer st now d)) = None.
Proof.
  unfold Offer_create. cbv zeta. fold (new_offer st now d).
  destruct (Offer.valid _); cbn [negb]; [|discriminate].
  destruct (findOne_code st _); [discriminate|].
  intros H. injection H as <-. auto.
Qed.

Lemma Offer_create_inr_iff (st : store) (now : Z) (d : Offer.t) :
  (exists r, Offer_create st now d = inr r) <->
  Offer.valid (new_offer st now d) = true /\
  findOne_code st (Offer.code (new_offer st now d)) = None.
Proof.
  split.
  - intros [r H]. now apply Offer_create_inr in H.
  - intros [Hv Hf]. unfold Offer_create. cbv zeta. fold (new_offer st now d).
    rewrite Hv, Hf. eexists; reflexivity.
Qed.

Lemma post_catch_status (e : error) : status (post_catch e) <> 201.
Proof. destruct e; discriminate. Qed.

Section PostOffer.

Variable h : Host.

(** The last stage of POST: the document is handed to [Offer.create]. *)
Lemma post_offer_create_stage (st : store) (now : Z) (d : Offer.t) :
  status (fst match Offer_create st now d with
              | inl e => (post_catch e, st)
              | inr (offer, st') => (respond 201 (OfferJson offer), st')
              end) = 201 <->
  Offer.valid (new_offer st now d) = true /\
  findOne_code st (Offer.code (new_offer st now d)) = None.
Proof.
  rewrite <- (Offer_create_inr_iff st now d).
  destruct (Offer_create st now d) as [e|[offer st']].
  - split; [intros H; now apply post_catch_status in H | intros [r H]; discriminate H].
  - split; [intros _; eexists; reflexivity | reflexivity].
Qed.

(** What POST answers, by the first check that fails. *)
Lemma post_offer_created_iff (st : store) (now : Z) (req : request) :
  status (fst (post_offer h st now req)) = 201 <->
  fields_present (req_body req) && discount_accepted (b_discount (req_body req)) &&
  dates_accepted h (req_body req) && rest_accepted h st req = true.
Proof.
  unfold post_offer. cbv zeta.
  rewrite fields_present_neg, discount_accepted_neg.
  destruct (fields_present (req_body req)); cbn [negb andb];
    [|split; intros H; discriminate H].
  destruct (discount_accepted (b_discount (req_body req))) eqn:ED; cbn [negb andb];
    [|split; intros H; discriminate H].
  unfold dates_accepted.
  destruct (new_Date h (b_validFrom _)) as [f|]; [|split; intros H; discriminate H].
  destruct (new_Date h (b_validUntil _)) as [u|]; [|split; intros H; discriminate H].
  rewrite (Z.leb_antisym f u).
  destruct (f <? u); cbn [negb andb]; [|split; intros H; discriminate H].
  unfold rest_accepted, upload_accepted. cbv zeta.
  set (b := req_body req) in *.
  destruct (b_code b) as [| | | |code]; try (split; intros H; discriminate H).
  destruct (findOne_code st (toUpperCase code)); cbn [is_none andb];
    [destruct (b_title b), (b_description b); split; intros H; discriminate H|].
  assert (Stage : forall imageUrl cloudinaryId,
    status
      (fst
         match b_title b with
         | VStr title =>
             match b_description b with
             | VStr description =>
                 match
                   Offer_create st now
                     (Offer.mk 0%N (trim title) (trim description)
                        (parseFloat_value (b_discount b))
                        (trim (toUpperCase code)) f u (Some true)
                        (if truthy (b_minOrderAmount b)
                         then parseFloat_value (b_minOrderAmount b) else Fin 0)
                        imageUrl cloudinaryId now now)
                 with
                 | inl e => (post_catch e, st)
                 | inr (offer, st') => (respond 201 (OfferJson offer), st')
                 end
             | _ => (post_catch TypeError, st)
             end
         | _ => (post_catch TypeError, st)
         end) = 201 <->
    match b_title b with
    | VStr title =>
        match b_description b with
        | VStr description =>
            true && negb (String.eqb (trim title) "") &&
            negb (String.eqb (trim description) "") &&
            negb (String.eqb (toUpperCase (trim (toUpperCase code))) "") &&
            negb (isNaN (if truthy (b_minOrderAmount b)
                         then parseFloat_value (b_minOrderAmount b) else Fin 0)) &&
            is_none (findOne_code st (toUpperCase (trim (toUpperCase code))))
        | _ => false
        end
    | _ => false
    end = true).
  { intros imageUrl cloudinaryId.
    destruct (b_title b) as [| | | |title]; try (split; intros H; discriminate H).
    destruct (b_description b) as [| | | |description];
      try (split; intros H; discriminate H).
    rewrite post_offer_create_stage.
    unfold Offer.valid, discount_accepted, new_offer, Offer.code_setter in *.
    cbn [Offer.title Offer.description Offer.code Offer.discount
         Offer.minOrderAmount andb] in *.
    cbv zeta in ED. apply andb_true_iff in ED as [ED E3].
    apply andb_true_iff in ED as [E1 E2]. rewrite E1, E2, E3.
    destruct (findOne_code st (toUpperCase (trim (toUpperCase code))));
      cbn [is_none]; rewrite ?andb_true_r, ?andb_false_r;
      [split; [intros [_ H]; discriminate H | intros H; discriminate H]|].
    rewrite ?andb_true_r. cbn [andb].
    split; [intros [H _]; exact H | intros H; split; [exact H | reflexivity]]. }
  destruct (req_file req) as [file|].
  - destruct (upload_image h file) as [e|[imageUrl cloudinaryId]].
    + cbn [fst status respond andb].
      destruct (b_title b), (b_description b); split; intros H; discriminate H.
    + apply Stage.
  - apply Stage.
Qed.

(** POST either creates one document or leaves the collection as it is. *)
Lemma post_offer_outcome (st : store) (now : Z) (req : request) :
  (exists d o st', Offer_create st now d = inr (o, st') /\
     post_offer h st now req = (respond 201 (OfferJson o), st')) \/
  (snd (post_offer h st now req) = st /\
   (status (fst (post_offer h st now req)) = 400 \/
    status (fst (post_offer h st now req)) = 500)).
Proof.
  unfold post_offer. cbv zeta.
  destruct (_ || _); [right; split; [reflexivity | left; reflexivity]|].
  destruct (_ || _); [right; split; [reflexivity | left; reflexivity]|].
  destruct (new_Date h (b_validFrom _)) as [f|];
    [|right; split; [reflexivity | left; reflexivity]].
  destruct (new_Date h (b_validUntil _)) as [u|];
    [|right; split; [reflexivity | left; reflexivity]].
  destruct (u <=? f); [right; split; [reflexivity | left; reflexivity]|].
  destruct (b_code _) as [| | | |code];
    try (right; split; [reflexivity | right; reflexivity]).
  destruct (findOne_code st _); [right; split; [reflexivity | left; reflexivity]|].
  destruct (match req_file req with Some f0 => upload_image h f0 | None => inr ("", "") end)
    as [e|[imageUrl cloudinaryId]];
    [right; split; [reflexivity | right; reflexivity]|].
  destruct (b_title _) as [| | | |title];
    try (right; split; [reflexivity | right; reflexivity]).
  destruct (b_description _) as [| | | |description];
    try (right; split; [reflexivity | right; reflexivity]).
  match goal with |- context [Offer_create st now ?d] =>
    destruct (Offer_create st now d) as [e|[o st']] eqn:EC end.
  - right. split; [reflexivity|]. destruct e; cbn; auto.
  - left. eexists; eexists; eexists. split; [exact EC | reflexivity].
Qed.

(** A POST answered 201: the fields it read and the document it stored. *)
Lemma post_offer_201 (st : store) (now : Z) (req : request) (o : Offer.t) (st' : store) :
  post_offer h st now req = (respond 201 (OfferJson o), st') ->
  exists title description code fromDate untilDate imageUrl cloudinaryId,
    b_title (req_body req) = VStr title /\
    b_description (req_body req) = VStr description /\
    b_code (req_body req) = VStr code /\
    new_Date h (b_validFrom (req_body req)) = Some fromDate /\
    new_Date h (b_validUntil (req_body req)) = Some untilDate /\
    fromDate < untilDate /\
    match req_file req with
    | Some f => upload_image h f
    | None => inr ("", "")
    end = inr (imageUrl, cloudinaryId) /\
    o = Offer.mk (next_id st) (trim title) (trim description)
          (parseFloat_value (b_discount (req_body req)))
          (trim (toUpperCase code)) fromDate untilDate (Some true)
          (if truthy (b_minOrderAmount (req_body req))
           then parseFloat_value (b_minOrderAmount (req_body req)) else Fin 0)
          imageUrl cloudinaryId now now /\
    st' = {| offers := offers st ++ [o]; next_id := N.succ (next_id st) |} /\
    Offer.valid o = true /\
    findOne_code st (Offer.code o) = None.
Proof.
  unfold post_offer, respond. cbv zeta.
  destruct (_ || _); [discriminate|].
  destruct (_ || _); [discriminate|].
  destruct (new_Date h (b_validFrom _)) as [f|]; [|discriminate].
  destruct (new_Date h (b_validUntil _)) as [u|]; [|discriminate].
  destruct (u <=? f) eqn:Ele; [discriminate|]. apply Z.leb_gt in Ele.
  destruct (b_code _) as [| | | |code]; try discriminate.
  destruct (findOne_code st _); [discriminate|].
  destruct (match req_file req with Some f0 => upload_image h f0 | None => inr ("", "") end)
    as [e|[imageUrl cloudinaryId]]; [discriminate|].
  destruct (b_title _) as [| | | |title]; try discriminate.
  destruct (b_description _) as [| | | |description]; try discriminate.
  match goal with |- context [Offer_create st now ?d] =>
    destruct (Offer_create st now d) as [e|[o' st'']] eqn:EC end.
  - destruct e; discriminate.
  - intros H. injection H as <- <-.
    apply Offer_create_inr in EC as (E & Hv & Hf).
    unfold new_offer, Offer.code_setter in *.
    cbn [Offer.title Offer.description Offer.discount Offer.code Offer.validFrom
         Offer.validUntil Offer.isActive Offer.minOrderAmount Offer.image
         Offer.cloudinary_id] in *.
    rewrite toUpperCase_trim, toUpperCase_idem in *.
    injection E as -> ->.
    exists title, description, code, f, u, imageUrl, cloudinaryId.
    repeat split; auto.
Qed.

End PostOffer.

Lemma discount_accepted_iff (v : value) :
  discount_accepted v = true <->
  exists q, parseFloat_value v = Fin q /\ (0 <= q)%Q /\ (q <= 100)%Q.
Proof.
  unfold discount_accepted. cbv zeta.
  destruct (parseFloat_value v) as [|q| |]; cbn.
  - split; [discriminate | intros (q & H & _); discriminate H].
  - rewrite !negb_involutive, andb_true_iff, !Qle_bool_iff. split.
    + intros [H0 H1]. exists q. auto.
    + intros (q' & E & H0 & H1). injection E as <-. auto.
  - split; [discriminate | intros (q & H & _); discriminate H].
  - split; [discriminate | intros (q & H & _); discriminate H].
Qed.

Section CreateClaims.

Variable h : Host.

(** With the other checks passing, POST creates the offer exactly when the
    discount parses as a number from 0 to 100. *)
Lemma post_offer_discount_iff (st : store) (now : Z) (req : request) :
  fields_present (req_body req) = true ->
  dates_accepted h (req_body req) = true ->
  rest_accepted h st req = true ->
  (status (fst (post_offer h st now req)) = 201 <->
   exists q, parseFloat_value (b_discount (req_body req)) = Fin q /\
             (0 <= q)%Q /\ (q <= 100)%Q).
Proof.
  intros HF HD HR.
  rewrite post_offer_created_iff, HF, HD, HR, <- discount_accepted_iff.
  cbn [andb]. now rewrite !andb_true_r.
Qed.

(** C1: at the number 0, as a JSON body carries it, the discount parses as
    a number of the range 0 to 100, and yet the presence check of POST
    answers 400 as for a missing field, whatever the other fields and the
    collection are: no offer is created. *)
Theorem post_offer_number_zero (st : store) (now : Z) (req : request) :
  discount_accepted (VNum (Fin 0)) = true /\
  post_offer h st now (set_discount req (VNum (Fin 0))) =
  (respond 400 (Message "Please provide all required fields"), st).
Proof.
  split; [reflexivity|].
  unfold post_offer, set_discount. cbv zeta.
  cbn [req_body b_title b_description b_discount b_code b_validFrom b_validUntil].
  change (truthy (VNum (Fin 0))) with false. cbn [negb].
  now rewrite !orb_true_r.
Qed.

(** C4: when both dates parse, a [validUntil] at or before [validFrom] is
    answered 400 with the collection untouched; an offer is created, that
    is answered 201 and stored, only when [validUntil] is after
    [validFrom], and it is stored with these two dates; an answer other
    than 201 stores nothing; and with the other checks passing the offer
    is created exactly when [validUntil] is after [validFrom]. *)
Theorem post_offer_dates (st : store) (now : Z) (req : request) (f u : Z) :
  new_Date h (b_validFrom (req_body req)) = Some f ->
  new_Date h (b_validUntil (req_body req)) = Some u ->
  (u <= f ->
   status (fst (post_offer h st now req)) = 400 /\
   snd (post_offer h st now req) = st) /\
  (u <= f ->
   fields_present (req_body req) = true ->
   discount_accepted (b_discount (req_body req)) = true ->
   fst (post_offer h st now req) =
   respond 400 (Message "Valid until date must be after valid from date")) /\
  (status (fst (post_offer h st now req)) = 201 -> f < u) /\
  (forall o, creates h st now req o ->
     f < u /\ Offer.validFrom o = f /\ Offer.validUntil o = u /\
     Offer._id o = next_id st) /\
  (status (fst (post_offer h st now req)) = 201 ->
   exists o, creates h st now req o) /\
  (status (fst (post_offer h st now req)) <> 201 ->
   snd (post_offer h st now req) = st) /\
  (fields_present (req_body req) = true ->
   discount_accepted (b_discount (req_body req)) = true ->
   rest_accepted h st req = true ->
   ((exists o, creates h st now req o) <-> f < u) /\
   (status (fst (post_offer h st now req)) = 201 <-> f < u)).
Proof.
  intros Ef Eu.
  assert (ED : dates_accepted h (req_body req) = (f <? u))
    by (unfold dates_accepted; now rewrite Ef, Eu).
  assert (Hrej : u <= f ->
    (status (fst (post_offer h st now req)) = 400 /\
     snd (post_offer h st now req) = st) /\
    (fields_present (req_body req) = true ->
     discount_accepted (b_discount (req_body req)) = true ->
     fst (post_offer h st now req) =
     respond 400 (Message "Valid until date must be after valid from date"))).
  { intros Hle. unfold post_offer. cbv zeta.
    rewrite fields_present_neg, discount_accepted_neg, Ef, Eu.
    replace (u <=? f) with true by (symmetry; apply Z.leb_le; exact Hle).
    destruct (fields_present _); cbn [negb];
      [|split; [split; reflexivity | discriminate]].
    destruct (discount_accepted _); cbn [negb];
      [|split; [split; reflexivity | discriminate]].
    split; [split; reflexivity | reflexivity]. }
  assert (H201 : status (fst (post_offer h st now req)) = 201 -> f < u).
  { rewrite post_offer_created_iff, ED. intros H.
    apply andb_true_iff in H as [H _]. apply andb_true_iff in H as [_ H].
    now apply Z.ltb_lt. }
  assert (Hstored : status (fst (post_offer h st now req)) = 201 ->
                    exists o, creates h st now req o).
  { intros H.
    destruct (post_offer_outcome h st now req) as [(d & o & st' & _ & E)|[_ [E|E]]];
      [|rewrite E in H; discriminate H | rewrite E in H; discriminate H].
    exists o. unfold creates. rewrite E. f_equal.
    apply post_offer_201 in E
      as (_ & _ & _ & _ & _ & _ & _ & _ & _ & _ & _ & _ & _ & _ & _ & Est & _).
    exact Est. }
  assert (Hcreated : forall o, creates h st now req o ->
            status (fst (post_offer h st now req)) = 201).
  { intros o E. unfold creates in E. now rewrite E. }
  split; [intros Hle; apply (Hrej Hle)|].
  split; [intros Hle; apply (Hrej Hle)|].
  split; [exact H201|].
  split.
  { intros o E. split; [exact (H201 (Hcreated o E))|].
    unfold creates in E. apply post_offer_201 in E
      as (title & description & code & fromDate & untilDate & url & cid
          & _ & _ & _ & Ef' & Eu' & _ & _ & -> & _).
    rewrite Ef in Ef'. rewrite Eu in Eu'.
    injection Ef' as <-. injection Eu' as <-. repeat split. }
  split; [exact Hstored|].
  split.
  { intros H.
    destruct (post_offer_outcome h st now req) as [(d & o & st' & _ & E)|[E _]];
      [|exact E].
    rewrite E in H. now contradiction H. }
  intros HF HD HR.
  assert (Hiff : status (fst (post_offer h st now req)) = 201 <-> f < u).
  { rewrite post_offer_created_iff, HF, HD, HR, ED. cbn [andb].
    rewrite andb_true_r. apply Z.ltb_lt. }
  split; [|exact Hiff].
  split.
  - intros [o E]. apply Hiff. exact (Hcreated o E).
  - intros Hlt. apply Hstored. now apply Hiff.
Qed.

End CreateClaims.



(** ** Updating an offer *)

Lemma findOne_code_ne_Some (st : store) (c : string) (id : N) :
  (exists o, findOne_code_ne st c id = Some o) <-> code_taken st c id.
Proof.
  unfold findOne_code_ne, code_taken. split.
  - intros [o H]. apply find_some in H as [Hin Hp].
    apply andb_true_iff in Hp as [Hc Hi].
    apply String.eqb_eq in Hc. apply negb_true_iff, N.eqb_neq in Hi.
    exists o. auto.
  - intros (o & Hin & Hc & Hi).
    destruct (find _ (offers st)) as [x|] eqn:E; [now exists x|].
    apply (find_none _ _ E) in Hin.
    apply String.eqb_eq in Hc. apply N.eqb_neq in Hi.
    rewrite Hc, Hi in Hin. discriminate Hin.
Qed.

Lemma Offer_save_inr (st : store) (now : Z) (loaded d : Offer.t)
    (r : Offer.t * store) :
  Offer_save st now loaded d = inr r ->
  let o := Offer.mk (Offer._id loaded) (Offer.title d) (Offer.description d)
             (Offer.discount d) (Offer.code d) (Offer.validFrom d)
             (Offer.validUntil d) (Offer.isActive d) (Offer.minOrderAmount d)
             (Offer.image d) (Offer.cloudinary_id d) (Offer.createdAt loaded)
             (if Offer.unmodified loaded d then Offer.updatedAt loaded else now) in
  r = (o, {| offers := replace_offer o (offers st); next_id := next_id st |}) /\
  Offer.valid d = true /\
  findOne_code_ne st (Offer.code d) (Offer._id loaded) = None.
Proof.
  unfold Offer_save.
  destruct (Offer.valid d); cbn [negb]; [|discriminate].
  destruct (findOne_code_ne st _ _); [discriminate|].
  intros H. injection H as <-. auto.
Qed.

Lemma upload_image_inr (h : Host) (f : File) (p : string * string) :
  upload_image h f = inr p -> cloudinary_upload h f = Some p.
Proof.
  unfold upload_image.
  destruct (cloudinary_upload h f) as [[url pid]|]; [|discriminate].
  destruct (String.eqb url ""); [discriminate|].
  now intros H; injection H as <-.
Qed.

Section PutOffer.

Variable h : Host.

Lemma put_offer_unfold (st : store) (now : Z) (req : request) (offer : Offer.t) :
  findById st (req_id req) = Some offer ->
  put_offer h st now req =
  match
    if truthy (b_code (req_body req)) then
      match b_code (req_body req) with
      | VStr code =>
          match findOne_code_ne st (toUpperCase code) (Offer._id offer) with
          | Some _ => inl (respond 400 (Message "Offer code already exists"))
          | None => inr (Offer.code_setter (toUpperCase code))
          end
      | _ => inl (respond 500 (ErrorMessage TypeError))
      end
    else inr (Offer.code offer)
  with
  | inl r => (r, st)
  | inr code => put_save h st now req offer code
  end.
Proof.
  intros Hfind. unfold put_offer, put_save. rewrite Hfind. reflexivity.
Qed.

Lemma put_save_spec (st : store) (now : Z) (req : request) (offer : Offer.t)
    (code : string) :
  let r := fst (put_save h st now req offer code) in
  let st' := snd (put_save h st now req offer code) in
  (status r = 200 \/ status r = 500) /\
  (status r <> 200 -> st' = st) /\
  (status r = 200 ->
   exists saved,
     r = respond 200 (OfferJson saved) /\
     st' = {| offers := replace_offer saved (offers st); next_id := next_id st |} /\
     Offer.code saved = code /\
     Offer.valid saved = true /\
     findOne_code_ne st code (Offer._id offer) = None /\
     forall c, Some code = c ->
       (if truthy (b_code (req_body req))
        then match b_code (req_body req) with
             | VStr c => Some (toUpperCase c) | _ => None end
        else Some (Offer.code offer)) = c ->
       patched h now req offer saved).
Proof.
  unfold put_save. cbv zeta.
  set (b := req_body req).
  assert (Fail : forall e,
    let r := fst (respond 500 (ErrorMessage e), st) in
    let st' := snd (respond 500 (ErrorMessage e), st) in
    (status r = 200 \/ status r = 500) /\ (status r <> 200 -> st' = st) /\
    (status r = 200 -> exists saved,
       r = respond 200 (OfferJson saved) /\
       st' = {| offers := replace_offer saved (offers st); next_id := next_id st |} /\
       Offer.code saved = code /\ Offer.valid saved = true /\
       findOne_code_ne st code (Offer._id offer) = None /\
       forall c, Some code = c ->
         (if truthy (b_code b)
          then match b_code b with VStr c => Some (toUpperCase c) | _ => None end
          else Some (Offer.code offer)) = c ->
         patched h now req offer saved)).
  { intros e. cbn. split; [now right|]. split; [reflexivity | discriminate]. }
  destruct (match req_file req with
            | Some f => upload_image h f
            | None => inr (Offer.image offer, Offer.cloudinary_id offer)
            end) as [e|[image cloudinary_id]] eqn:EU; [apply Fail|].
  destruct (if truthy (b_title b) then _ else _) as [title|] eqn:Et; [|apply Fail].
  destruct (if truthy (b_description b) then _ else _) as [description|] eqn:Ed;
    [|apply Fail].
  destruct (if truthy (b_validFrom b) then _ else _) as [validFrom|] eqn:Ef;
    [|apply Fail].
  destruct (if truthy (b_validUntil b) then _ else _) as [validUntil|] eqn:Eu;
    [|apply Fail].
  destruct (if negb (is_undefined (b_isActive b)) then _ else _) as [isActive|] eqn:Ea;
    [|apply Fail].
  match goal with |- context [Offer_save st now offer ?d] =>
    destruct (Offer_save st now offer d) as [e|[saved st']] eqn:ES end; [apply Fail|].
  apply Offer_save_inr in ES. cbv zeta in ES.
  cbn [Offer._id Offer.title Offer.description Offer.discount Offer.code
       Offer.validFrom Offer.validUntil Offer.isActive Offer.minOrderAmount
       Offer.image Offer.cloudinary_id Offer.createdAt] in ES.
  destruct ES as (ES & Hvalid & Hfree). injection ES as Esaved Est.
  subst saved st'.
  cbn [fst snd status respond].
  split; [now left|]. split; [intros H; now destruct H|]. intros _.
  eexists. split; [reflexivity|]. split; [reflexivity|].
  split; [reflexivity|].
  split.
  { unfold Offer.valid in *.
    cbn [Offer.title Offer.description Offer.discount Offer.code
         Offer.minOrderAmount] in *. exact Hvalid. }
  split; [exact Hfree|].
  intros c Ec1 Ec2. unfold patched. cbv zeta. fold b.
  cbn [Offer._id Offer.title Offer.description Offer.discount Offer.code
       Offer.validFrom Offer.validUntil Offer.isActive Offer.minOrderAmount
       Offer.image Offer.cloudinary_id Offer.createdAt Offer.updatedAt].
  rewrite Et, Ed, Ef, Eu, Ec2, Ec1.
  repeat split; try reflexivity.
  - now destruct (is_undefined (b_discount b)).
  - destruct (is_undefined (b_isActive b)); cbn [negb] in Ea; now rewrite Ea.
  - now destruct (is_undefined (b_minOrderAmount b)).
  - destruct (req_file req) as [file|].
    + symmetry. now apply upload_image_inr.
    + now injection EU as <- <-.
Qed.

(** What PUT does with a stored offer. *)
Lemma put_offer_found (st : store) (now : Z) (req : request) (offer : Offer.t) :
  findById st (req_id req) = Some offer ->
  let r := fst (put_offer h st now req) in
  let st' := snd (put_offer h st now req) in
  (status r = 400 <->
   exists c, truthy (b_code (req_body req)) = true /\
             b_code (req_body req) = VStr c /\
             code_taken st (toUpperCase c) (Offer._id offer)) /\
  (status r = 400 -> r = respond 400 (Message "Offer code already exists")) /\
  (status r <> 200 -> st' = st) /\
  (status r = 200 ->
   exists saved,
     r = respond 200 (OfferJson saved) /\
     st' = {| offers := replace_offer saved (offers st); next_id := next_id st |} /\
     patched h now req offer saved /\
     Offer.valid saved = true /\
     findOne_code_ne st (Offer.code saved) (Offer._id offer) = None).
Proof.
  intros Hfind. cbv zeta. rewrite (put_offer_unfold st now req offer Hfind).
  destruct (truthy (b_code (req_body req))) eqn:Tc.
  - destruct (b_code (req_body req)) as [| | | |code] eqn:Ec;
      try (cbn; split; [split; [discriminate | intros (c & _ & E & _); discriminate E]|];
           split; [discriminate|]; split; [reflexivity | discriminate]).
    destruct (findOne_code_ne st (toUpperCase code) (Offer._id offer)) as [other|] eqn:Ef.
    + cbn. split.
      * split; [intros _ | reflexivity].
        exists code. split; [reflexivity|]. split; [reflexivity|].
        apply findOne_code_ne_Some. now exists other.
      * split; [reflexivity|]. split; [reflexivity | discriminate].
    + pose proof (put_save_spec st now req offer
                    (Offer.code_setter (toUpperCase code))) as S.
      cbv zeta in S. destruct S as (S1 & S2 & S3).
      split.
      * split; [intros H; destruct S1 as [S1|S1]; rewrite S1 in H; discriminate H|].
        intros (c & _ & E & Ht). injection E as <-.
        apply findOne_code_ne_Some in Ht as [o Ho]. rewrite Ef in Ho. discriminate Ho.
      * split; [intros H; destruct S1 as [S1|S1]; rewrite S1 in H; discriminate H|].
        split; [exact S2|].
        intros H. destruct (S3 H) as (saved & E1 & E2 & E3 & V & F & P).
        exists saved. split; [exact E1|]. split; [exact E2|].
        split; [|split; [exact V | now rewrite E3]].
        apply (P (Some (Offer.code_setter (toUpperCase code)))); [reflexivity|].
        rewrite Ec, Tc. unfold Offer.code_setter. now rewrite toUpperCase_idem.
  - pose proof (put_save_spec st now req offer (Offer.code offer)) as S.
    cbv zeta in S. destruct S as (S1 & S2 & S3).
    split.
    + split; [intros H; destruct S1 as [S1|S1]; rewrite S1 in H; discriminate H|].
      intros (c & E & _). discriminate E.
    + split; [intros H; destruct S1 as [S1|S1]; rewrite S1 in H; discriminate H|].
      split; [exact S2|].
      intros H. destruct (S3 H) as (saved & E1 & E2 & E3 & V & F & P).
      exists saved. split; [exact E1|]. split; [exact E2|].
      split; [|split; [exact V | now rewrite E3]].
      apply (P (Some (Offer.code offer))); [reflexivity|]. now rewrite Tc.
Qed.

(** C8: an update of a stored offer is answered 400, with the conflict
    message, exactly when the request has a truthy code that another stored
    offer bears once upper-cased, the offer's own id being left out of the
    search; an update that is not answered 200 leaves the collection as it
    was; and an update answered 200 replaces the offer, and no other, by
    the document patched from the request: a field is overwritten when its
    guard passes (a truthy value for title, description, code and the
    dates, any value but [undefined] for discount, isActive and
    minOrderAmount, an uploaded file for the image) and keeps its stored
    value otherwise; [updatedAt] becomes the time of the save when a
    field has changed, and is kept when none has. *)
Theorem put_offer_patches (st : store) (now : Z) (req : request) (offer : Offer.t) :
  findById st (req_id req) = Some offer ->
  let r := fst (put_offer h st now req) in
  let st' := snd (put_offer h st now req) in
  (status r = 400 <->
   exists c, truthy (b_code (req_body req)) = true /\
             b_code (req_body req) = VStr c /\
             code_taken st (toUpperCase c) (Offer._id offer)) /\
  (status r = 400 -> r = respond 400 (Message "Offer code already exists")) /\
  (status r <> 200 -> st' = st) /\
  (status r = 200 ->
   exists saved,
     r = respond 200 (OfferJson saved) /\
     offers st' = replace_offer saved (offers st) /\
     patched h now req offer saved /\
     forall x, In x (offers st) -> Offer._id x <> Offer._id offer ->
               In x (offers st')).
Proof.
  intros Hfind.
  pose proof (put_offer_found st now req offer Hfind) as P. cbv zeta in *.
  destruct P as (P1 & P2 & P3 & P4).
  split; [exact P1|]. split; [exact P2|]. split; [exact P3|].
  intros H. destruct (P4 H) as (saved & E1 & E2 & Hp & _).
  exists saved. split; [exact E1|]. rewrite E2. cbn [offers].
  split; [reflexivity|]. split; [exact Hp|].
  intros x Hx Hne. unfold replace_offer. apply in_map_iff. exists x.
  split; [|exact Hx].
  destruct Hp as (Hid & _). rewrite Hid.
  now apply N.eqb_neq in Hne as ->.
Qed.

(** An id that is not stored is answered 404, with the collection as it was. *)
Lemma put_offer_not_found (st : store) (now : Z) (req : request) :
  findById st (req_id req) = None ->
  put_offer h st now req = (respond 404 (Message "Offer not found"), st).
Proof.
  intros H. unfold put_offer. now rewrite H.
Qed.

End PutOffer.

(** ** The invariant of the collection *)

Lemma findOne_code_None (st : store) (c : string) :
  findOne_code st c = None <-> forall o, In o (offers st) -> Offer.code o <> c.
Proof.
  unfold findOne_code. split.
  - intros H o Hin E. apply (find_none _ _ H) in Hin.
    apply String.eqb_neq in Hin. now apply Hin.
  - intros H. destruct (find _ (offers st)) as [o|] eqn:E; [|reflexivity].
    apply find_some in E as [Hin Hc]. apply String.eqb_eq in Hc.
    now apply H in Hin.
Qed.

Lemma findById_In (st : store) (id : N) (o : Offer.t) :
  findById st id = Some o -> In o (offers st) /\ Offer._id o = id.
Proof.
  unfold findById. intros H. apply find_some in H as [Hin Hi].
  now apply N.eqb_eq in Hi.
Qed.

Lemma NoDup_snoc {A : Type} (l : list A) (x : A) :
  NoDup l -> ~ In x l -> NoDup (l ++ [x]).
Proof.
  intros Hl Hx. apply NoDup_app; [exact Hl | repeat constructor; auto |].
  intros a Ha [<-|[]]. now apply Hx.
Qed.

(** Deleting documents keeps their keys apart. *)
Lemma filter_keeps_keys_apart {D K : Type} (key : D -> K) (keep : D -> bool)
    (docs : list D) :
  NoDup (map key docs) -> NoDup (map key (filter keep docs)).
Proof.
  induction docs as [|d docs IH]; cbn; [auto|].
  intros H. apply NoDup_cons_iff in H as [Hd Hrest].
  destruct (keep d); cbn; [|auto].
  apply NoDup_cons; [|auto].
  rewrite in_map_iff. intros (y & E & Hy).
  apply filter_In in Hy as [Hy _].
  apply Hd. rewrite <- E. now apply in_map.
Qed.

Lemma replace_offer_ids (o : Offer.t) (l : list Offer.t) :
  map Offer._id (replace_offer o l) = map Offer._id l.
Proof.
  unfold replace_offer. rewrite map_map. apply map_ext_in. intros x _.
  destruct (N.eqb (Offer._id x) (Offer._id o)) eqn:E; [|reflexivity].
  apply N.eqb_eq in E. now rewrite E.
Qed.

Lemma replace_offer_In (o x : Offer.t) (l : list Offer.t) :
  In x (replace_offer o l) -> x = o \/ (In x l /\ Offer._id x <> Offer._id o).
Proof.
  unfold replace_offer. intros H. apply in_map_iff in H as (y & E & Hy).
  destruct (N.eqb (Offer._id y) (Offer._id o)) eqn:Ei.
  - left. now symmetry.
  - right. subst y. split; [exact Hy | now apply N.eqb_neq].
Qed.

Lemma replace_offer_absent (o : Offer.t) (l : list Offer.t) :
  ~ In (Offer._id o) (map Offer._id l) -> replace_offer o l = l.
Proof.
  intros H. unfold replace_offer. rewrite <- (map_id l) at 2.
  apply map_ext_in. intros x Hx.
  destruct (N.eqb (Offer._id x) (Offer._id o)) eqn:E; [|reflexivity].
  apply N.eqb_eq in E. exfalso. apply H. rewrite <- E. now apply in_map.
Qed.

Lemma replace_offer_codes (o : Offer.t) (l : list Offer.t) :
  NoDup (map Offer._id l) ->
  NoDup (map Offer.code l) ->
  (forall x, In x l -> Offer.code x = Offer.code o -> Offer._id x = Offer._id o) ->
  NoDup (map Offer.code (replace_offer o l)).
Proof.
  induction l as [|y r IH]; intros Hid Hcode Hfree; [constructor|].
  inversion Hid as [|? ? Hy Hr]; subst.
  inversion Hcode as [|? ? Hcy Hcr]; subst.
  cbn [replace_offer map].
  destruct (N.eqb (Offer._id y) (Offer._id o)) eqn:E.
  - apply N.eqb_eq in E.
    fold (replace_offer o r). rewrite replace_offer_absent by now rewrite <- E.
    constructor; [|exact Hcr].
    intros Hin. apply in_map_iff in Hin as (x & Ex & Hx).
    apply Hy. rewrite E, <- (Hfree x (or_intror Hx) Ex). now apply in_map.
  - apply N.eqb_neq in E. fold (replace_offer o r).
    constructor.
    + intros Hin. apply in_map_iff in Hin as (x & Ex & Hx).
      apply replace_offer_In in Hx as [->|[Hx _]].
      * apply E. apply Hfree; [now left | now symmetry].
      * apply Hcy. apply in_map_iff. now exists x.
    + apply IH; [exact Hr | exact Hcr |]. intros x Hx. apply Hfree. now right.
Qed.

Lemma findOne_code_ne_None (st : store) (c : string) (id : N) :
  findOne_code_ne st c id = None ->
  forall x, In x (offers st) -> Offer.code x = c -> Offer._id x = id.
Proof.
  unfold findOne_code_ne. intros H x Hin Hc.
  apply (find_none _ _ H) in Hin.
  apply String.eqb_eq in Hc. rewrite Hc in Hin. cbn [andb] in Hin.
  apply negb_false_iff in Hin. now apply N.eqb_eq.
Qed.

Section Invariant.

Variable h : Host.

Lemma store_ok_empty : store_ok empty_store.
Proof.
  repeat split; try constructor; destruct H.
Qed.

Lemma store_ok_create (st : store) (now : Z) (d o : Offer.t) (st' : store) :
  store_ok st -> Offer_create st now d = inr (o, st') -> store_ok st'.
Proof.
  intros (Hall & Hid & Hcode) H.
  apply Offer_create_inr in H as (E & _ & Hfree). injection E as -> ->.
  pose proof (proj1 (findOne_code_None _ _) Hfree) as Hfree'.
  repeat split; cbn [offers next_id].
  - apply in_app_iff in H as [H|[<-|[]]]; [now apply Hall|].
    cbn. unfold Offer.code_setter. apply toUpperCase_idem.
  - apply in_app_iff in H as [H|[<-|[]]]; [|cbn; lia].
    apply Hall in H as [_ H]. lia.
  - rewrite map_app. apply NoDup_snoc; [exact Hid|].
    cbn. intros Hin. apply in_map_iff in Hin as (x & Ex & Hx).
    apply Hall in Hx as [_ Hx]. lia.
  - rewrite map_app. apply NoDup_snoc; [exact Hcode|].
    intros Hin. apply in_map_iff in Hin as (x & Ex & Hx).
    now apply (Hfree' x Hx).
Qed.

Lemma store_ok_post (st : store) (now : Z) (req : request) :
  store_ok st -> store_ok (snd (post_offer h st now req)).
Proof.
  intros Hok.
  destruct (post_offer_outcome h st now req) as [(d & o & st' & EC & E)|[E _]].
  - rewrite E. cbn [snd]. eapply store_ok_create; eauto.
  - now rewrite E.
Qed.

Lemma store_ok_put (st : store) (now : Z) (req : request) :
  store_ok st -> store_ok (snd (put_offer h st now req)).
Proof.
  intros Hok.
  destruct (findById st (req_id req)) as [offer|] eqn:Hfind;
    [|now rewrite put_offer_not_found].
  pose proof (put_offer_found h st now req offer Hfind) as P. cbv zeta in P.
  destruct P as (_ & _ & Hsame & Hsaved).
  destruct (Z.eq_dec (status (fst (put_offer h st now req))) 200) as [E|E];
    [|now rewrite Hsame].
  destruct (Hsaved E) as (saved & _ & -> & P & _ & Hfree).
  destruct Hok as (Hall & Hid & Hcode).
  apply findById_In in Hfind as [Hin _].
  destruct P as (Pid & _ & _ & _ & Pcode & _).
  assert (Hup : toUpperCase (Offer.code saved) = Offer.code saved).
  { destruct (truthy (b_code (req_body req))).
    - destruct (b_code (req_body req)); try discriminate Pcode.
      injection Pcode as ->. apply toUpperCase_idem.
    - injection Pcode as ->. now apply Hall. }
  repeat split; cbn [offers next_id].
  - apply replace_offer_In in H as [->|[H _]]; [exact Hup | now apply Hall].
  - apply replace_offer_In in H as [->|[H _]]; [|now apply Hall].
    rewrite Pid. now apply Hall.
  - now rewrite replace_offer_ids.
  - apply replace_offer_codes; [exact Hid | exact Hcode |].
    intros x Hx Ex. rewrite Pid.
    now apply (findOne_code_ne_None st (Offer.code saved)).
Qed.

Lemma store_ok_delete (st : store) (id : N) :
  store_ok st -> store_ok (snd (delete_offer st id)).
Proof.
  intros (Hall & Hid & Hcode). unfold delete_offer.
  destruct (findById st id) as [offer|]; [|repeat split; auto; now apply Hall].
  cbn [snd Offer_deleteOne]. repeat split; cbn [offers next_id].
  - apply filter_In in H as [H _]. now apply Hall.
  - apply filter_In in H as [H _]. now apply Hall.
  - now apply filter_keeps_keys_apart.
  - now apply filter_keeps_keys_apart.
Qed.

Lemma reachable_ok (st : store) : reachable h st -> store_ok st.
Proof.
  induction 1.
  - apply store_ok_empty.
  - now apply store_ok_post.
  - now apply store_ok_put.
  - now apply store_ok_delete.
Qed.

Lemma NoDup_map_inj {A B : Type} (f : A -> B) (l : list A) (x y : A) :
  NoDup (map f l) -> In x l -> In y l -> f x = f y -> x = y.
Proof.
  induction l as [|a r IH]; cbn; [contradiction|].
  intros H Hx Hy E. inversion H as [|? ? Ha Hr]; subst.
  destruct Hx as [->|Hx], Hy as [->|Hy]; auto.
  - exfalso. apply Ha. rewrite E. now apply in_map.
  - exfalso. apply Ha. rewrite <- E. now apply in_map.
Qed.

(** C5: in every collection the routes can reach, each stored code is
    upper-cased and no two stored offers have codes that agree up to letter
    case; and a POST whose code agrees up to letter case with the code of a
    stored offer is answered 400 and stores nothing, with the conflict
    message as soon as it passes the checks that come before. *)
Theorem offer_codes_unique (st : store) :
  reachable h st ->
  (forall o, In o (offers st) -> Offer.code o = toUpperCase (Offer.code o)) /\
  (forall o1 o2, In o1 (offers st) -> In o2 (offers st) ->
     toUpperCase (Offer.code o1) = toUpperCase (Offer.code o2) -> o1 = o2) /\
  (forall o now req c,
     In o (offers st) ->
     b_code (req_body req) = VStr c ->
     toUpperCase c = toUpperCase (Offer.code o) ->
     status (fst (post_offer h st now req)) = 400 /\
     snd (post_offer h st now req) = st /\
     (fields_present (req_body req) = true ->
      discount_accepted (b_discount (req_body req)) = true ->
      dates_accepted h (req_body req) = true ->
      fst (post_offer h st now req) =
      respond 400 (Message "Offer code already exists"))).
Proof.
  intros Hr. apply reachable_ok in Hr. destruct Hr as (Hall & Hid & Hcode).
  split; [intros o Ho; symmetry; now apply Hall|].
  split.
  { intros o1 o2 H1 H2 E.
    apply (NoDup_map_inj Offer.code (offers st)); auto.
    destruct (Hall o1 H1) as [<- _]. destruct (Hall o2 H2) as [<- _]. exact E. }
  intros o now req c Ho Ec Eu.
  destruct (Hall o Ho) as [Hup _]. rewrite Hup in Eu.
  assert (Hfound : exists x, findOne_code st (toUpperCase c) = Some x).
  { destruct (findOne_code st (toUpperCase c)) as [x|] eqn:E; [now exists x|].
    exfalso. rewrite findOne_code_None in E. now apply (E o Ho). }
  destruct Hfound as [x Hx].
  unfold post_offer, dates_accepted. cbv zeta.
  rewrite fields_present_neg, discount_accepted_neg, Ec, Hx.
  destruct (fields_present _); cbn [negb];
    [|split; [reflexivity | split; [reflexivity | discriminate]]].
  destruct (discount_accepted _); cbn [negb];
    [|split; [reflexivity | split; [reflexivity | discriminate]]].
  destruct (new_Date h (b_validFrom _)) as [f|];
    [|split; [reflexivity | split; [reflexivity | discriminate]]].
  destruct (new_Date h (b_validUntil _)) as [u|];
    [|split; [reflexivity | split; [reflexivity | discriminate]]].
  rewrite (Z.leb_antisym f u).
  destruct (f <? u); cbn [negb];
    [|split; [reflexivity | split; [reflexivity | discriminate]]].
  split; [reflexivity | split; reflexivity].
Qed.

End Invariant.



(** ** Substrings of a rendered document *)

Lemma append_assoc (a b c : string) : (a ++ b) ++ c = a ++ (b ++ c).
Proof.
  induction a as [|x a IH]; cbn; [reflexivity | now rewrite IH].
Qed.

Lemma append_nil_r (a : string) : a ++ "" = a.
Proof.
  induction a as [|x a IH]; cbn; [reflexivity | now rewrite IH].
Qed.

Lemma starts_with_app (m s t : string) :
  starts_with m s = true -> starts_with m (s ++ t) = true.
Proof.
  revert s. induction m as [|a m IH]; intros s H; [reflexivity|].
  destruct s as [|b s]; [discriminate H|].
  cbn in *. apply andb_true_iff in H as [H1 H2].
  now rewrite H1, IH.
Qed.

Lemma mismatch_app (m s t : string) :
  mismatch m s = true -> starts_with m (s ++ t) = false.
Proof.
  revert s. induction m as [|a m IH]; intros s H; [discriminate H|].
  destruct s as [|b s]; [discriminate H|].
  cbn in *. destruct (Ascii.eqb a b); cbn in *; [now apply IH | reflexivity].
Qed.

Lemma count_sub_closed (c : ascii) (m l t : string) :
  closed (String c m) l = true ->
  count_sub (String c m) (l ++ t) =
  (count_sub (String c m) l + count_sub (String c m) t)%nat.
Proof.
  induction l as [|a l IH]; intros H; [reflexivity|].
  cbn [closed] in H. apply andb_true_iff in H as [H1 H2].
  cbn [append count_sub]. fold (append l t). rewrite (IH H2).
  change (String a (l ++ t)) with (String a l ++ t).
  destruct (starts_with (String c m) (String a l)) eqn:E.
  - rewrite (starts_with_app _ _ t E). lia.
  - cbn [orb] in H1. rewrite (mismatch_app _ _ t H1). lia.
Qed.

Lemma count_sub_no_char (c : ascii) (m s t : string) :
  no_char c s = true ->
  count_sub (String c m) (s ++ t) = count_sub (String c m) t.
Proof.
  induction s as [|a s IH]; intros H; [reflexivity|].
  cbn [no_char] in H. apply andb_true_iff in H as [H1 H2].
  cbn [append count_sub starts_with]. fold (append s t).
  rewrite (IH H2).
  rewrite Ascii.eqb_sym. apply negb_true_iff in H1. now rewrite H1.
Qed.

(** [includes] is the presence of a substring. *)
Lemma includes_spec (m s : string) :
  includes m s = true <-> exists a b, s = a ++ m ++ b.
Proof.
  unfold includes. rewrite Nat.ltb_lt. split.
  - induction s as [|x s IH]; cbn [count_sub].
    + destruct m as [|y m]; cbn; [|lia]. intros _. now exists "", "".
    + destruct (starts_with m (String x s)) eqn:E.
      * intros _. exists "".
        clear IH. revert E. generalize (String x s) as t. clear.
        induction m as [|y m IH]; intros t E; [now exists t|].
        destruct t as [|z t]; [discriminate E|].
        cbn in E. apply andb_true_iff in E as [E1 E2].
        apply Ascii.eqb_eq in E1. subst z.
        destruct (IH t E2) as [b Hb]. exists b. cbn in *. now rewrite Hb at 1.
      * intros H. destruct IH as (a & b & Hab); [lia|].
        exists (String x a), b. cbn. now rewrite Hab.
  - intros (a & b & ->). induction a as [|x a IH].
    + cbn [append]. 
      assert (E : starts_with m (m ++ b) = true).
      { clear. induction m as [|y m IH]; [reflexivity|].
        cbn. now rewrite Ascii.eqb_refl, IH. }
      destruct (m ++ b); cbn [count_sub]; rewrite E; lia.
    + cbn [append count_sub]. fold (append a (m ++ b)). lia.
Qed.

(** ** Numbers are written without markup *)

Lemma no_char_app (c : ascii) (s t : string) :
  no_char c (s ++ t) = no_char c s && no_char c t.
Proof.
  induction s as [|a s IH]; cbn; [reflexivity|].
  now rewrite IH, andb_assoc.
Qed.

Lemma no_lt_uint (d : Decimal.uint) : no_char lt_char (NilEmpty.string_of_uint d) = true.
Proof.
  induction d; cbn [NilEmpty.string_of_uint no_char]; try exact IHd; reflexivity.
Qed.

Lemma no_lt_decimal (n : N) : no_char lt_char (decimal n) = true.
Proof. apply no_lt_uint. Qed.

Lemma no_lt_digit_char (d : Z) :
  0 <= d <= 9 -> negb (Ascii.eqb (digit_char d) lt_char) = true.
Proof.
  intros H.
  assert (C : d = 0 \/ d = 1 \/ d = 2 \/ d = 3 \/ d = 4 \/ d = 5 \/ d = 6 \/
              d = 7 \/ d = 8 \/ d = 9) by lia.
  repeat (destruct C as [-> | C]; [reflexivity|]). now subst.
Qed.

Lemma no_lt_toFixed2 (x : Q) : no_char lt_char (toFixed2 x) = true.
Proof.
  unfold toFixed2. cbv zeta.
  set (n := cents (Qabs x)).
  assert (Hn : 0 <= n) by apply cents_nonneg.
  assert (Hd1 : 0 <= n mod 100 / 10 <= 9).
  { pose proof (Z.mod_pos_bound n 100 ltac:(lia)).
    split; [apply Z.div_pos; lia|].
    apply Z.lt_succ_r. apply Z.div_lt_upper_bound; lia. }
  assert (Hd2 : 0 <= n mod 10 <= 9).
  { pose proof (Z.mod_pos_bound n 10 ltac:(lia)). lia. }
  rewrite !no_char_app, no_lt_decimal.
  cbn [no_char]. rewrite (no_lt_digit_char _ Hd1), (no_lt_digit_char _ Hd2).
  now destruct (Qnum x <? 0).
Qed.

Lemma no_lt_number (n : number) : no_char lt_char (number_toFixed2 n) = true.
Proof.
  destruct n; try reflexivity. apply no_lt_toFixed2.
Qed.

Lemma no_lt_Z_toString (z : Z) : no_char lt_char (Z_toString z) = true.
Proof.
  unfold Z_toString. destruct (z <? 0).
  - rewrite no_char_app, no_lt_decimal. reflexivity.
  - apply no_lt_decimal.
Qed.

Lemma no_char_substring (c : ascii) (s : string) (n m : nat) :
  no_char c s = true -> no_char c (substring n m s) = true.
Proof.
  revert n m. induction s as [|a s IH]; intros n m H.
  - destruct n, m; reflexivity.
  - cbn [no_char] in H. apply andb_true_iff in H as [H1 H2].
    destruct n as [|n]; destruct m as [|m]; cbn [substring no_char];
      try reflexivity.
    + now rewrite H1, IH.
    + now apply IH.
    + now apply IH.
Qed.

Lemma count_sub_le_r (m s t : string) :
  (count_sub m t <= count_sub m (s ++ t))%nat.
Proof.
  induction s as [|a s IH]; cbn [append count_sub]; [lia|].
  fold (append s t). lia.
Qed.

Lemma count_sub_le_l (m s t : string) :
  (count_sub m s <= count_sub m (s ++ t))%nat.
Proof.
  induction s as [|a s IH].
  - cbn [append]. destruct m as [|c m]; [|cbn; lia].
    destruct t; cbn; lia.
  - cbn [append count_sub]. fold (append s t).
    change (String a (s ++ t)) with (String a s ++ t).
    destruct (starts_with m (String a s)) eqn:E; [|lia].
    rewrite (starts_with_app _ _ t E). lia.
Qed.

Lemma includes_app_r (m s t : string) :
  includes m t = true -> includes m (s ++ t) = true.
Proof.
  unfold includes. rewrite !Nat.ltb_lt. pose proof (count_sub_le_r m s t). lia.
Qed.

Lemma includes_app_l (m s t : string) :
  includes m s = true -> includes m (s ++ t) = true.
Proof.
  unfold includes. rewrite !Nat.ltb_lt. pose proof (count_sub_le_l m s t). lia.
Qed.

Lemma includes_refl (m : string) : includes m m = true.
Proof.
  apply includes_spec. exists "", "". cbn. now rewrite append_nil_r.
Qed.

(** ** The receipt *)

Lemma address_line_cases (o : Order.t) :
  (address_shown o /\
   exists a, Order.address o = Some a /\
     address_line o = "<p><strong>Address:</strong> " ++ a ++ "</p>") \/
  (~ address_shown o /\ address_line o = "").
Proof.
  unfold address_line, address_shown.
  destruct (String.eqb (Order.deliveryType o) "delivery") eqn:Ed.
  - apply String.eqb_eq in Ed.
    destruct (Order.address o) as [a|].
    + destruct (String.eqb a "") eqn:Ea; cbn [negb andb].
      * apply String.eqb_eq in Ea. right. split; [|reflexivity].
        intros (_ & a' & E & Hne). injection E as <-. now apply Hne.
      * apply String.eqb_neq in Ea. left. split; [split; [exact Ed | now exists a]|].
        now exists a.
    + right. split; [|reflexivity]. intros (_ & a' & E & _). discriminate E.
  - apply String.eqb_neq in Ed. right. split; [|reflexivity]. now intros [E _].
Qed.

Lemma totals_block_cases (o : Order.t) :
  (charged o /\
   exists c, Order.deliveryCharge o = Some c /\
     num_gtb (amount c) (Fin 0) = true /\
     totals_block o =
     "<p>Subtotal: $" ++
     number_toFixed2 (num_sub (amount (Order.totalAmount o)) (amount c)) ++ "</p>
    <p>Delivery Charge: $" ++ number_toFixed2 (amount c) ++ "</p>") \/
  (~ charged o /\ totals_block o = "").
Proof.
  unfold totals_block, charged.
  destruct (Order.deliveryCharge o) as [c|].
  - destruct (num_gtb (amount c) (Fin 0)) eqn:E.
    + left. split; [now exists c|]. now exists c.
    + right. split; [|reflexivity].
      intros (c' & Ec & Hc). injection Ec as <-. congruence.
  - right. split; [|reflexivity]. intros (c & E & _). discriminate E.
Qed.

Ltac no_lt_tac :=
  first
    [ assumption
    | match goal with
      | |- no_char _ (number_toFixed2 _) = true => apply no_lt_number
      | |- no_char _ (toFixed2 _) = true => apply no_lt_toFixed2
      | |- no_char _ (Z_toString _) = true => apply no_lt_Z_toString
      | |- no_char _ (substring _ _ _) = true =>
          apply no_char_substring; assumption
      | |- no_char _ (slice_last _ _) = true =>
          apply no_char_substring; assumption
      | |- no_char _ (if ?b then _ else _) = true => destruct b; reflexivity
      end ].

(** A number the template writes is a text without [<], whatever the
    number is. *)
Ltac hide_numbers :=
  repeat match goal with
  | |- context [number_toFixed2 ?x] =>
      let H := fresh "Hnum" in
      let s := fresh "written" in
      pose proof (no_lt_number x) as H;
      set (s := number_toFixed2 x) in *; clearbody s
  end.

(** One piece of a template: a value without [<] is skipped, a literal is
    counted on its own. *)
Ltac count_step :=
  match goal with
  | |- context [count_sub (String ?c ?m) (?l ++ ?t)] =>
      first
        [ rewrite (count_sub_no_char c m l t) by no_lt_tac
        | lazymatch l with String _ _ => idtac | dq => idtac end;
          rewrite (count_sub_closed c m l t) by (vm_compute; reflexivity);
          let v := eval vm_compute in (count_sub (String c m) l) in
          change (count_sub (String c m) l) with v ]
  end.

Lemma item_rows_cons (item : Item.t) (items : list Item.t) :
  item_rows (item :: items) = item_row item ++ item_rows items.
Proof.
  unfold item_rows. cbn [map String.concat].
  destruct (map item_row items) as [|x r]; [now rewrite append_nil_r | reflexivity].
Qed.

Lemma count_rows_tr (items : list Item.t) (t : string) :
  names_free items = true ->
  count_sub row_marker (item_rows items ++ t) =
  (List.length items + count_sub row_marker t)%nat.
Proof.
  unfold row_marker, names_free, no_markup, lt_char.
  induction items as [|item items IH]; intros H; [reflexivity|].
  cbn [forallb] in H. apply andb_true_iff in H as [H1 H2].
  rewrite item_rows_cons. unfold item_row. hide_numbers.
  rewrite !append_assoc.
  repeat count_step.
  rewrite (IH H2). cbn [List.length]. lia.
Qed.

Lemma append_nil_l (s : string) : "" ++ s = s.
Proof. reflexivity. Qed.

Lemma count_rows_address (items : list Item.t) (t : string) :
  names_free items = true ->
  count_sub address_marker (item_rows items ++ t) = count_sub address_marker t.
Proof.
  unfold address_marker, names_free, no_markup, lt_char.
  induction items as [|item items IH]; intros H; [reflexivity|].
  cbn [forallb] in H. apply andb_true_iff in H as [H1 H2].
  rewrite item_rows_cons. unfold item_row. hide_numbers. rewrite !append_assoc.
  repeat count_step. now rewrite (IH H2).
Qed.

Lemma count_rows_subtotal (items : list Item.t) (t : string) :
  names_free items = true ->
  count_sub subtotal_marker (item_rows items ++ t) = count_sub subtotal_marker t.
Proof.
  unfold subtotal_marker, names_free, no_markup, lt_char.
  induction items as [|item items IH]; intros H; [reflexivity|].
  cbn [forallb] in H. apply andb_true_iff in H as [H1 H2].
  rewrite item_rows_cons. unfold item_row. hide_numbers. rewrite !append_assoc.
  repeat count_step. now rewrite (IH H2).
Qed.

Lemma count_rows_charge (items : list Item.t) (t : string) :
  names_free items = true ->
  count_sub charge_marker (item_rows items ++ t) = count_sub charge_marker t.
Proof.
  unfold charge_marker, names_free, no_markup, lt_char.
  induction items as [|item items IH]; intros H; [reflexivity|].
  cbn [forallb] in H. apply andb_true_iff in H as [H1 H2].
  rewrite item_rows_cons. unfold item_row. hide_numbers. rewrite !append_assoc.
  repeat count_step. now rewrite (IH H2).
Qed.

Section ReceiptCounts.

Variable h : Host.
Variable o : Order.t.
Hypothesis Hfree : markup_free h o = true.

Lemma markup_free_fields :
  no_char "<" (Order._id o) = true /\
  no_char "<" (toLocaleString h (Order.createdAt o)) = true /\
  no_char "<" (Order.customerName o) = true /\
  no_char "<" (Order.customerEmail o) = true /\
  no_char "<" (Order.orderStatus o) = true /\
  (forall a, Order.address o = Some a -> no_char "<" a = true) /\
  names_free (Order.items o) = true.
Proof.
  unfold markup_free, no_markup, lt_char in Hfree.
  repeat (apply andb_true_iff in Hfree as [Hfree ?]).
  repeat split; try assumption.
  intros a E. now rewrite E in *.
Qed.

(** The walk through the template, for one marker: the pieces before the
    address line, the address line, the rows, the totals and the rest. *)
Ltac receipt_count marker rows_lemma F6 F7 :=
  unfold generateOrderPDF, marker;
  repeat count_step;
  destruct (address_line_cases o) as [(_ & ?a & ?Ea & ->)|(_ & ->)];
  [ match goal with Ea : Order.address o = Some ?a |- _ =>
      pose proof (F6 a Ea) end;
    rewrite !append_assoc
  | rewrite append_nil_l ];
  repeat count_step;
  change (count_sub ?m (item_rows ?i ++ ?t))
    with (count_sub marker (item_rows i ++ t));
  rewrite (rows_lemma _ _ F7); unfold marker;
  repeat count_step;
  (destruct (totals_block_cases o) as [(_ & ?c & _ & _ & ->)|(_ & ->)];
   [ hide_numbers; rewrite !append_assoc | rewrite append_nil_l ];
   repeat count_step).

Lemma count_address_marker :
  count_sub address_marker (generateOrderPDF h o) =
  match address_line o with "" => 0%nat | _ => 1%nat end.
Proof.
  destruct markup_free_fields as (F1 & F2 & F3 & F4 & F5 & F6 & F7).
  receipt_count address_marker count_rows_address F6 F7; reflexivity.
Qed.

Lemma count_subtotal_marker :
  count_sub subtotal_marker (generateOrderPDF h o) =
  match totals_block o with "" => 0%nat | _ => 1%nat end.
Proof.
  destruct markup_free_fields as (F1 & F2 & F3 & F4 & F5 & F6 & F7).
  receipt_count subtotal_marker count_rows_subtotal F6 F7; reflexivity.
Qed.

Lemma count_charge_marker :
  count_sub charge_marker (generateOrderPDF h o) =
  match totals_block o with "" => 0%nat | _ => 1%nat end.
Proof.
  destruct markup_free_fields as (F1 & F2 & F3 & F4 & F5 & F6 & F7).
  receipt_count charge_marker count_rows_charge F6 F7; reflexivity.
Qed.

Lemma count_row_marker :
  count_sub row_marker (generateOrderPDF h o) = S (List.length (Order.items o)).
Proof.
  destruct markup_free_fields as (F1 & F2 & F3 & F4 & F5 & F6 & F7).
  receipt_count row_marker count_rows_tr F6 F7; cbn; lia.
Qed.

End ReceiptCounts.

Lemma includes_item_rows (items : list Item.t) (item : Item.t) :
  In item items -> includes (item_row item) (item_rows items) = true.
Proof.
  induction items as [|x items IH]; intros H; [destruct H|].
  rewrite item_rows_cons. destruct H as [->|H].
  - apply includes_app_l, includes_refl.
  - now apply includes_app_r, IH.
Qed.

Lemma includes_prefix (m t : string) : includes m (m ++ t) = true.
Proof. apply includes_app_l, includes_refl. Qed.

Lemma includes_row_total (item : Item.t) :
  includes ("<td>$" ++
            number_toFixed2
              (num_mul (amount (Item.price item))
                 (amount (inject_Z (Item.quantity item)))) ++
            "</td>") (item_row item) = true.
Proof.
  apply includes_spec. unfold item_row.
  eexists ("
        <tr>
          <td>" ++ Item.name item ++ "</td>
          <td>" ++ Z_toString (Item.quantity item) ++ "</td>
          <td>$" ++ number_toFixed2 (amount (Item.price item)) ++ "</td>
          "), "
        </tr>
      ".
  rewrite !append_assoc. reflexivity.
Qed.

(** Walks down a template to the piece that holds the substring. *)
Ltac find_piece tac :=
  repeat first [ apply includes_app_l; solve [tac] | apply includes_app_r ].

Section ReceiptLines.

Variable h : Host.

Lemma receipt_includes_rows (o : Order.t) (item : Item.t) :
  In item (Order.items o) ->
  includes (item_row item) (generateOrderPDF h o) = true.
Proof.
  intros H. unfold generateOrderPDF.
  find_piece ltac:(now apply includes_item_rows).
Qed.

Lemma receipt_includes_address (o : Order.t) (a : string) :
  address_shown o -> Order.address o = Some a ->
  includes ("<p><strong>Address:</strong> " ++ a ++ "</p>")
           (generateOrderPDF h o) = true.
Proof.
  intros Hs Ea.
  destruct (address_line_cases o) as [(_ & a' & Ea' & E)|(Hn & _)];
    [|contradiction].
  rewrite Ea in Ea'. injection Ea' as <-.
  unfold generateOrderPDF. rewrite E.
  find_piece ltac:(apply includes_refl).
Qed.

Lemma receipt_includes_totals (o : Order.t) (c : Q) :
  Order.deliveryCharge o = Some c -> num_gtb (amount c) (Fin 0) = true ->
  includes ("<p>Subtotal: $" ++
            number_toFixed2 (num_sub (amount (Order.totalAmount o)) (amount c)) ++
            "</p>")
           (generateOrderPDF h o) = true /\
  includes ("<p>Delivery Charge: $" ++ number_toFixed2 (amount c) ++ "</p>")
           (generateOrderPDF h o) = true.
Proof.
  intros Ec Hc.
  destruct (totals_block_cases o) as [(_ & c' & Ec' & _ & E)|(Hn & _)];
    [|exfalso; apply Hn; now exists c].
  rewrite Ec in Ec'. injection Ec' as <-.
  unfold generateOrderPDF. rewrite E. split.
  - find_piece ltac:(
      apply includes_spec; exists "";
      eexists ("
    <p>Delivery Charge: $" ++ number_toFixed2 (amount c) ++ "</p>");
      rewrite !append_assoc; reflexivity).
  - find_piece ltac:(
      apply includes_spec;
      exists ("<p>Subtotal: $" ++
              number_toFixed2 (num_sub (amount (Order.totalAmount o)) (amount c)) ++
              "</p>
    "), "";
      rewrite !append_assoc; reflexivity).
Qed.

(** The receipt reads the host only for the date it writes. *)
Lemma receipt_host (h' : Host) (o : Order.t) :
  toLocaleString h' (Order.createdAt o) = toLocaleString h (Order.createdAt o) ->
  generateOrderPDF h' o = generateOrderPDF h o.
Proof.
  intros E. unfold generateOrderPDF. now rewrite E.
Qed.

(** C9: the receipt is a function of the order and of the date text the
    host writes for its creation time, and of nothing else.  For an order
    none of whose texts holds a [<], the receipt has an address line
    exactly when the order is a delivery and has an address, one that is
    not the empty text; a subtotal line and a delivery-charge line exactly
    when the delivery charge is above 0, the subtotal being the total less
    the charge; and one table row per line item besides the header row,
    each with the price times the quantity as its total.  The amounts are
    doubles, and the difference and the product are those of JavaScript,
    written to two decimals. *)
Theorem receipt_lines (o : Order.t) :
  markup_free h o = true ->
  let out := generateOrderPDF h o in
  (forall h', toLocaleString h' (Order.createdAt o) =
              toLocaleString h (Order.createdAt o) ->
              generateOrderPDF h' o = out) /\
  (includes address_marker out = true <-> address_shown o) /\
  (forall a, address_shown o -> Order.address o = Some a ->
     includes ("<p><strong>Address:</strong> " ++ a ++ "</p>") out = true) /\
  (includes subtotal_marker out = true <-> charged o) /\
  (includes charge_marker out = true <-> charged o) /\
  (forall c, Order.deliveryCharge o = Some c -> num_gtb (amount c) (Fin 0) = true ->
     includes ("<p>Subtotal: $" ++
               number_toFixed2
                 (num_sub (amount (Order.totalAmount o)) (amount c)) ++
               "</p>") out = true /\
     includes ("<p>Delivery Charge: $" ++ number_toFixed2 (amount c) ++ "</p>")
              out = true) /\
  count_sub row_marker out = S (List.length (Order.items o)) /\
  (forall item, In item (Order.items o) ->
     includes (item_row item) out = true /\
     includes ("<td>$" ++
               number_toFixed2
                 (num_mul (amount (Item.price item))
                    (amount (inject_Z (Item.quantity item)))) ++
               "</td>") (item_row item) = true).
Proof.
  intros Hfree. cbv zeta.
  split; [intros h'; apply receipt_host|].
  unfold includes at 1 3 4.
  rewrite (count_address_marker h o Hfree), (count_subtotal_marker h o Hfree),
    (count_charge_marker h o Hfree), (count_row_marker h o Hfree).
  split.
  { destruct (address_line_cases o) as [(Hs & a & _ & ->)|(Hn & ->)].
    - split; [intros _; exact Hs | reflexivity].
    - split; [discriminate | contradiction]. }
  split; [intros a; apply receipt_includes_address|].
  assert (HT : (0 <? match totals_block o with "" => 0 | _ => 1 end)%nat = true
               <-> charged o).
  { destruct (totals_block_cases o) as [(Hs & c & _ & _ & ->)|(Hn & ->)].
    - split; [intros _; exact Hs | reflexivity].
    - split; [discriminate | contradiction]. }
  split; [exact HT|]. split; [exact HT|].
  split; [intros c; apply receipt_includes_totals|].
  split; [reflexivity|].
  intros item Hin. split; [now apply receipt_includes_rows | apply includes_row_total].
Qed.

End ReceiptLines.


(** ** The handlers and the receipt on the examples *)

(** The daily report of 3 January 2024 holds the order of that morning. *)
Lemma daily_report_orders_witness :
  (getFullYear sample_now < 0 \/ 99 < getFullYear sample_now) /\
  let r := get_report [sample_order] sample_now (Some "daily") in
  startDate r = midnight sample_now /\
  endDate r = midnight sample_now + msPerDay /\
  In sample_order (orders r).
Proof.
  split; [right; reflexivity|].
  pose proof (daily_report_orders [sample_order] sample_now sample_order
                (or_intror eq_refl)) as D.
  cbv zeta in D. destruct D as (Hs & He & Hin & _).
  split; [exact Hs|]. split; [exact He|].
  apply Hin. split; [left; reflexivity|]. split; [reflexivity|].
  split; [discriminate | reflexivity].
Defined.

(** "SAVE10", valid from 1 January to 31 December 2024, is created. *)
Lemma post_offer_dates_witness :
  let req := save10 (VStr "10") (VStr "SAVE10") in
  let f := 1704067200000 in
  let u := 1735603200000 in
  new_Date sample_host (b_validFrom (req_body req)) = Some f /\
  new_Date sample_host (b_validUntil (req_body req)) = Some u /\
  fields_present (req_body req) = true /\
  discount_accepted (b_discount (req_body req)) = true /\
  rest_accepted sample_host empty_store req = true /\
  exists o, creates sample_host empty_store sample_now req o.
Proof.
  cbv zeta.
  split; [reflexivity|]. split; [reflexivity|]. split; [reflexivity|].
  split; [reflexivity|]. split; [reflexivity|].
  pose proof (post_offer_dates sample_host empty_store sample_now
                (save10 (VStr "10") (VStr "SAVE10")) 1704067200000 1735603200000
                eq_refl eq_refl) as D.
  destruct D as (_ & _ & _ & _ & _ & _ & D).
  destruct (D eq_refl eq_refl eq_refl) as [C _].
  apply C. reflexivity.
Defined.

(** In the collection that holds "SAVE10", "save10" is refused. *)
Lemma offer_codes_unique_witness :
  reachable sample_host store_save10 /\
  (forall o, In o (offers store_save10) -> Offer.code o = toUpperCase (Offer.code o)) /\
  status (fst (post_offer sample_host store_save10 sample_now
                 (save10 (VStr "10") (VStr "save10")))) = 400.
Proof.
  assert (R : reachable sample_host store_save10)
    by exact (reach_post sample_host _ sample_now _ (reach_empty sample_host)).
  split; [exact R|].
  destruct (offer_codes_unique sample_host store_save10 R) as (U & _ & P).
  split; [exact U|].
  refine (proj1 (P offer_save10 sample_now (save10 (VStr "10") (VStr "save10"))
                  "save10" _ _ _)).
  - vm_compute. left. reflexivity.
  - reflexivity.
  - vm_compute. reflexivity.
Defined.

(** An update of the discount, the code and the flag of "SAVE10". *)
Lemma put_offer_patches_witness :
  exists offer,
    findById store_save10 (req_id discount_update) = Some offer /\
    status (fst (put_offer sample_host store_save10 sample_now discount_update)) = 200 /\
    exists saved,
      fst (put_offer sample_host store_save10 sample_now discount_update) =
        respond 200 (OfferJson saved) /\
      patched sample_host sample_now discount_update offer saved.
Proof.
  eexists. split; [reflexivity|]. split; [reflexivity|].
  pose proof (put_offer_patches sample_host store_save10 sample_now discount_update
                _ eq_refl) as P.
  cbv zeta in P. destruct P as (_ & _ & _ & P).
  destruct (P eq_refl) as (saved & E & _ & Hp & _).
  exists saved. split; [exact E | exact Hp].
Defined.

(** The receipt of the delivered order of two pizzas and a cola. *)
Lemma receipt_lines_witness :
  markup_free sample_host sample_order = true /\
  includes address_marker (generateOrderPDF sample_host sample_order) = true /\
  includes subtotal_marker (generateOrderPDF sample_host sample_order) = true /\
  count_sub row_marker (generateOrderPDF sample_host sample_order) = 3%nat.
Proof.
  split; [reflexivity|].
  pose proof (receipt_lines sample_host sample_order eq_refl) as L.
  cbv zeta in L. destruct L as (_ & A & _ & S & _ & _ & R & _).
  split; [apply A; split; [reflexivity | exists "Hauptstr. 1"; split; [reflexivity | discriminate]]|].
  split; [apply S; exists 3%Q; split; [reflexivity | vm_compute; reflexivity]|].
  exact R.
Defined.

(** An update with an empty title: the field is in the request, the update
    is answered 200, and the stored title is kept, not overwritten.  And
    [updatedAt], which no request carries: an update of the discount a day
    later moves it to the time of the save, the update with the empty
    title, which changes nothing, leaves it. *)
Lemma put_offer_empty_title_kept :
  let r := put_offer sample_host store_save10 sample_now empty_title_update in
  let later := sample_now + msPerDay in
  (b_title (req_body empty_title_update) = VStr "" /\
   status (fst r) = 200 /\
   map Offer.title (offers (snd r)) = ["Ten percent"]) /\
  (map Offer.updatedAt (offers store_save10) = [sample_now] /\
   map Offer.updatedAt
     (offers (snd (put_offer sample_host store_save10 later discount_update))) =
     [later] /\
   map Offer.updatedAt
     (offers (snd (put_offer sample_host store_save10 later empty_title_update))) =
     [sample_now]).
Proof. vm_compute. repeat split. Defined.

(** A pickup order whose customer name holds the markup of an address
    line: the receipt has the line, and the order is no delivery and has no
    address.  A delivery whose address is the empty text: the order has
    the field, and the receipt has no address line.  And the same order
    on two hosts that write dates differently: two receipts. *)
Lemma receipt_forged_address :
  (includes address_marker (generateOrderPDF sample_host forged_order) = true /\
   Order.deliveryType forged_order <> "delivery" /\
   Order.address forged_order = None) /\
  (Order.deliveryType blank_address_order = "delivery" /\
   Order.address blank_address_order = Some "" /\
   includes address_marker (generateOrderPDF sample_host blank_address_order) = false) /\
  generateOrderPDF other_host sample_order <> generateOrderPDF sample_host sample_order.
Proof.
  split.
  { split; [vm_compute; reflexivity|]. split; [discriminate | reflexivity]. }
  split.
  { split; [reflexivity|]. split; [reflexivity|]. vm_compute. reflexivity. }
  apply String.eqb_neq. vm_compute. reflexivity.
Defined.

(** The discounts of the specification, sent as form fields on the empty
    collection: "0" and "100" are created, "-1" and "101" are answered 400;
    sent as the JSON number 0, the discount is answered 400 too. *)
Example post_offer_discounts :
  map (fun d => status (fst (post_offer sample_host empty_store sample_now
                               (save10 d (VStr "SAVE10")))))
      [VStr "0"; VStr "100"; VStr "-1"; VStr "101"; VNum (Fin 0); VNum (Fin 100)] =
  [201; 201; 400; 400; 400; 201].
Proof. vm_compute. reflexivity. Qed.


(** * Further properties *)

(** ** Sorting newest first *)

Lemma insert_desc_In {A : Type} (key : A -> Z) (x y : A) (l : list A) :
  In y (insert_desc key x l) <-> y = x \/ In y l.
Proof.
  induction l as [|a r IH]; cbn.
  - intuition.
  - destruct (key a <? key x); cbn; [|rewrite IH]; intuition.
Qed.

Lemma insert_desc_sorted {A : Type} (key : A -> Z) (x : A) (l : list A) :
  newest_first key l -> newest_first key (insert_desc key x l).
Proof.
  unfold newest_first. induction l as [|a r IH]; intros Hs; cbn.
  - repeat constructor.
  - apply StronglySorted_inv in Hs as [Hr Ha].
    destruct (key a <? key x) eqn:E.
    + apply Z.ltb_lt in E. constructor; [constructor; assumption|].
      constructor; [lia|].
      rewrite Forall_forall in *. intros b Hb. specialize (Ha b Hb). lia.
    + apply Z.ltb_ge in E. constructor; [now apply IH|].
      rewrite Forall_forall in *. intros b Hb.
      apply insert_desc_In in Hb as [->|Hb]; [exact E | now apply Ha].
Qed.

Lemma sort_desc_sorted {A : Type} (key : A -> Z) (l : list A) :
  newest_first key (sort_desc key l).
Proof.
  induction l as [|a r IH]; cbn; [constructor | now apply insert_desc_sorted].
Qed.

(** A document newer than every listed one goes to the head. *)
Lemma insert_desc_head {A : Type} (key : A -> Z) (x : A) (l : list A) :
  Forall (fun b => key b < key x) l -> insert_desc key x l = x :: l.
Proof.
  destruct l as [|a r]; [reflexivity|]. intros H.
  apply Forall_inv in H. cbn. now apply Z.ltb_lt in H as ->.
Qed.

Lemma filter_insert_desc {A : Type} (key : A -> Z) (keep : A -> bool) (x : A)
    (l : list A) :
  newest_first key l ->
  filter keep (insert_desc key x l) =
  if keep x then insert_desc key x (filter keep l) else filter keep l.
Proof.
  unfold newest_first. induction l as [|a r IH]; intros Hs.
  - cbn. now destruct (keep x).
  - apply StronglySorted_inv in Hs as [Hr Ha].
    cbn [insert_desc]. destruct (key a <? key x) eqn:E.
    + apply Z.ltb_lt in E. cbn [filter].
      destruct (keep x); [|reflexivity].
      symmetry. apply insert_desc_head.
      apply (incl_Forall (incl_filter keep (a :: r))).
      constructor; [exact E|].
      rewrite Forall_forall in *. intros b Hb. specialize (Ha b Hb). lia.
    + cbn [filter]. destruct (keep a) eqn:Ka.
      * rewrite (IH Hr). destruct (keep x); [|reflexivity].
        cbn [insert_desc]. now rewrite E.
      * now rewrite (IH Hr).
Qed.

Lemma filter_sort_desc {A : Type} (key : A -> Z) (keep : A -> bool) (l : list A) :
  filter keep (sort_desc key l) = sort_desc key (filter keep l).
Proof.
  induction l as [|a r IH]; [reflexivity|].
  cbn [sort_desc fold_right]. fold (sort_desc key r).
  rewrite filter_insert_desc by apply sort_desc_sorted.
  rewrite IH. cbn [filter]. now destruct (keep a).
Qed.

(** X1: the admin listing holds every stored offer once, newest first; the
    public listing is newest first too, and it is the admin listing with
    the offers that are not active at the instant of the query left out,
    the others in the same order. *)
Theorem offer_listings_newest_first (st : store) (now : Z) :
  Permutation (listed (get_all_offers st)) (offers st) /\
  newest_first Offer.createdAt (listed (get_all_offers st)) /\
  newest_first Offer.createdAt (listed (get_offers st now)) /\
  listed (get_offers st now) = filter (active_at now) (listed (get_all_offers st)).
Proof.
  unfold get_all_offers, get_offers. cbn [listed json respond].
  split; [apply Permutation_sym, sort_desc_perm|].
  split; [apply sort_desc_sorted|].
  split; [apply sort_desc_sorted|].
  symmetry. apply filter_sort_desc.
Qed.

(** ** What POST stores *)

Section MoreOffers.

Variable h : Host.

(** X2: when POST answers 201 the collection grows by the answered
    document and by nothing else; the document has the next free id and
    both timestamps at the instant of the request, it is active whatever
    the request says of [isActive], its title and description are the
    trimmed fields, its code the trimmed field in upper case, its dates the
    parsed ones, its minimum order amount 0 unless the field is truthy, and
    its image fields are empty without a file and the answer of the image
    host with one. *)
Theorem post_offer_stores (st : store) (now : Z) (req : request) (o : Offer.t)
    (st' : store) :
  post_offer h st now req = (respond 201 (OfferJson o), st') ->
  let b := req_body req in
  offers st' = (offers st ++ [o])%list /\
  next_id st' = N.succ (next_id st) /\
  Offer._id o = next_id st /\
  Offer.createdAt o = now /\ Offer.updatedAt o = now /\
  Offer.isActive o = Some true /\
  (exists title description code,
     b_title b = VStr title /\ b_description b = VStr description /\
     b_code b = VStr code /\
     Offer.title o = trim title /\ Offer.description o = trim description /\
     Offer.code o = trim (toUpperCase code)) /\
  Offer.discount o = parseFloat_value (b_discount b) /\
  new_Date h (b_validFrom b) = Some (Offer.validFrom o) /\
  new_Date h (b_validUntil b) = Some (Offer.validUntil o) /\
  Offer.validFrom o < Offer.validUntil o /\
  Offer.minOrderAmount o =
    (if truthy (b_minOrderAmount b) then parseFloat_value (b_minOrderAmount b)
     else Fin 0) /\
  match req_file req with
  | None => Offer.image o = "" /\ Offer.cloudinary_id o = ""
  | Some f =>
      cloudinary_upload h f = Some (Offer.image o, Offer.cloudinary_id o) /\
      Offer.image o <> ""
  end.
Proof.
  intros H. cbv zeta. apply post_offer_201 in H
    as (title & description & code & f & u & url & cid
        & Et & Ed & Ec & Ef & Eu & Hlt & Eup & -> & -> & _ & _).
  cbn [offers next_id Offer._id Offer.createdAt Offer.updatedAt Offer.isActive
       Offer.title Offer.description Offer.code Offer.discount Offer.validFrom
       Offer.validUntil Offer.minOrderAmount Offer.image Offer.cloudinary_id].
  repeat (split; [first [reflexivity | assumption]|]).
  split; [exists title, description, code; repeat split; assumption|].
  repeat (split; [first [reflexivity | assumption]|]).
  destruct (req_file req) as [file|].
  - split; [now apply upload_image_inr|].
    unfold upload_image in Eup.
    destruct (cloudinary_upload h file) as [[url' cid']|]; [|discriminate].
    destruct (String.eqb url' "") eqn:E; [discriminate|].
    injection Eup as <- <-. now apply String.eqb_neq.
  - now injection Eup as <- <-.
Qed.

Lemma find_snoc_fresh {A : Type} (p : A -> bool) (l : list A) (x : A) :
  (forall y, In y l -> p y = false) -> find p (l ++ [x])%list = find p [x].
Proof.
  induction l as [|a r IH]; intros H; [reflexivity|].
  cbn [app find]. rewrite (H a (or_introl eq_refl)).
  apply IH. intros y Hy. apply H. now right.
Qed.

Lemma find_snoc_other {A : Type} (p : A -> bool) (l : list A) (x : A) :
  p x = false -> find p (l ++ [x])%list = find p l.
Proof.
  intros Hx. induction l as [|a r IH]; cbn; [now rewrite Hx|].
  destruct (p a); [reflexivity | exact IH].
Qed.

(** X3: in a collection the routes can reach, an offer POST has created is
    what GET by its id answers from then on, it was not to be had under
    that id before, and GET by any other id answers as it did before. *)
Theorem post_offer_then_get (st : store) (now : Z) (req : request) (o : Offer.t)
    (st' : store) :
  reachable h st ->
  post_offer h st now req = (respond 201 (OfferJson o), st') ->
  get_offer st' (Offer._id o) = respond 200 (OfferJson o) /\
  get_offer st (Offer._id o) = respond 404 (Message "Offer not found") /\
  (forall id, id <> Offer._id o -> get_offer st' id = get_offer st id).
Proof.
  intros Hr H. apply reachable_ok in Hr. destruct Hr as (Hall & _ & _).
  apply post_offer_201 in H
    as (title & description & code & f & u & url & cid
        & _ & _ & _ & _ & _ & _ & _ & Eo & -> & _ & _).
  assert (Eid : Offer._id o = next_id st) by now rewrite Eo.
  assert (Hfresh : forall y, In y (offers st) ->
            N.eqb (Offer._id y) (Offer._id o) = false).
  { intros y Hy. apply N.eqb_neq. apply Hall in Hy as [_ Hy]. lia. }
  unfold get_offer, findById. cbn [offers].
  split.
  { rewrite find_snoc_fresh by exact Hfresh. cbn. now rewrite N.eqb_refl. }
  split.
  { destruct (find _ (offers st)) as [y|] eqn:E; [|reflexivity].
    apply find_some in E as [Hy E]. now rewrite Hfresh in E. }
  intros id Hne. rewrite find_snoc_other; [reflexivity|].
  apply N.eqb_neq. congruence.
Qed.

End MoreOffers.

(** ** Deleting an offer *)





Section DeleteRoute.

Variable h : Host.


End DeleteRoute.

(** ** What every stored offer satisfies *)

Section StoredOffers.

Variable h : Host.

Lemma store_valid_step (st : store) :
  (forall o, In o (offers st) -> Offer.valid o = true) ->
  (forall now req o, In o (offers (snd (post_offer h st now req))) ->
     Offer.valid o = true) /\
  (forall now req o, In o (offers (snd (put_offer h st now req))) ->
     Offer.valid o = true) /\
  (forall id o, In o (offers (snd (delete_offer st id))) -> Offer.valid o = true).
Proof.
  intros Hall. split; [|split].
  - intros now req o.
    destruct (post_offer_outcome h st now req) as [(d & o' & st' & EC & E)|[E _]].
    + rewrite E. cbn [snd]. apply Offer_create_inr in EC as (E' & Hv & _).
      injection E' as -> ->. cbn [offers]. intros Hin.
      apply in_app_iff in Hin as [Hin|[<-|[]]]; [now apply Hall | exact Hv].
    + rewrite E. apply Hall.
  - intros now req o.
    destruct (findById st (req_id req)) as [offer|] eqn:Hfind;
      [|rewrite put_offer_not_found by exact Hfind; apply Hall].
    pose proof (put_offer_found h st now req offer Hfind) as P. cbv zeta in P.
    destruct P as (_ & _ & Hsame & Hsaved).
    destruct (Z.eq_dec (status (fst (put_offer h st now req))) 200) as [E|E];
      [|rewrite Hsame by exact E; apply Hall].
    destruct (Hsaved E) as (saved & _ & -> & _ & Hv & _). cbn [offers].
    intros Hin. apply replace_offer_In in Hin as [->|[Hin _]];
      [exact Hv | now apply Hall].
  - intros id o. unfold delete_offer.
    destruct (findById st id); cbn [snd]; [|apply Hall].
    cbn [Offer_deleteOne offers]. intros Hin.
    apply filter_In in Hin as [Hin _]. now apply Hall.
Qed.

Lemma reachable_valid (st : store) :
  reachable h st -> forall o, In o (offers st) -> Offer.valid o = true.
Proof.
  induction 1 as [|st now req _ IH|st now req _ IH|st id _ IH].
  - intros o [].
  - apply (store_valid_step st IH).
  - apply (store_valid_step st IH).
  - apply (store_valid_step st IH).
Qed.

Lemma valid_spec (o : Offer.t) :
  Offer.valid o = true <->
  Offer.title o <> "" /\ Offer.description o <> "" /\ Offer.code o <> "" /\
  (exists q, Offer.discount o = Fin q /\ (0 <= q)%Q /\ (q <= 100)%Q) /\
  Offer.minOrderAmount o <> NaN.
Proof.
  unfold Offer.valid.
  rewrite !andb_true_iff, !negb_true_iff, !String.eqb_neq.
  assert (Hd : isNaN (Offer.discount o) = false /\
               num_ltb (Offer.discount o) (Fin 0) = false /\
               num_gtb (Offer.discount o) (Fin 100) = false <->
               exists q, Offer.discount o = Fin q /\ (0 <= q)%Q /\ (q <= 100)%Q).
  { destruct (Offer.discount o) as [|q| |]; cbn.
    - split; [intros [H _]; discriminate H | intros (q & H & _); discriminate H].
    - rewrite !negb_false_iff, !Qle_bool_iff. split.
      + intros (_ & H0 & H1). exists q. auto.
      + intros (q' & E & H0 & H1). injection E as <-. auto.
    - split; [intros (_ & _ & H); discriminate H | intros (q & H & _); discriminate H].
    - split; [intros (_ & H & _); discriminate H | intros (q & H & _); discriminate H]. }
  assert (Hm : isNaN (Offer.minOrderAmount o) = false <-> Offer.minOrderAmount o <> NaN).
  { destruct (Offer.minOrderAmount o); cbn; split; congruence. }
  rewrite <- Hd, <- Hm. tauto.
Qed.

(** X5: in every collection the routes can reach, each stored offer passes
    the validators of the schema: its title, description and code are not
    empty, its discount is a number from 0 to 100, and its minimum order
    amount is not [NaN].  PUT has no range check of its own; the save
    refuses what the schema forbids. *)
Theorem stored_offers_valid (st : store) (o : Offer.t) :
  reachable h st -> In o (offers st) ->
  Offer.title o <> "" /\ Offer.description o <> "" /\ Offer.code o <> "" /\
  (exists q, Offer.discount o = Fin q /\ (0 <= q)%Q /\ (q <= 100)%Q) /\
  Offer.minOrderAmount o <> NaN.
Proof.
  intros Hr Hin. apply valid_spec. now apply (reachable_valid st Hr).
Qed.

End StoredOffers.

(** ** More on updating an offer *)

Lemma findById_replace (saved : Offer.t) (l : list Offer.t) (id : N) :
  find (fun o => N.eqb (Offer._id o) id) (replace_offer saved l) =
  if N.eqb (Offer._id saved) id
  then match find (fun o => N.eqb (Offer._id o) id) l with
       | Some _ => Some saved
       | None => None
       end
  else find (fun o => N.eqb (Offer._id o) id) l.
Proof.
  unfold replace_offer. induction l as [|a r IH]; cbn [map find].
  - now destruct (N.eqb (Offer._id saved) id).
  - destruct (N.eqb (Offer._id a) (Offer._id saved)) eqn:Ea.
    + apply N.eqb_eq in Ea. rewrite Ea.
      destruct (N.eqb (Offer._id saved) id) eqn:Es; [reflexivity|].
      rewrite IH. reflexivity.
    + destruct (N.eqb (Offer._id a) id) eqn:Ei.
      * destruct (N.eqb (Offer._id saved) id) eqn:Es; [|reflexivity].
        apply N.eqb_eq in Ei, Es. apply N.eqb_neq in Ea. congruence.
      * exact IH.
Qed.

Lemma findById_stored (st : store) (o : Offer.t) :
  store_ok st -> In o (offers st) -> findById st (Offer._id o) = Some o.
Proof.
  intros (_ & Hid & _) Hin. unfold findById.
  destruct (find _ (offers st)) as [x|] eqn:E.
  - apply find_some in E as [Hx E]. apply N.eqb_eq in E.
    f_equal. now apply (NoDup_map_inj Offer._id (offers st)).
  - apply (find_none _ _ E) in Hin. now rewrite N.eqb_refl in Hin.
Qed.

Lemma replace_offer_stored (saved offer : Offer.t) (l : list Offer.t) :
  In offer l -> Offer._id offer = Offer._id saved -> In saved (replace_offer saved l).
Proof.
  intros Hin E. unfold replace_offer. apply in_map_iff. exists offer.
  split; [|exact Hin]. now rewrite E, N.eqb_refl.
Qed.

Section MoreUpdates.

Variable h : Host.

Lemma put_offer_status (st : store) (now : Z) (req : request) :
  let s := status (fst (put_offer h st now req)) in
  s = 200 \/ s = 400 \/ s = 404 \/ s = 500.
Proof.
  cbv zeta.
  destruct (findById st (req_id req)) as [offer|] eqn:Hfind;
    [|rewrite put_offer_not_found by exact Hfind; cbn; auto].
  rewrite (put_offer_unfold h st now req offer Hfind).
  pose proof (put_save_spec h st now req offer) as S. cbv zeta in S.
  destruct (truthy (b_code (req_body req))).
  - destruct (b_code (req_body req)) as [| | | |code]; try (cbn; auto; fail).
    destruct (findOne_code_ne st _ _); [cbn; auto|].
    destruct (S (Offer.code_setter (toUpperCase code))) as [[E|E] _]; rewrite E; auto.
  - destruct (S (Offer.code offer)) as [[E|E] _]; rewrite E; auto.
Qed.

(** X6: an update answered 200 is what GET by the id answers from then on;
    the saved document keeps the id and the creation time, GET by any other
    id answers as before, and the collection keeps its ids, in their order,
    and its next id: PUT neither adds nor removes a document. *)
Theorem put_offer_then_get (st : store) (now : Z) (req : request) (saved : Offer.t)
    (st' : store) :
  put_offer h st now req = (respond 200 (OfferJson saved), st') ->
  Offer._id saved = req_id req /\
  get_offer st' (req_id req) = respond 200 (OfferJson saved) /\
  (exists offer, get_offer st (req_id req) = respond 200 (OfferJson offer) /\
                 Offer.createdAt saved = Offer.createdAt offer) /\
  (forall id, id <> req_id req -> get_offer st' id = get_offer st id) /\
  map Offer._id (offers st') = map Offer._id (offers st) /\
  next_id st' = next_id st.
Proof.
  intros H.
  destruct (findById st (req_id req)) as [offer|] eqn:Hfind;
    [|rewrite put_offer_not_found in H by exact Hfind; discriminate H].
  pose proof (put_offer_found h st now req offer Hfind) as P. cbv zeta in P.
  destruct P as (_ & _ & _ & P). rewrite H in P. cbn [fst snd status respond] in P.
  destruct (P eq_refl) as (saved' & E & -> & Hp & _).
  injection E as <-.
  destruct Hp as (Hid & _ & _ & _ & _ & _ & _ & _ & _ & _ & Hc & _).
  pose proof (findById_In _ _ _ Hfind) as [_ Eid].
  assert (Es : Offer._id saved = req_id req) by congruence.
  unfold get_offer, findById in *. cbn [offers next_id].
  split; [exact Es|].
  split.
  { rewrite findById_replace, Hfind, Es, N.eqb_refl. reflexivity. }
  split.
  { exists offer. rewrite Hfind. split; [reflexivity | exact Hc]. }
  split.
  { intros id Hne. rewrite findById_replace.
    replace (N.eqb (Offer._id saved) id) with false; [reflexivity|].
    symmetry. apply N.eqb_neq. congruence. }
  split; [apply replace_offer_ids | reflexivity].
Qed.

(** X7: PUT has no range check of its own: a discount that is sent and
    does not parse as a number from 0 to 100 is refused by the validators
    when the document is saved, so the update is never answered 200 and the
    collection stays as it was; the answer is 500, where POST answers 400,
    unless the code conflict is answered first. *)
Theorem put_offer_discount_range (st : store) (now : Z) (req : request)
    (offer : Offer.t) :
  findById st (req_id req) = Some offer ->
  is_undefined (b_discount (req_body req)) = false ->
  discount_accepted (b_discount (req_body req)) = false ->
  let r := fst (put_offer h st now req) in
  snd (put_offer h st now req) = st /\
  (status r = 400 \/ status r = 500) /\
  (truthy (b_code (req_body req)) = false -> status r = 500).
Proof.
  intros Hfind Hu Hd. cbv zeta.
  pose proof (put_offer_found h st now req offer Hfind) as P. cbv zeta in P.
  destruct P as (P400 & _ & Hsame & Hsaved).
  assert (N200 : status (fst (put_offer h st now req)) <> 200).
  { intros E. destruct (Hsaved E) as (saved & _ & _ & Hp & Hv & _).
    destruct Hp as (_ & _ & _ & Hdisc & _). rewrite Hu in Hdisc.
    apply valid_spec in Hv as (_ & _ & _ & Hq & _).
    rewrite Hdisc in Hq. apply discount_accepted_iff in Hq. congruence. }
  split; [now apply Hsame|].
  pose proof (put_offer_status st now req) as S. cbv zeta in S.
  assert (N404 : status (fst (put_offer h st now req)) <> 404).
  { rewrite (put_offer_unfold h st now req offer Hfind).
    pose proof (put_save_spec h st now req offer) as Q. cbv zeta in Q.
    destruct (truthy (b_code (req_body req))).
    - destruct (b_code (req_body req)) as [| | | |code]; try discriminate.
      destruct (findOne_code_ne st _ _); [discriminate|].
      destruct (Q (Offer.code_setter (toUpperCase code))) as [[E|E] _];
        rewrite E; discriminate.
    - destruct (Q (Offer.code offer)) as [[E|E] _]; rewrite E; discriminate. }
  split; [tauto|].
  intros Tc.
  assert (N400 : status (fst (put_offer h st now req)) <> 400).
  { intros E. apply P400 in E as (c & E & _). congruence. }
  tauto.
Qed.

(** X8: PUT does not compare the two dates.  In a collection the routes
    can reach, an update of a stored offer that carries only a
    [validUntil] the host can parse is answered 200 and stores that date,
    whatever [validFrom] is: so the order of the dates that POST insists on
    is not kept by the updates. *)
Theorem put_offer_dates_unchecked (st : store) (now : Z) (offer : Offer.t)
    (s : string) (u : Z) :
  reachable h st -> In offer (offers st) ->
  s <> "" -> Date_parse h s = Some u ->
  let r := put_offer h st now (until_update (Offer._id offer) (VStr s)) in
  exists saved,
    fst r = respond 200 (OfferJson saved) /\
    In saved (offers (snd r)) /\
    Offer.validUntil saved = u /\
    Offer.validFrom saved = Offer.validFrom offer /\
    (u <= Offer.validFrom offer -> Offer.validUntil saved <= Offer.validFrom saved).
Proof.
  intros Hr Hin Hs Hu. cbv zeta.
  pose proof (reachable_valid h st Hr offer Hin) as Hv.
  apply reachable_ok in Hr.
  pose proof (findById_stored st offer Hr Hin) as Hfind.
  assert (Hfree : findOne_code_ne st (Offer.code offer) (Offer._id offer) = None).
  { destruct (findOne_code_ne st _ _) as [x|] eqn:E; [|reflexivity].
    exfalso. unfold findOne_code_ne in E. apply find_some in E as [Hx E].
    apply andb_true_iff in E as [Ec Ei].
    apply String.eqb_eq in Ec. apply negb_true_iff, N.eqb_neq in Ei.
    destruct Hr as (_ & _ & Hcode).
    apply Ei. f_equal. now apply (NoDup_map_inj Offer.code (offers st)). }
  apply String.eqb_neq in Hs.
  unfold put_offer, until_update. cbv zeta.
  cbn [req_body req_id req_file b_title b_description b_discount b_code
       b_validFrom b_validUntil b_isActive b_minOrderAmount truthy is_undefined
       negb new_Date].
  rewrite Hfind, Hs, Hu. cbn [negb].
  unfold Offer_save. unfold Offer.valid in *.
  cbn [Offer._id Offer.title Offer.description Offer.discount Offer.code
       Offer.minOrderAmount Offer.validFrom Offer.validUntil].
  rewrite Hv, Hfree. cbn [negb fst snd offers].
  eexists. split; [reflexivity|].
  split; [apply (replace_offer_stored _ offer); [exact Hin | reflexivity]|].
  cbn. split; [reflexivity|]. split; [reflexivity|]. auto.
Qed.

End MoreUpdates.

(** ** Fields that are not strings *)

Section NonStrings.

Variable h : Host.

(** X23: a code that is truthy and not a string, as a JSON body can carry
    it, has no [toUpperCase]: POST answers 500, and not 400, once the
    checks of the presence, of the discount and of the dates have passed,
    and PUT of a stored offer answers 500 whatever else it carries; and
    POST answers 500 as well when the title or the description is not a
    string and nothing is refused before they are trimmed.  The collection
    stays as it was in each case. *)
Theorem offer_fields_not_strings (st : store) (now : Z) (req : request) :
  let b := req_body req in
  (fields_present b = true -> discount_accepted (b_discount b) = true ->
   dates_accepted h b = true -> is_string (b_code b) = false ->
   post_offer h st now req = (respond 500 (ErrorMessage TypeError), st)) /\
  (forall offer, findById st (req_id req) = Some offer ->
   truthy (b_code b) = true -> is_string (b_code b) = false ->
   put_offer h st now req = (respond 500 (ErrorMessage TypeError), st)) /\
  (forall code, fields_present b = true -> discount_accepted (b_discount b) = true ->
   dates_accepted h b = true -> b_code b = VStr code ->
   findOne_code st (toUpperCase code) = None -> upload_accepted h req = true ->
   is_string (b_title b) && is_string (b_description b) = false ->
   post_offer h st now req = (respond 500 (ErrorMessage TypeError), st)).
Proof.
  cbv zeta.
  assert (Hpre : fields_present (req_body req) = true ->
    discount_accepted (b_discount (req_body req)) = true ->
    dates_accepted h (req_body req) = true ->
    exists f u,
      new_Date h (b_validFrom (req_body req)) = Some f /\
      new_Date h (b_validUntil (req_body req)) = Some u /\ (u <=? f) = false /\
      post_offer h st now req =
      match b_code (req_body req) with
      | VStr code =>
          match findOne_code st (toUpperCase code) with
          | Some _ => (respond 400 (Message "Offer code already exists"), st)
          | None =>
              match
                match req_file req with
                | Some f => upload_image h f
                | None => inr ("", "")
                end
              with
              | inl e => (respond 500 (ErrorMessage e), st)
              | inr (imageUrl, cloudinaryId) =>
                  match b_title (req_body req), b_description (req_body req) with
                  | VStr title, VStr description =>
                      match
                        Offer_create st now
                          (Offer.mk 0%N (trim title) (trim description)
                             (parseFloat_value (b_discount (req_body req)))
                             (trim (toUpperCase code)) f u (Some true)
                             (if truthy (b_minOrderAmount (req_body req))
                              then parseFloat_value (b_minOrderAmount (req_body req))
                              else Fin 0)
                             imageUrl cloudinaryId now now)
                      with
                      | inr (offer, st') => (respond 201 (OfferJson offer), st')
                      | inl e => (post_catch e, st)
                      end
                  | _, _ => (post_catch TypeError, st)
                  end
              end
          end
      | _ => (post_catch TypeError, st)
      end).
  { intros HF HD HT. unfold post_offer, dates_accepted in *. cbv zeta.
    rewrite fields_present_neg, discount_accepted_neg, HF, HD. cbn [negb].
    destruct (new_Date h (b_validFrom _)) as [f|]; [|discriminate HT].
    destruct (new_Date h (b_validUntil _)) as [u|]; [|discriminate HT].
    exists f, u. rewrite (Z.leb_antisym f u), HT. auto. }
  split; [|split].
  - intros HF HD HT Hc. destruct (Hpre HF HD HT) as (f & u & _ & _ & _ & ->).
    destruct (b_code (req_body req)); try reflexivity. discriminate Hc.
  - intros offer Hfind Tc Hc. rewrite (put_offer_unfold h st now req offer Hfind), Tc.
    destruct (b_code (req_body req)); try reflexivity. discriminate Hc.
  - intros code HF HD HT Ec Hfree Hup Hs.
    destruct (Hpre HF HD HT) as (f & u & _ & _ & _ & ->).
    rewrite Ec, Hfree. unfold upload_accepted in Hup.
    destruct (req_file req) as [file|].
    + destruct (upload_image h file) as [e|[imageUrl cloudinaryId]]; [discriminate Hup|].
      destruct (b_title (req_body req)); try reflexivity.
      destruct (b_description (req_body req)); try reflexivity. discriminate Hs.
    + destruct (b_title (req_body req)); try reflexivity.
      destruct (b_description (req_body req)); try reflexivity. discriminate Hs.
Qed.

End NonStrings.

(** ** The calendar, from a month to its days and back *)

Lemma era_year_back (yoe doy : Z) :
  0 <= yoe < 400 -> 0 <= doy < 365 ->
  let doe := yoe * 365 + yoe / 4 - yoe / 100 + doy in
  0 <= doe < 146097 /\
  (doe - doe / 1460 + doe / 36524 - doe / 146096) / 365 = yoe.
Proof.
  intros Hy Hd doe. subst doe. Z.div_mod_to_equations. lia.
Qed.

(** A day of an era comes before the first day of the year after its own. *)
Lemma year_of_era_next (doe : Z) :
  0 <= doe < 146097 ->
  let yoe := (doe - doe / 1460 + doe / 36524 - doe / 146096) / 365 in
  doe < 365 * (yoe + 1) + (yoe + 1) / 4 - (yoe + 1) / 100 + (yoe + 1) / 400.
Proof.
  intros H yoe. subst yoe. Z.div_mod_to_equations. lia.
Qed.

(** The months of the year that starts in March. *)
Lemma march_month_cases (m : Z) :
  0 <= m <= 11 ->
  m = 0 \/ m = 1 \/ m = 2 \/ m = 3 \/ m = 4 \/ m = 5 \/ m = 6 \/ m = 7 \/
  m = 8 \/ m = 9 \/ m = 10 \/ m = 11.
Proof. lia. Qed.

(** The first day of the month [m] of [y] is read back as that day. *)
Lemma civil_from_days_first (y m : Z) :
  0 <= m <= 11 -> civil_from_days (days_from_civil y m) = (y, m, 1).
Proof.
  intros Hm. unfold days_from_civil, civil_from_days.
  set (y0 := if m <=? 1 then y - 1 else y).
  set (mp := if m <=? 1 then m + 10 else m - 2).
  set (doy := (153 * mp + 2) / 5).
  set (yoe := y0 mod 400). set (era := y0 / 400).
  assert (Hmp : 0 <= mp <= 11) by (subst mp; destruct (m <=? 1) eqn:E;
    [apply Z.leb_le in E | apply Z.leb_gt in E]; lia).
  assert (Hyoe : 0 <= yoe < 400) by (apply Z.mod_pos_bound; lia).
  assert (Hdoy : 0 <= doy < 365 /\ (5 * doy + 2) / 153 = mp /\
                 doy - (153 * mp + 2) / 5 + 1 = 1).
  { subst doy. destruct (march_month_cases mp Hmp)
      as [E|[E|[E|[E|[E|[E|[E|[E|[E|[E|[E|E]]]]]]]]]]];
      rewrite E; repeat split;
      first [reflexivity | apply Z.leb_le; reflexivity | apply Z.ltb_lt; reflexivity]. }
  destruct Hdoy as (Hdoy & Emp & Ed).
  destruct (era_year_back yoe doy Hyoe Hdoy) as [Hdoe Eyoe]. cbv zeta in *.
  set (doe := yoe * 365 + yoe / 4 - yoe / 100 + doy) in *.
  replace (era * 146097 + doe - 719468 + 719468) with (doe + era * 146097) by lia.
  rewrite Z.div_add, Z.mod_add, (Z.div_small doe), (Z.mod_small doe), Z.add_0_l
    by lia.
  rewrite Eyoe.
  replace (doe - (365 * yoe + yoe / 4 - yoe / 100)) with doy by (subst doe; lia).
  rewrite Emp, Ed.
  assert (Ey : yoe + era * 400 = y0)
    by (subst yoe era; pose proof (Z.div_mod y0 400 ltac:(lia)); lia).
  rewrite Ey. subst y0 mp.
  destruct (m <=? 1) eqn:E; [apply Z.leb_le in E | apply Z.leb_gt in E].
  - replace (m + 10 <? 10) with false by (symmetry; apply Z.ltb_ge; lia).
    replace (m + 10 - 9 <=? 2) with true by (symmetry; apply Z.leb_le; lia).
    replace (y - 1 + 1) with y by lia.
    replace (m + 10 - 9 - 1) with m by lia. reflexivity.
  - replace (m - 2 <? 10) with true by (symmetry; apply Z.ltb_lt; lia).
    replace (m - 2 + 3 <=? 2) with false by (symmetry; apply Z.leb_gt; lia).
    replace (m - 2 + 3 - 1) with m by lia. reflexivity.
Qed.

Lemma next_month_bound (y m : Z) :
  0 <= m <= 11 -> 0 <= snd (next_month y m) <= 11.
Proof.
  intros _. unfold next_month. cbn [snd].
  pose proof (Z.mod_pos_bound (m + 1) 12 ltac:(lia)). lia.
Qed.

(** A month has 28 to 31 days. *)
Lemma month_length (y m : Z) :
  0 <= m <= 11 ->
  let '(y', m') := next_month y m in
  28 <= days_from_civil y' m' - days_from_civil y m <= 31.
Proof.
  intros Hm. unfold next_month, days_from_civil.
  destruct (march_month_cases m Hm)
    as [E|[E|[E|[E|[E|[E|[E|[E|[E|[E|[E|E]]]]]]]]]]]; subst m;
    cbn -[Z.div Z.modulo Z.mul Z.add Z.sub];
    change ((0 + 1) / 12) with 0; change ((1 + 1) / 12) with 0;
    change ((2 + 1) / 12) with 0; change ((3 + 1) / 12) with 0;
    change ((4 + 1) / 12) with 0; change ((5 + 1) / 12) with 0;
    change ((6 + 1) / 12) with 0; change ((7 + 1) / 12) with 0;
    change ((8 + 1) / 12) with 0; change ((9 + 1) / 12) with 0;
    change ((10 + 1) / 12) with 0; change ((11 + 1) / 12) with 1;
    cbn; Z.div_mod_to_equations; lia.
Qed.

(** A day comes before the first day of the month after its own. *)
Lemma next_month_after (t : Z) :
  Day t < days_from_civil (fst (next_month (YearFromTime t) (MonthFromTime t)))
                          (snd (next_month (YearFromTime t) (MonthFromTime t))).
Proof.
  unfold next_month, YearFromTime, MonthFromTime, civil_from_days. cbn [fst snd].
  set (z := Day t + 719468).
  pose proof (Z.mod_pos_bound z 146097 ltac:(lia)) as Hdoe.
  pose proof (Z.div_mod z 146097 ltac:(lia)) as Hz.
  pose proof (year_of_era _ Hdoe) as Hy. cbv zeta in Hy.
  pose proof (year_of_era_next _ Hdoe) as Hnext. cbv zeta in Hnext.
  set (era := z / 146097) in *. set (doe := z mod 146097) in *.
  set (yoe := (doe - doe / 1460 + doe / 36524 - doe / 146096) / 365) in *.
  destruct Hy as [Hyoe Hdoy].
  pose proof (month_of_year _ Hdoy) as Hm. cbv zeta in Hm.
  set (doy := doe - (365 * yoe + yoe / 4 - yoe / 100)) in *.
  destruct Hm as [Hmp _].
  assert (Hlt : doy < (153 * ((5 * doy + 2) / 153 + 1) + 2) / 5)
    by (Z.div_mod_to_equations; lia).
  assert (Eera : (yoe + era * 400) / 400 = era)
    by (symmetry; apply Z.div_unique with yoe; lia).
  assert (Eyoe : (yoe + era * 400) mod 400 = yoe)
    by (symmetry; apply Z.mod_unique with era; lia).
  assert (Ed : Day t = era * 146097 + doe - 719468) by (subst z; lia).
  set (mp := (5 * doy + 2) / 153) in *.
  destruct (march_month_cases mp ltac:(lia))
    as [E|[E|[E|[E|[E|[E|[E|[E|[E|[E|[E|E]]]]]]]]]]]; rewrite E in *; clear E;
    cbn -[Z.div Z.modulo Z.mul Z.add Z.sub days_from_civil].
  all: unfold days_from_civil.
  all: try (match goal with |- context [(?a + ?b) / 12] =>
              let v := eval cbv in ((a + b) / 12) in change ((a + b) / 12) with v end).
  all: try (match goal with |- context [(?a + ?b) mod 12] =>
              let v := eval cbv in ((a + b) mod 12) in change ((a + b) mod 12) with v end).
  all: cbn -[Z.div Z.modulo Z.mul Z.add Z.sub].
  all: repeat match goal with |- context [?a <=? ?b] =>
         let v := eval cbv in (a <=? b) in change (a <=? b) with v end.
  all: cbv iota.
  all: rewrite ?Z.add_0_r.
  all: try replace (yoe + era * 400 + 1 - 1) with (yoe + era * 400) by lia.
  all: try rewrite Eera, Eyoe.
  all: try (clear Hnext; Z.div_mod_to_equations; lia).
  Z.div_mod_to_equations; lia.
Qed.

Lemma days_from_civil_1900 (y m : Z) :
  days_from_civil y m <= days_from_civil (1900 + y) m.
Proof.
  unfold days_from_civil.
  destruct (m <=? 1); Z.div_mod_to_equations; lia.
Qed.

Lemma MakeDay_first (y m : Z) :
  0 <= m <= 11 -> MakeDay y m 1 = days_from_civil y m.
Proof.
  intros Hm. unfold MakeDay.
  rewrite (Z.div_small m 12), (Z.mod_small m 12) by lia.
  rewrite Z.add_0_r. lia.
Qed.

Lemma MakeDay_next_first (y m : Z) :
  MakeDay y (m + 1) 1 =
  days_from_civil (fst (next_month y m)) (snd (next_month y m)).
Proof. unfold MakeDay, next_month. cbn [fst snd]. lia. Qed.

(** The civil date of a midnight. *)
Lemma civil_of_midnight (day : Z) :
  YearFromTime (MakeDate day 0) = fst (fst (civil_from_days day)) /\
  MonthFromTime (MakeDate day 0) = snd (fst (civil_from_days day)) /\
  DateFromTime (MakeDate day 0) = snd (civil_from_days day) /\
  TimeWithinDay (MakeDate day 0) = 0.
Proof.
  destruct (Day_MakeDate day 0 ltac:(split; [lia | reflexivity])) as [Ed Et].
  unfold YearFromTime, MonthFromTime, DateFromTime. rewrite Ed. auto.
Qed.

(** ** The monthly window *)

Lemma monthly_window (now : Z) :
  getFullYear now < 0 \/ 99 < getFullYear now ->
  report_window "monthly" now =
  (MakeDate (days_from_civil (getFullYear now) (getMonth now)) 0,
   MakeDate (days_from_civil (fst (next_month (getFullYear now) (getMonth now)))
                             (snd (next_month (getFullYear now) (getMonth now)))) 0).
Proof.
  intros Hy. unfold report_window. cbn [String.eqb Ascii.eqb Bool.eqb]. cbv iota.
  destruct (days_from_civil_of_time now) as (Hm & _ & _).
  unfold Date_ymd.
  replace ((0 <=? getFullYear now) && (getFullYear now <=? 99)) with false.
  - unfold getMonth. now rewrite MakeDay_first, MakeDay_next_first.
  - symmetry. apply andb_false_iff.
    destruct Hy; [left; apply Z.leb_gt | right; apply Z.leb_gt]; lia.
Qed.

(** X9: the window of the monthly report starts at 00:00 on the first day
    of the month of the clock and ends at 00:00 on the first day of the
    month after it, which is January of the next year when the clock is in
    December; the clock lies in the window, and the window is 28 to 31 days
    long.  The year of the clock is taken outside 0..99, which
    [new Date(y, m, d)] reads as 19xx. *)
Theorem monthly_window_spec (db : list Order.t) (now : Z) :
  getFullYear now < 0 \/ 99 < getFullYear now ->
  let r := get_report db now (Some "monthly") in
  (getFullYear (startDate r) = getFullYear now /\
   getMonth (startDate r) = getMonth now /\
   getDate (startDate r) = 1 /\ TimeWithinDay (startDate r) = 0) /\
  (getFullYear (endDate r) = getFullYear now + (getMonth now + 1) / 12 /\
   getMonth (endDate r) = (getMonth now + 1) mod 12 /\
   getDate (endDate r) = 1 /\ TimeWithinDay (endDate r) = 0) /\
  (getMonth now = 11 ->
   getFullYear (endDate r) = getFullYear now + 1 /\ getMonth (endDate r) = 0) /\
  startDate r <= now < endDate r /\
  startDate r = midnight now - (getDate now - 1) * msPerDay /\
  28 * msPerDay <= endDate r - startDate r <= 31 * msPerDay.
Proof.
  intros Hy. cbv zeta.
  rewrite get_report_startDate, get_report_endDate. cbn [period_of].
  rewrite (monthly_window now Hy). cbn [fst snd].
  destruct (days_from_civil_of_time now) as (Hm & Hd & Eday).
  fold (getFullYear now) (getMonth now) (getDate now) in *.
  pose proof (next_month_bound (getFullYear now) (getMonth now) Hm) as Hm'.
  pose proof (next_month_after now) as Hnext.
  fold (getFullYear now) (getMonth now) in Hnext.
  pose proof (month_length (getFullYear now) (getMonth now) Hm) as Hlen.
  unfold next_month in *. cbn [fst snd] in *.
  set (s := days_from_civil (getFullYear now) (getMonth now)) in *.
  set (e := days_from_civil (getFullYear now + (getMonth now + 1) / 12)
                            ((getMonth now + 1) mod 12)) in *.
  destruct (civil_of_midnight s) as (Sy & Sm & Sd & St).
  destruct (civil_of_midnight e) as (Ey & Em & Ed & Et).
  unfold s in Sy, Sm, Sd. unfold e in Ey, Em, Ed.
  rewrite civil_from_days_first in Sy, Sm, Sd, Ey, Em, Ed by assumption.
  cbn [fst snd] in *.
  subst s e.
  unfold getFullYear, getMonth, getDate in *.
  split; [auto|]. split; [auto|].
  split.
  { intros E. rewrite Ey, Em, E. split; reflexivity. }
  pose proof (TimeWithinDay_bound now) as Ht.
  pose proof (MakeDate_Day now) as En.
  unfold midnight, MakeDate in *. unfold msPerDay in *.
  repeat split; lia.
Qed.

(** ** The orders and the totals of a report *)

Lemma get_report_unfold (db : list Order.t) (now : Z) (p : option string) :
  get_report db now p =
  let w := report_window (period_of p) now in
  {| period := period_of p;
     startDate := fst w;
     endDate := snd w;
     summary := summarize (find_orders db (fst w) (snd w));
     orders := find_orders db (fst w) (snd w) |}.
Proof.
  unfold get_report, period_of. now destruct (report_window _ now).
Qed.

(** The end of every window is after its start. *)
Lemma report_window_order (p : string) (now : Z) :
  fst (report_window p now) < snd (report_window p now).
Proof.
  assert (Hdaily :
    Date_ymd (getFullYear now) (getMonth now) (getDate now) <
    Date_ymd (getFullYear now) (getMonth now) (getDate now + 1)).
  { unfold Date_ymd, MakeDate, MakeDay, msPerDay. lia. }
  unfold report_window.
  destruct (String.eqb p "daily"); [exact Hdaily|].
  destruct (String.eqb p "weekly").
  - cbn [fst snd]. rewrite setDate_shift. unfold msPerDay. lia.
  - destruct (String.eqb p "monthly"); [|exact Hdaily].
    cbn [fst snd]. unfold Date_ymd.
    destruct (days_from_civil_of_time now) as (Hm & _ & _).
    fold (getMonth now) in Hm.
    set (y := if (0 <=? getFullYear now) && (getFullYear now <=? 99)
              then 1900 + getFullYear now else getFullYear now).
    rewrite MakeDay_first, MakeDay_next_first by exact Hm.
    pose proof (month_length y (getMonth now) Hm) as Hlen.
    unfold next_month in *. cbn [fst snd] in *.
    unfold MakeDate, msPerDay. lia.
Qed.

(** The clock lies in the window, outside the years read as 19xx. *)
Lemma report_window_now (p : string) (now : Z) :
  getFullYear now < 0 \/ 99 < getFullYear now ->
  fst (report_window p now) <= now < snd (report_window p now).
Proof.
  intros Hy.
  pose proof (TimeWithinDay_bound now) as Ht.
  pose proof (MakeDate_Day now) as En.
  assert (Hdaily : fst (report_window "daily" now) <= now <
                   snd (report_window "daily" now)).
  { rewrite (daily_window now Hy). cbn [fst snd].
    unfold midnight, MakeDate, msPerDay in *. lia. }
  destruct (String.eqb p "daily") eqn:Ed;
    [apply String.eqb_eq in Ed; now subst p|].
  destruct (String.eqb p "weekly") eqn:Ew.
  { apply String.eqb_eq in Ew. subst p. rewrite weekly_window. cbn [fst snd].
    pose proof (getDay_bound now). unfold midnight, MakeDate, msPerDay in *. lia. }
  destruct (String.eqb p "monthly") eqn:Em.
  { apply String.eqb_eq in Em. subst p. rewrite (monthly_window now Hy).
    cbn [fst snd].
    destruct (days_from_civil_of_time now) as (Hm & Hd & Eday).
    pose proof (next_month_after now) as Hnext.
    unfold getFullYear, getMonth, MakeDate, msPerDay in *. lia. }
  unfold report_window in *. rewrite Ed, Ew, Em.
  exact Hdaily.
Qed.

(** X10: whatever the period, the report holds exactly the stored orders
    whose payment is completed and that were created in the window, the
    start included and the end excluded, each as often as it is stored and
    the newest first; the end of the window is after its start, and the
    clock lies in the window (outside the years 0..99, which
    [new Date(y, m, d)] reads as 19xx). *)
Theorem report_orders_spec (db : list Order.t) (now : Z) (p : option string) :
  let r := get_report db now p in
  (forall o, In o (orders r) <->
     In o db /\ Order.paymentStatus o = "completed" /\
     startDate r <= Order.createdAt o < endDate r) /\
  Permutation (orders r) (filter (in_window (startDate r) (endDate r)) db) /\
  newest_first Order.createdAt (orders r) /\
  totalOrders (summary r) = List.length (orders r) /\
  startDate r < endDate r /\
  (getFullYear now < 0 \/ 99 < getFullYear now -> startDate r <= now < endDate r).
Proof.
  cbv zeta. rewrite get_report_unfold. cbv zeta.
  cbn [orders startDate endDate summary summarize totalOrders].
  unfold find_orders.
  split.
  { intros o. rewrite sort_desc_In, filter_In, in_window_spec. tauto. }
  split; [apply Permutation_sym, sort_desc_perm|].
  split; [apply sort_desc_sorted|].
  split; [reflexivity|].
  split; [apply report_window_order|].
  apply report_window_now.
Qed.

(** X11: the period is compared with ['daily'], ['weekly'] and ['monthly']
    as it is written: any other value, and no value at all, gives the
    window, the orders and the summary of the daily report, and the answer
    repeats the value it was given. *)
Theorem report_unknown_period (db : list Order.t) (now : Z) (p : string) :
  p <> "weekly" -> p <> "monthly" ->
  let r := get_report db now (Some p) in
  let d := get_report db now (Some "daily") in
  period r = p /\
  startDate r = startDate d /\ endDate r = endDate d /\
  orders r = orders d /\ summary r = summary d /\
  get_report db now None = d.
Proof.
  intros Hw Hm. cbv zeta. rewrite !get_report_unfold. cbv zeta.
  cbn [period startDate endDate orders summary period_of].
  assert (E : report_window p now = report_window "daily" now).
  { unfold report_window.
    apply String.eqb_neq in Hw, Hm. rewrite Hw, Hm.
    now destruct (String.eqb p "daily"). }
  rewrite E. repeat split; reflexivity.
Qed.

(** X12: the total sales of a report are the sum of the total amounts of
    its orders, and its total delivery charges the sum of their delivery
    charges with an absent charge counted as 0, each added from the left
    in doubles, as [reduce] does, and read to two decimal places; a report
    without orders has 0 for both. *)
Theorem report_totals_rounded (db : list Order.t) (now : Z) (p : option string) :
  let r := get_report db now p in
  two_decimals (sales_total (orders r)) (totalSales (summary r)) /\
  two_decimals (charges_total (orders r)) (totalDeliveryCharges (summary r)) /\
  (orders r = [] ->
   totalSales (summary r) = Fin 0 /\ totalDeliveryCharges (summary r) = Fin 0).
Proof.
  cbv zeta. rewrite get_report_unfold. cbv zeta.
  cbn [orders summary].
  set (l := find_orders db _ _).
  unfold summarize. cbn [totalSales totalDeliveryCharges].
  fold (sales_total l). fold (charges_total l).
  split; [apply parseFloat_number_toFixed2|].
  split; [apply parseFloat_number_toFixed2|].
  intros ->. split; vm_compute; reflexivity.
Qed.

(** ** The statistics *)

Lemma length_filter_split {A : Type} (f g k : A -> bool) (l : list A) :
  (forall x, f x = g x || k x) -> (forall x, g x && k x = false) ->
  List.length (filter f l) =
  (List.length (filter g l) + List.length (filter k l))%nat.
Proof.
  intros Hf Hd. induction l as [|x r IH]; [reflexivity|].
  cbn [filter]. rewrite (Hf x). specialize (Hd x).
  destruct (g x), (k x); cbn in *; try discriminate; lia.
Qed.

(** The orders counted from [s] on are those of the window from [s] to
    [e] and those counted from [e] on. *)
Lemma countDocuments_split (db : list Order.t) (s e : Z) :
  s <= e ->
  countDocuments db s =
  (List.length (filter (in_window s e) db) + countDocuments db e)%nat.
Proof.
  intros H. unfold countDocuments. apply length_filter_split.
  - intros o. unfold completed_since, in_window.
    destruct (String.eqb _ _); rewrite ?andb_false_r, ?andb_true_r; [|reflexivity].
    destruct (s <=? Order.createdAt o) eqn:E1, (Order.createdAt o <? e) eqn:E2,
      (e <=? Order.createdAt o) eqn:E3; try reflexivity; lia.
  - intros o. unfold completed_since, in_window.
    destruct (String.eqb _ _); rewrite ?andb_false_r, ?andb_true_r; [|reflexivity].
    destruct (s <=? Order.createdAt o) eqn:E1, (Order.createdAt o <? e) eqn:E2,
      (e <=? Order.createdAt o) eqn:E3; try reflexivity; lia.
Qed.

Lemma countDocuments_anti (db : list Order.t) (s e : Z) :
  s <= e -> (countDocuments db e <= countDocuments db s)%nat.
Proof.
  intros H. rewrite (countDocuments_split db s e H). lia.
Qed.

Lemma report_totalOrders (db : list Order.t) (now : Z) (p : option string) :
  totalOrders (summary (get_report db now p)) =
  List.length (filter (in_window (startDate (get_report db now p))
                                 (endDate (get_report db now p))) db).
Proof.
  rewrite get_report_unfold. cbv zeta.
  cbn [summary summarize totalOrders startDate endDate].
  unfold find_orders. apply sort_desc_length.
Qed.

(** The day starts in the week and in the month of the statistics. *)
Lemma stats_starts_order (now : Z) :
  fst (report_window "weekly" now) <= fst (report_window "daily" now) /\
  fst (report_window "monthly" now) <= fst (report_window "daily" now).
Proof.
  destruct (days_from_civil_of_time now) as (Hm & Hd & Eday).
  pose proof (getDay_bound now) as Hw.
  rewrite weekly_window.
  unfold report_window. cbn [String.eqb Ascii.eqb Bool.eqb]. cbv iota. cbn [fst].
  unfold Date_ymd, getFullYear, getMonth, getDate, midnight in *.
  destruct ((0 <=? YearFromTime now) && (YearFromTime now <=? 99)).
  - pose proof (days_from_civil_1900 (YearFromTime now) (MonthFromTime now)) as H19.
    unfold MakeDay.
    rewrite (Z.div_small (MonthFromTime now) 12), (Z.mod_small (MonthFromTime now) 12)
      by lia.
    rewrite !Z.add_0_r. unfold MakeDate, msPerDay. lia.
  - rewrite !MakeDay_of_time. unfold MakeDate, msPerDay. lia.
Qed.

Section StatisticsCounts.

Variable sum_totalAmount : list Order.t -> number.

(** The three starts of the statistics are those of the three reports. *)
Lemma stats_starts (db : list Order.t) (now : Z) :
  Stats.orders (Stats.today (get_stats sum_totalAmount db now)) =
    countDocuments db (fst (report_window "daily" now)) /\
  Stats.orders (Stats.week (get_stats sum_totalAmount db now)) =
    countDocuments db (fst (report_window "weekly" now)) /\
  Stats.orders (Stats.month (get_stats sum_totalAmount db now)) =
    countDocuments db (fst (report_window "monthly" now)).
Proof.
  unfold get_stats, report_window. cbv zeta.
  cbn [Stats.orders Stats.today Stats.week Stats.month String.eqb Ascii.eqb
       Bool.eqb].
  cbv iota. cbn [fst]. split; [reflexivity|]. split; reflexivity.
Qed.

(** X13: each count of the statistics is the count of the report of the
    same period plus the number of completed orders created at or after the
    end of that window, for the filter of the statistics has no upper
    bound; and the count of the day is at most that of the week and at most
    that of the month. *)
Theorem stats_counts (db : list Order.t) (now : Z) :
  let s := get_stats sum_totalAmount db now in
  let report := fun p => get_report db now (Some p) in
  Stats.orders (Stats.today s) =
    (totalOrders (summary (report "daily")) +
     countDocuments db (endDate (report "daily")))%nat /\
  Stats.orders (Stats.week s) =
    (totalOrders (summary (report "weekly")) +
     countDocuments db (endDate (report "weekly")))%nat /\
  Stats.orders (Stats.month s) =
    (totalOrders (summary (report "monthly")) +
     countDocuments db (endDate (report "monthly")))%nat /\
  (Stats.orders (Stats.today s) <= Stats.orders (Stats.week s))%nat /\
  (Stats.orders (Stats.today s) <= Stats.orders (Stats.month s))%nat.
Proof.
  cbv zeta.
  destruct (stats_starts db now) as (-> & -> & ->).
  rewrite !report_totalOrders.
  rewrite !get_report_startDate, !get_report_endDate. cbn [period_of].
  pose proof (report_window_order "daily" now).
  pose proof (report_window_order "weekly" now).
  pose proof (report_window_order "monthly" now).
  destruct (stats_starts_order now) as [Hw Hm].
  split; [apply countDocuments_split; lia|].
  split; [apply countDocuments_split; lia|].
  split; [apply countDocuments_split; lia|].
  split; now apply countDocuments_anti.
Qed.




End StatisticsCounts.

(** ** The upload filter *)

Lemma lower_upper_char (c : ascii) : lower_char (upper_char c) = lower_char c.
Proof.
  destruct c as [[] [] [] [] [] [] [] []]; reflexivity.
Qed.

Lemma toLowerCase_toUpperCase (s : string) :
  toLowerCase (toUpperCase s) = toLowerCase s.
Proof.
  induction s as [|c r IH]; [reflexivity|].
  cbn [toUpperCase toLowerCase]. now rewrite lower_upper_char, IH.
Qed.

Lemma toLowerCase_app (s t : string) :
  toLowerCase (s ++ t) = toLowerCase s ++ toLowerCase t.
Proof.
  induction s as [|c r IH]; [reflexivity|]. cbn. now rewrite IH.
Qed.

Lemma includes_middle (m pre s post : string) :
  includes m s = true -> includes m (pre ++ s ++ post) = true.
Proof.
  intros H. now apply includes_app_r, includes_app_l.
Qed.

Lemma allowedTypes_middle (pre s post : string) :
  allowedTypes_test s = true -> allowedTypes_test (pre ++ s ++ post) = true.
Proof.
  unfold allowedTypes_test. rewrite !orb_true_iff.
  intros [[[H|H]|H]|H]; apply (includes_middle _ pre _ post) in H; rewrite H; auto.
Qed.

Lemma allowedTypes_test_spec (s : string) :
  allowedTypes_test s = true <->
  exists word, In word ["jpeg"; "jpg"; "png"; "webp"] /\ occurs word s.
Proof.
  unfold allowedTypes_test, occurs. rewrite !orb_true_iff, !includes_spec. split.
  - intros [[[H|H]|H]|H]; eexists; (split; [|exact H]); cbn; auto.
  - intros (word & Hin & H). cbn [In] in Hin.
    destruct Hin as [<-|[<-|[<-|[<-|[]]]]]; auto.
Qed.

(** X15: the upload filter accepts a file exactly when one of the words
    jpeg, jpg, png and webp occurs somewhere in the name of the file once
    its letters are lowered, and one of them occurs somewhere in the MIME
    type as it is sent.  So the answer does not depend on the case of the
    name; text put before and after an accepted name leaves it accepted,
    as in a name that merely holds [.png] before another extension; the
    usual names and types of the four formats are accepted; and a GIF, or
    a type sent in capitals, is refused whatever the name.  The refusal is
    always the same error. *)
Theorem fileFilter_spec :
  (forall file,
     fileFilter file = inr true <->
     (exists word, In word ["jpeg"; "jpg"; "png"; "webp"] /\
                   occurs word (toLowerCase (Upload.originalname file))) /\
     (exists word, In word ["jpeg"; "jpg"; "png"; "webp"] /\
                   occurs word (Upload.mimetype file))) /\
  (forall name mime,
     fileFilter {| Upload.originalname := toUpperCase name; Upload.mimetype := mime |} =
     fileFilter {| Upload.originalname := name; Upload.mimetype := mime |}) /\
  (forall pre name post mime,
     fileFilter {| Upload.originalname := name; Upload.mimetype := mime |} = inr true ->
     fileFilter {| Upload.originalname := pre ++ name ++ post;
                   Upload.mimetype := mime |} = inr true) /\
  (forall pre post ext mime,
     In ext [".jpg"; ".jpeg"; ".png"; ".webp"; ".JPG"; ".PNG"] ->
     In mime ["image/jpeg"; "image/png"; "image/webp"] ->
     fileFilter {| Upload.originalname := pre ++ ext ++ post;
                   Upload.mimetype := mime |} = inr true) /\
  (forall name mime,
     In mime ["image/gif"; "image/svg+xml"; "application/pdf"; "IMAGE/PNG"] ->
     fileFilter {| Upload.originalname := name; Upload.mimetype := mime |} =
     inl "Only image files are allowed!") /\
  (forall file,
     fileFilter file = inr true \/
     fileFilter file = inl "Only image files are allowed!").
Proof.
  assert (Hmid : forall pre name post mime,
     fileFilter {| Upload.originalname := name; Upload.mimetype := mime |} = inr true ->
     fileFilter {| Upload.originalname := pre ++ name ++ post;
                   Upload.mimetype := mime |} = inr true).
  { intros pre name post mime. unfold fileFilter. cbn [Upload.originalname Upload.mimetype].
    destruct (allowedTypes_test (toLowerCase name)) eqn:E1; [|discriminate].
    destruct (allowedTypes_test mime) eqn:E2; [|discriminate].
    intros _. rewrite !toLowerCase_app.
    now rewrite (allowedTypes_middle _ _ _ E1). }
  split.
  { intros file. rewrite <- !allowedTypes_test_spec. unfold fileFilter. cbv zeta.
    destruct (allowedTypes_test (toLowerCase _)), (allowedTypes_test (Upload.mimetype _));
      cbn [andb]; split; try discriminate; try (intros [? ?]; discriminate); auto. }
  split.
  { intros name mime. unfold fileFilter. cbn [Upload.originalname Upload.mimetype].
    now rewrite toLowerCase_toUpperCase. }
  split; [exact Hmid|].
  split.
  { intros pre post ext mime Hext Hmime. apply Hmid.
    cbn [In] in Hext, Hmime.
    repeat (destruct Hext as [<-|Hext]); try contradiction;
      repeat (destruct Hmime as [<-|Hmime]); try contradiction; reflexivity. }
  split.
  { intros name mime Hmime. unfold fileFilter. cbn [Upload.originalname Upload.mimetype].
    cbn [In] in Hmime.
    repeat (destruct Hmime as [<-|Hmime]); try contradiction;
      match goal with |- context [allowedTypes_test (String ?c ?r)] =>
        change (allowedTypes_test (String c r)) with false end;
      now rewrite andb_false_r. }
  intros file. unfold fileFilter. destruct (_ && _); auto.
Qed.

(** ** The CORS origin check *)

Lemma starts_with_nil (s : string) : starts_with "" s = true.
Proof. now destruct s. Qed.

Lemma starts_with_refl (s : string) : starts_with s s = true.
Proof.
  induction s as [|c r IH]; [reflexivity|]. cbn. now rewrite Ascii.eqb_refl.
Qed.

(** After a trailing comma comes an empty piece. *)
Lemma split_comma_last (u : string) :
  exists x l, split_comma (u ++ ",") = (x :: l ++ [""])%list.
Proof.
  induction u as [|c r IH]; cbn [append split_comma].
  - exists "", []. reflexivity.
  - fold (append r ","). destruct IH as (x & l & ->).
    destruct (Ascii.eqb c ",").
    + exists "", (x :: l). reflexivity.
    + exists (String c x), l. reflexivity.
Qed.

Lemma allowedUrls_trailing_comma (env : Env) (u : string) :
  FRONTEND_URL env = Some (u ++ ",") -> In "" (allowedUrls env).
Proof.
  intros E. unfold allowedUrls. rewrite E. cbn [env_value].
  destruct (split_comma_last u) as (x & l & ->).
  apply in_map_iff. exists "". split; [reflexivity|].
  right. apply in_or_app. right. now left.
Qed.

Lemma env_set_FRONTEND_URL (env : Env) (u : string) :
  In u (allowedUrls env) -> env_set (FRONTEND_URL env) = false -> u = "".
Proof.
  unfold allowedUrls, env_set.
  destruct (FRONTEND_URL env) as [s|].
  - destruct (String.eqb s "") eqn:E; [|discriminate].
    apply String.eqb_eq in E. subst s. cbn. now intros [<-|[]].
  - cbn. now intros [<-|[]].
Qed.

Section Cors.

Variable env : Env.

Lemma listed_origin_spec (origin : string) :
  env_set (FRONTEND_URL env) &&
  existsb (fun allowedUrl =>
             String.eqb origin allowedUrl || starts_with allowedUrl origin)
          (allowedUrls env) = true <-> listed_origin env origin.
Proof.
  unfold listed_origin. rewrite andb_true_iff, existsb_exists.
  split; intros [H (u & Hu & Hs)]; (split; [exact H|]); exists u; (split; [exact Hu|]).
  - apply orb_true_iff in Hs as [Hs|Hs]; [|exact Hs].
    apply String.eqb_eq in Hs. subst u. apply starts_with_refl.
  - rewrite Hs. apply orb_true_r.
Qed.

(** X16: the origin check of the server that refuses origins.  A request
    without an origin passes; outside production every origin passes; in
    production an origin passes exactly when it holds [.vercel.app]
    somewhere or begins with one of the URLs listed in [FRONTEND_URL], so
    that localhost is refused unless listed, an origin that passes still
    passes with any text added at its end, and a list that ends with a
    comma lets every origin pass. *)
Theorem cors_origin_spec :
  cors_origin env None = true /\
  cors_origin env (Some "") = true /\
  (is_production env = false -> forall origin, cors_origin env origin = true) /\
  (is_production env = true ->
   forall origin, origin <> "" ->
     (cors_origin env (Some origin) = true <->
      includes ".vercel.app" origin = true \/ listed_origin env origin)) /\
  (forall origin rest, origin <> "" ->
     cors_origin env (Some origin) = true ->
     cors_origin env (Some (origin ++ rest)) = true) /\
  (forall urls, FRONTEND_URL env = Some (urls ++ ",") ->
     forall origin, cors_origin env origin = true).
Proof.
  assert (Hprod : is_production env = true ->
    forall origin, origin <> "" ->
      (cors_origin env (Some origin) = true <->
       includes ".vercel.app" origin = true \/ listed_origin env origin)).
  { intros Hp origin Ho. unfold cors_origin.
    apply String.eqb_neq in Ho. rewrite Ho, Hp. cbn [negb andb].
    rewrite <- listed_origin_spec.
    destruct (includes ".vercel.app" origin); [tauto|].
    destruct (_ && _); intuition discriminate. }
  assert (Hdev : is_production env = false ->
    forall origin, cors_origin env origin = true).
  { intros Hp [origin|]; [|reflexivity]. unfold cors_origin. rewrite Hp.
    destruct (String.eqb origin ""); [reflexivity|].
    destruct (_ && _); [reflexivity|].
    destruct (includes _ _); [reflexivity|].
    now destruct (_ && _). }
  split; [reflexivity|]. split; [reflexivity|].
  split; [exact Hdev|]. split; [exact Hprod|].
  split.
  { intros origin rest Ho H.
    destruct (is_production env) eqn:Hp; [|now apply Hdev].
    assert (Ho' : origin ++ rest <> "") by (destruct origin; [congruence | discriminate]).
    apply (Hprod eq_refl _ Ho'). apply (Hprod eq_refl _ Ho) in H.
    destruct H as [H|(Hs & u & Hu & H)].
    - left. now apply includes_app_l.
    - right. split; [exact Hs|]. exists u. split; [exact Hu|].
      now apply starts_with_app. }
  intros urls E origin.
  destruct (is_production env) eqn:Hp; [|now apply Hdev].
  destruct origin as [origin|]; [|reflexivity].
  destruct (String.eqb origin "") eqn:Ho;
    [apply String.eqb_eq in Ho; now subst origin|].
  apply String.eqb_neq in Ho. apply (Hprod eq_refl _ Ho). right. split.
  - rewrite E. cbn. destruct urls; reflexivity.
  - exists "". split; [now apply (allowedUrls_trailing_comma env urls)|].
    apply starts_with_nil.
Qed.

(** X17: the origin check of the later server lets every origin pass,
    listed or not, in production as well: each of its branches calls back
    with [true]. *)
Theorem cors_origin_open_allows (origin : option string) :
  cors_origin_open env origin = true.
Proof.
  destruct origin as [origin|]; [|reflexivity]. unfold cors_origin_open.
  destruct (String.eqb origin ""); [reflexivity|].
  destruct (_ || _); [reflexivity|].
  destruct (includes _ _); [reflexivity|].
  destruct (_ && _); [reflexivity|].
  now destruct (is_production env).
Qed.

End Cors.

(** ** Creating a product *)

Lemma includes_nil_r (c : ascii) (m : string) : includes (String c m) "" = false.
Proof. reflexivity. Qed.

Lemma upload_preset_set (env : Env) : String.eqb (upload_preset env) "" = false.
Proof.
  unfold upload_preset, env_set, env_value.
  destruct (CLOUDINARY_UPLOAD_PRESET env) as [s|]; [|reflexivity].
  destruct (String.eqb s "") eqn:E; [reflexivity | exact E].
Qed.

Lemma Product_create_inr (st : products) (now : Z) (name description category : option string)
    (price : number) (image cloudinary_id : string) (featured : bool)
    (r : Product.t * products) :
  Product_create st now name description category price image cloudinary_id featured = inr r ->
  exists n d c,
    name = Some n /\ description = Some d /\ category = Some c /\
    let p := Product.mk (next_product st) n d c price image cloudinary_id featured
               now now in
    r = (p, {| stored := stored st ++ [p];
               next_product := N.succ (next_product st) |}) /\
    Product.valid p = true.
Proof.
  unfold Product_create.
  destruct name as [n|]; [|discriminate].
  destruct description as [d|]; [|discriminate].
  destruct category as [c|]; [|discriminate].
  cbv zeta. destruct (Product.valid _) eqn:V; cbn [negb]; [|discriminate].
  intros H. injection H as <-. exists n, d, c. auto.
Qed.

Section CreateProduct.

Variable h : Host.
Variable cloudinary : Cloudinary.
Variable env : Env.

Lemma post_upload_inr (file : File) (secure_url public_id : string) :
  post_upload cloudinary env file = inr (secure_url, public_id) <->
  uploads cloudinary env file secure_url public_id.
Proof.
  unfold post_upload, uploads. cbv zeta. rewrite upload_preset_set. cbn [negb].
  destruct (uploader_upload cloudinary (Some (upload_preset env)) file)
    as [message|u i].
  - destruct (String.eqb message "") eqn:Em; cbn [negb andb].
    + apply String.eqb_eq in Em. subst message. split; [discriminate|].
      intros [H|(m & H & Hi & _)]; [discriminate H|].
      injection H as <-. discriminate Hi.
    + destruct (includes "preset" message) eqn:Ei.
      * destruct (uploader_upload cloudinary None file) as [m'|u i].
        -- split; [discriminate|].
           intros [H|(m & _ & _ & H)]; discriminate H.
        -- split.
           ++ intros H. injection H as <- <-. right. now exists message.
           ++ intros [H|(m & _ & _ & H)]; [discriminate H|].
              now injection H as <- <-.
      * split; [discriminate|].
        intros [H|(m & H & Hi & _)]; [discriminate H|].
        injection H as <-. congruence.
  - split.
    + intros H. injection H as <- <-. now left.
    + intros [H|(m & H & _)]; [|discriminate H]. now injection H as <- <-.
Qed.

Lemma post_upload_inl (file : File) (r : product_response) :
  post_upload cloudinary env file = inl r -> p_status r = 500.
Proof.
  unfold post_upload. cbv zeta.
  destruct (if negb _ then _ else _) as [message|u i]; [|discriminate].
  destruct (_ && _).
  - destruct (uploader_upload cloudinary None file); [|discriminate].
    now intros H; injection H as <-.
  - now intros H; injection H as <-.
Qed.

(** X18: POST /api/products answers 201 exactly when the request has a
    file, the three Cloudinary variables are set, the image host returns a
    URL for the file (at once, or at the signed attempt that follows an
    error whose message speaks of the preset), name, description and
    category are set and not empty and the price parses as a number; the
    product is then stored after the others with the next free id, its
    price the parsed one and its flag [featured] set exactly when the field
    is the string "true".  Any other request leaves the collection as it
    was, and is answered 400 when the file is missing or the validators
    refuse the fields, 500 otherwise. *)
Theorem post_product_created_iff (st : products) (now : Z) (req : product_request) :
  let r := fst (post_product h cloudinary env st now req) in
  let st' := snd (post_product h cloudinary env st now req) in
  let b := preq_body req in
  (p_status r = 201 <->
   exists file secure_url public_id,
     preq_file req = Some file /\ config_set env = true /\
     uploads cloudinary env file secure_url public_id /\ secure_url <> "" /\
     product_fields_valid h b = true) /\
  (p_status r = 201 ->
   exists product file,
     r = answer 201 (ProductJson product) /\
     st' = {| stored := stored st ++ [product];
              next_product := N.succ (next_product st) |} /\
     Product._id product = next_product st /\
     castString h (pb_name b) = Some (Product.name product) /\
     castString h (pb_description b) = Some (Product.description product) /\
     castString h (pb_category b) = Some (Product.category product) /\
     Product.price product = parseFloat_value (pb_price b) /\
     Product.featured product = is_true_string (pb_featured b) /\
     preq_file req = Some file /\
     uploads cloudinary env file (Product.image product)
       (Product.cloudinary_id product) /\
     Product.createdAt product = now /\ Product.updatedAt product = now /\
     Product.valid product = true) /\
  (p_status r <> 201 ->
   st' = st /\ (p_status r = 400 \/ p_status r = 500) /\
   (p_status r = 400 <->
    preq_file req = None \/
    exists file secure_url public_id,
      preq_file req = Some file /\ config_set env = true /\
      uploads cloudinary env file secure_url public_id /\ secure_url <> "" /\
      product_fields_valid h b = false)).
Proof.
  cbv zeta. unfold post_product. cbv zeta.
  destruct (preq_file req) as [file|].
  2:{ cbn. split; [split; [discriminate | intros (f & _ & _ & E & _); discriminate E]|].
      split; [discriminate|]. intros _. split; [reflexivity|]. split; [now left|].
      split; [now left | reflexivity]. }
  assert (Ecfg : negb (env_set (CLOUDINARY_CLOUD_NAME env)) ||
                 negb (env_set (CLOUDINARY_API_KEY env)) ||
                 negb (env_set (CLOUDINARY_API_SECRET env)) = negb (config_set env)).
  { unfold config_set. now destruct (env_set _), (env_set _), (env_set _). }
  rewrite Ecfg. clear Ecfg.
  destruct (config_set env); cbn [negb].
  2:{ cbn. split; [split; [discriminate | intros (f & u & i & _ & E & _); discriminate E]|].
      split; [discriminate|]. intros _. split; [reflexivity|]. split; [now right|].
      split; [discriminate|].
      intros [E|(f & u & i & _ & E & _)]; discriminate E. }
  destruct (post_upload cloudinary env file) as [r|[secure_url public_id]] eqn:EU.
  { pose proof (post_upload_inl file r EU) as Hs. cbn [fst snd]. rewrite Hs.
    assert (Hno : forall u i, ~ uploads cloudinary env file u i).
    { intros u i H. apply post_upload_inr in H. congruence. }
    split; [split; [discriminate|]|].
    { intros (f & u & i & E & _ & H & _). injection E as <-. now apply Hno in H. }
    split; [discriminate|]. intros _. split; [reflexivity|]. split; [now right|].
    split; [discriminate|].
    intros [E|(f & u & i & E & _ & H & _)]; [discriminate E|].
    injection E as <-. now apply Hno in H. }
  assert (Hup : forall u i, uploads cloudinary env file u i <->
                            u = secure_url /\ i = public_id).
  { intros u i. rewrite <- post_upload_inr, EU. split.
    - intros H. now injection H as <- <-.
    - now intros [-> ->]. }
  destruct (String.eqb secure_url "") eqn:Eurl.
  { apply String.eqb_eq in Eurl. subst secure_url. cbn [fst snd p_status answer].
    split; [split; [discriminate|]|].
    { intros (f & u & i & E & _ & H & Hne & _). injection E as <-.
      apply Hup in H as [-> _]. now contradiction Hne. }
    split; [discriminate|]. intros _. split; [reflexivity|]. split; [now right|].
    split; [discriminate|].
    intros [E|(f & u & i & E & _ & H & Hne & _)]; [discriminate E|].
    injection E as <-. apply Hup in H as [-> _]. now contradiction Hne. }
  apply String.eqb_neq in Eurl.
  destruct (Product_create st now _ _ _ _ _ _ _) as [e|[product st'']] eqn:EC.
  - cbn [fst snd p_status answer].
    assert (Hinv : product_fields_valid h (preq_body req) = false).
    { unfold product_fields_valid, required. unfold Product_create in EC.
      destruct (castString h (pb_name _)) as [n|]; [|reflexivity].
      destruct (castString h (pb_description _)) as [d|];
        [|now rewrite andb_false_r].
      destruct (castString h (pb_category _)) as [c|];
        [|now rewrite !andb_false_r].
      cbv zeta in EC. unfold Product.valid in EC.
      cbn [Product.name Product.description Product.category Product.price
           Product.image] in EC.
      apply String.eqb_neq in Eurl. rewrite Eurl in EC. cbn [negb] in EC.
      rewrite andb_true_r in EC.
      destruct (_ && _); [discriminate EC | reflexivity]. }
    split; [split; [discriminate|]|].
    { intros (f & u & i & _ & _ & _ & _ & H). congruence. }
    split; [discriminate|]. intros _. split; [reflexivity|]. split; [now left|].
    split; [intros _|reflexivity].
    right. exists file, secure_url, public_id.
    repeat split; auto. now apply Hup.
  - apply Product_create_inr in EC as (n & d & c & En & Ed & Ec & EC).
    cbv zeta in EC. destruct EC as [EC Hv]. injection EC as -> ->.
    cbn [fst snd p_status answer].
    assert (Hfv : product_fields_valid h (preq_body req) = true).
    { unfold product_fields_valid, required. rewrite En, Ed, Ec.
      unfold Product.valid in Hv.
      cbn [Product.name Product.description Product.category Product.price
           Product.image] in Hv.
      apply andb_true_iff in Hv as [Hv _]. exact Hv. }
    split.
    { split; [intros _|reflexivity].
      exists file, secure_url, public_id. repeat split; auto. now apply Hup. }
    split; [|intros H; now contradiction H].
    intros _. eexists. exists file.
    split; [reflexivity|]. split; [reflexivity|].
    cbn [Product._id Product.name Product.description Product.category
         Product.price Product.featured Product.image Product.cloudinary_id
         Product.createdAt Product.updatedAt].
    repeat split; auto. now apply Hup.
Qed.

End CreateProduct.

(** ** Updating a product *)

Lemma Product_save_inr (st : products) (now : Z) (loaded d : Product.t)
    (r : Product.t * products) :
  Product_save st now loaded d = inr r ->
  let p := Product.mk (Product._id loaded) (Product.name d)
             (Product.description d) (Product.category d) (Product.price d)
             (Product.image d) (Product.cloudinary_id d) (Product.featured d)
             (Product.createdAt loaded)
             (if unmodified loaded d then Product.updatedAt loaded else now) in
  r = (p, {| stored := replace_product p (stored st);
             next_product := next_product st |}) /\
  Product.valid d = true.
Proof.
  unfold Product_save. destruct (Product.valid d); cbn [negb]; [|discriminate].
  intros H. injection H as <-. auto.
Qed.

Lemma truthy_castString (h : Host) (v : value) :
  truthy v = true -> exists s, castString h v = Some s.
Proof.
  destruct v as [| |b|n|s]; cbn; try discriminate; intros _; eexists; reflexivity.
Qed.

Section UpdateProduct.

Variable h : Host.
Variable cloudinary : Cloudinary.
Variable env : Env.

(** X19: an update of a stored product is answered 200 or 500 and changes
    nothing unless it is answered 200; it then replaces the product by the
    saved document, which keeps the id and the creation time.  Name,
    description and category are overwritten by a truthy field and kept
    otherwise, the price is parsed from a truthy field and kept otherwise
    (so the number 0 keeps the old price), [featured] is kept when the
    field is [undefined] and is otherwise set exactly when the field is
    the string "true" (so the boolean [true] clears it), the image fields
    change only with a file, and [updatedAt] moves only when a path
    changed. *)
Theorem put_product_patches (st : products) (now : Z) (req : product_request)
    (product : Product.t) :
  Product_findById st (preq_id req) = Some product ->
  let r := fst (put_product h cloudinary env st now req) in
  let st' := snd (put_product h cloudinary env st now req) in
  let b := preq_body req in
  (p_status r = 200 \/ p_status r = 500) /\
  (p_status r <> 200 -> st' = st) /\
  (p_status r = 200 ->
   exists saved,
     r = answer 200 (ProductJson saved) /\
     st' = {| stored := replace_product saved (stored st);
              next_product := next_product st |} /\
     Product.valid saved = true /\
     Product._id saved = Product._id product /\
     Product.createdAt saved = Product.createdAt product /\
     Some (Product.name saved) =
       (if truthy (pb_name b) then castString h (pb_name b)
        else Some (Product.name product)) /\
     Some (Product.description saved) =
       (if truthy (pb_description b) then castString h (pb_description b)
        else Some (Product.description product)) /\
     Some (Product.category saved) =
       (if truthy (pb_category b) then castString h (pb_category b)
        else Some (Product.category product)) /\
     Product.price saved =
       (if truthy (pb_price b) then parseFloat_value (pb_price b)
        else Product.price product) /\
     Product.featured saved =
       (if is_undefined (pb_featured b) then Product.featured product
        else is_true_string (pb_featured b)) /\
     inr (Product.image saved, Product.cloudinary_id saved) =
       match preq_file req with
       | Some file => put_upload cloudinary env file
       | None => inr (Product.image product, Product.cloudinary_id product)
       end /\
     Product.updatedAt saved =
       (if unmodified product saved then Product.updatedAt product else now) /\
     (pb_featured b = VBool true -> Product.featured saved = false) /\
     (pb_price b = VNum (Fin 0) -> Product.price saved = Product.price product)).
Proof.
  intros Hfind. cbv zeta. unfold put_product. cbv zeta. rewrite Hfind.
  set (b := preq_body req).
  destruct (match preq_file req with
            | Some file => put_upload cloudinary env file
            | None => inr (Product.image product, Product.cloudinary_id product)
            end) as [message|[imageUrl cloudinaryId]] eqn:EU.
  { cbn. split; [now right|]. split; [reflexivity | discriminate]. }
  destruct (if truthy (pb_name b) then _ else _) as [name|] eqn:En.
  2:{ cbn. split; [now right|]. split; [reflexivity | discriminate]. }
  destruct (if truthy (pb_description b) then _ else _) as [description|] eqn:Ed.
  2:{ cbn. split; [now right|]. split; [reflexivity | discriminate]. }
  destruct (if truthy (pb_category b) then _ else _) as [category|] eqn:Ec.
  2:{ cbn. split; [now right|]. split; [reflexivity | discriminate]. }
  destruct (Product_save st now product _) as [e|[saved st'']] eqn:ES.
  { cbn. split; [now right|]. split; [reflexivity | discriminate]. }
  apply Product_save_inr in ES. cbv zeta in ES. destruct ES as [ES Hv].
  cbn [Product._id Product.name Product.description Product.category
       Product.price Product.image Product.cloudinary_id Product.featured
       Product.createdAt Product.updatedAt] in ES.
  injection ES as Esaved Est. subst saved st''.
  cbn [fst snd p_status answer].
  split; [now left|]. split; [intros H; now contradiction H|]. intros _.
  eexists. split; [reflexivity|]. split; [reflexivity|].
  cbn [Product._id Product.name Product.description Product.category
       Product.price Product.image Product.cloudinary_id Product.featured
       Product.createdAt Product.updatedAt].
  split.
  { unfold Product.valid in *.
    cbn [Product.name Product.description Product.category Product.price
         Product.image] in *. exact Hv. }
  repeat (split; [reflexivity|]).
  split; [now destruct (is_undefined (pb_featured b))|].
  split; [reflexivity|]. split; [reflexivity|].
  split; [intros ->; reflexivity | intros ->; reflexivity].
Qed.

End UpdateProduct.

(** ** The invariant of the products *)

Lemma replace_product_ids (p : Product.t) (l : list Product.t) :
  map Product._id (replace_product p l) = map Product._id l.
Proof.
  unfold replace_product. rewrite map_map. apply map_ext_in. intros x _.
  destruct (N.eqb (Product._id x) (Product._id p)) eqn:E; [|reflexivity].
  apply N.eqb_eq in E. now rewrite E.
Qed.

Lemma replace_product_In (p x : Product.t) (l : list Product.t) :
  In x (replace_product p l) -> x = p \/ In x l.
Proof.
  unfold replace_product. intros H. apply in_map_iff in H as (y & E & Hy).
  destruct (N.eqb (Product._id y) (Product._id p)); [left | right]; congruence.
Qed.

(** Replacing a stored product by itself changes nothing. *)
Lemma replace_product_same (p : Product.t) (l : list Product.t) :
  NoDup (map Product._id l) -> In p l -> replace_product p l = l.
Proof.
  intros Hnd Hin. unfold replace_product. rewrite <- (map_id l) at 2.
  apply map_ext_in. intros x Hx.
  destruct (N.eqb (Product._id x) (Product._id p)) eqn:E; [|reflexivity].
  apply N.eqb_eq in E. symmetry.
  now apply (NoDup_map_inj Product._id l).
Qed.

Lemma Product_findById_stored (st : products) (p : Product.t) :
  products_ok st -> In p (stored st) -> Product_findById st (Product._id p) = Some p.
Proof.
  intros (_ & Hid) Hin. unfold Product_findById.
  destruct (find _ (stored st)) as [x|] eqn:E.
  - apply find_some in E as [Hx E]. apply N.eqb_eq in E.
    f_equal. now apply (NoDup_map_inj Product._id (stored st)).
  - apply (find_none _ _ E) in Hin. now rewrite N.eqb_refl in Hin.
Qed.

Lemma num_eqb_refl (n : number) : isNaN n = false -> num_eqb n n = true.
Proof.
  destruct n as [|q| |]; cbn; try reflexivity; [discriminate|].
  intros _. now apply Qeq_bool_iff.
Qed.

Section ProductsInvariant.

Variable h : Host.
Variable cloudinary : Cloudinary.
Variable env : Env.

(** POST stores one valid product with the next id, or nothing. *)
Lemma post_product_store (st : products) (now : Z) (req : product_request) :
  snd (post_product h cloudinary env st now req) = st \/
  exists p,
    snd (post_product h cloudinary env st now req) =
      {| stored := stored st ++ [p]; next_product := N.succ (next_product st) |} /\
    Product._id p = next_product st /\ Product.valid p = true.
Proof.
  unfold post_product. cbv zeta.
  destruct (preq_file req) as [file|]; [|now left].
  destruct (_ || _); [now left|].
  destruct (post_upload cloudinary env file) as [r|[secure_url public_id]]; [now left|].
  destruct (String.eqb secure_url ""); [now left|].
  destruct (Product_create st now _ _ _ _ _ _ _) as [e|[product st']] eqn:EC;
    [now left|].
  apply Product_create_inr in EC as (n & d & c & _ & _ & _ & EC).
  cbv zeta in EC. destruct EC as [EC Hv]. injection EC as -> ->.
  right. eexists. split; [reflexivity|]. split; [reflexivity | exact Hv].
Qed.

(** PUT replaces a stored product by a valid one with its id, or nothing. *)
Lemma put_product_store (st : products) (now : Z) (req : product_request) :
  snd (put_product h cloudinary env st now req) = st \/
  exists product saved,
    In product (stored st) /\
    snd (put_product h cloudinary env st now req) =
      {| stored := replace_product saved (stored st);
         next_product := next_product st |} /\
    Product._id saved = Product._id product /\ Product.valid saved = true.
Proof.
  unfold put_product. cbv zeta.
  destruct (Product_findById st (preq_id req)) as [product|] eqn:Hfind; [|now left].
  destruct (match preq_file req with Some _ => _ | None => _ end)
    as [message|[imageUrl cloudinaryId]]; [now left|].
  destruct (if truthy (pb_name _) then _ else _) as [name|]; [|now left].
  destruct (if truthy (pb_description _) then _ else _) as [description|]; [|now left].
  destruct (if truthy (pb_category _) then _ else _) as [category|]; [|now left].
  destruct (Product_save st now product _) as [e|[saved st']] eqn:ES; [now left|].
  apply Product_save_inr in ES. cbv zeta in ES. destruct ES as [ES Hv].
  injection ES as -> ->.
  right. exists product. eexists.
  split; [unfold Product_findById in Hfind; now apply find_some in Hfind|].
  split; [reflexivity|]. split; [reflexivity|].
  unfold Product.valid in *.
  cbn [Product.name Product.description Product.category Product.price
       Product.image] in *. exact Hv.
Qed.

Lemma products_ok_post (st : products) (now : Z) (req : product_request) :
  products_ok st -> products_ok (snd (post_product h cloudinary env st now req)).
Proof.
  intros Hok.
  destruct (post_product_store st now req) as [->|(p & -> & Eid & Hv)]; [exact Hok|].
  destruct Hok as (Hall & Hid). split; cbn [stored next_product].
  - intros x Hx. apply in_app_iff in Hx as [Hx|[<-|[]]].
    + apply Hall in Hx as [Hx Hv']. split; [lia | exact Hv'].
    + split; [lia | exact Hv].
  - rewrite map_app. apply NoDup_snoc; [exact Hid|].
    cbn. intros Hin. apply in_map_iff in Hin as (x & Ex & Hx).
    apply Hall in Hx as [Hx _]. lia.
Qed.

Lemma products_ok_put (st : products) (now : Z) (req : product_request) :
  products_ok st -> products_ok (snd (put_product h cloudinary env st now req)).
Proof.
  intros Hok.
  destruct (put_product_store st now req)
    as [->|(product & saved & Hin & -> & Eid & Hv)]; [exact Hok|].
  destruct Hok as (Hall & Hid).
  split; cbn [stored next_product].
  - intros p Hp. apply replace_product_In in Hp as [->|Hp]; [|now apply Hall].
    split; [|exact Hv]. rewrite Eid. now apply Hall.
  - now rewrite replace_product_ids.
Qed.

Lemma products_ok_delete (st : products) (id : N) :
  products_ok st -> products_ok (snd (delete_product st id)).
Proof.
  intros (Hall & Hid). unfold delete_product.
  destruct (Product_findById st id); [|now split].
  cbn [snd Product_findByIdAndDelete]. split; cbn [stored next_product].
  - intros p Hp. apply filter_In in Hp as [Hp _]. now apply Hall.
  - now apply filter_keeps_keys_apart.
Qed.

Lemma reachable_products_ok (st : products) :
  reachable_products h cloudinary env st -> products_ok st.
Proof.
  induction 1.
  - split; [intros p [] | constructor].
  - now apply products_ok_post.
  - now apply products_ok_put.
  - now apply products_ok_delete.
Qed.

(** X20: in every collection the product routes can reach, no id is
    stored twice and every product has a name, a description, a category
    and an image that are not empty and a price that is a number: what
    POST and PUT do not check themselves, the validators refuse.  GET by
    its id answers each stored product, and the listing holds each of them
    once, the newest first. *)
Theorem stored_products_valid (st : products) :
  reachable_products h cloudinary env st ->
  NoDup (map Product._id (stored st)) /\
  (exists l, get_products st = answer 200 (ProductsJson l) /\
             Permutation l (stored st) /\ newest_first Product.createdAt l) /\
  forall p, In p (stored st) ->
    Product.name p <> "" /\ Product.description p <> "" /\
    Product.category p <> "" /\ Product.image p <> "" /\
    Product.price p <> NaN /\
    get_product st (Product._id p) = answer 200 (ProductJson p).
Proof.
  intros Hr. apply reachable_products_ok in Hr.
  split; [apply Hr|].
  split.
  { eexists. split; [reflexivity|].
    split; [apply Permutation_sym, sort_desc_perm | apply sort_desc_sorted]. }
  intros p Hp.
  destruct (proj1 Hr p Hp) as [_ Hv]. unfold Product.valid in Hv.
  rewrite !andb_true_iff, !negb_true_iff, !String.eqb_neq in Hv.
  destruct Hv as ((((Hn & Hd) & Hc) & Hprice) & Hi).
  repeat (split; [assumption|]).
  split; [intros E; now rewrite E in Hprice|].
  unfold get_product. now rewrite (Product_findById_stored st p Hr Hp).
Qed.

(** X21: an update that carries no field and no file is answered 200 with
    the stored product as it is, [updatedAt] included, and leaves the
    collection as it was. *)
Theorem put_product_nothing (st : products) (now : Z) (product : Product.t) :
  reachable_products h cloudinary env st -> In product (stored st) ->
  put_product h cloudinary env st now (empty_product_update (Product._id product)) =
  (answer 200 (ProductJson product), st).
Proof.
  intros Hr Hin. apply reachable_products_ok in Hr.
  pose proof (Product_findById_stored st product Hr Hin) as Hfind.
  destruct (proj1 Hr product Hin) as [_ Hv].
  unfold put_product, empty_product_update. cbv zeta.
  cbn [preq_body preq_file preq_id pb_name pb_description pb_category pb_price
       pb_featured truthy is_undefined negb].
  rewrite Hfind.
  assert (Hprice : isNaN (Product.price product) = false).
  { unfold Product.valid in Hv. rewrite !andb_true_iff, !negb_true_iff in Hv. tauto. }
  unfold Product_save.
  assert (Hd : Product.mk (Product._id product) (Product.name product)
                 (Product.description product) (Product.category product)
                 (Product.price product) (Product.image product)
                 (Product.cloudinary_id product) (Product.featured product)
                 (Product.createdAt product) (Product.updatedAt product) = product)
    by now destruct product.
  rewrite Hd, Hv. cbn [negb].
  assert (Hun : unmodified product product = true).
  { unfold unmodified. rewrite !String.eqb_refl, (num_eqb_refl _ Hprice).
    now destruct (Product.featured product). }
  rewrite Hun, Hd.
  rewrite (replace_product_same product (stored st) (proj2 Hr) Hin).
  now destruct st.
Qed.

End ProductsInvariant.

(** ** The sales report document *)


Lemma no_lt_nat (n : nat) : no_char lt_char (nat_toString n) = true.
Proof. apply no_lt_decimal. Qed.

Lemma upper_char_lt (c : ascii) :
  Ascii.eqb (upper_char c) lt_char = Ascii.eqb c lt_char.
Proof.
  destruct c as [[] [] [] [] [] [] [] []]; reflexivity.
Qed.

Lemma no_lt_upper (s : string) :
  no_char lt_char s = true -> no_char lt_char (toUpperCase s) = true.
Proof.
  induction s as [|c r IH]; [reflexivity|].
  cbn [no_char toUpperCase]. rewrite upper_char_lt.
  intros H. apply andb_true_iff in H as [H1 H2]. now rewrite H1, IH.
Qed.

Ltac no_lt_report :=
  first
    [ assumption
    | match goal with
      | |- no_char _ (number_toFixed2 _) = true => apply no_lt_number
      | |- no_char _ (toFixed2 _) = true => apply no_lt_toFixed2
      | |- no_char _ (nat_toString _) = true => apply no_lt_nat
      | |- no_char _ (toUpperCase _) = true => apply no_lt_upper; assumption
      | |- no_char _ (substring _ _ _) = true =>
          apply no_char_substring; assumption
      | |- no_char _ (slice_last _ _) = true =>
          apply no_char_substring; assumption
      end ].

(** One piece of the template: a value without [<] is skipped, a literal
    is counted on its own. *)
Ltac report_step :=
  match goal with
  | |- context [count_sub (String ?c ?m) (?l ++ ?t)] =>
      first
        [ rewrite (count_sub_no_char c m l t) by no_lt_report
        | lazymatch l with String _ _ => idtac | dq => idtac end;
          rewrite (count_sub_closed c m l t) by (vm_compute; reflexivity);
          let v := eval vm_compute in (count_sub (String c m) l) in
          change (count_sub (String c m) l) with v ]
  end.

(** The piece [m1 ++ v ++ m2] where a value [v] of the template sits
    between the end [m1] of one literal and the start [m2] of the next. *)
Lemma includes_seam (m1 v m2 a b rest : string) :
  includes (m1 ++ v ++ m2) ((a ++ m1) ++ v ++ (m2 ++ b) ++ rest) = true.
Proof.
  apply includes_spec. exists a, (b ++ rest). now rewrite !append_assoc.
Qed.

Ltac seam :=
  match goal with
  | |- includes (?m1 ++ ?v ++ ?m2) (?L ++ ?v ++ ?L' ++ ?rest) = true =>
      let fits := eval vm_compute in
        (String.eqb
           (substring (String.length L - String.length m1) (String.length m1) L) m1 &&
         starts_with m2 L') in
      match fits with
      | true =>
          let a := eval vm_compute in
            (substring 0 (String.length L - String.length m1) L) in
          let b := eval vm_compute in
            (substring (String.length m2) (String.length L' - String.length m2) L') in
          change (includes (m1 ++ v ++ m2) ((a ++ m1) ++ v ++ (m2 ++ b) ++ rest) = true);
          apply includes_seam
      end
  end.

Ltac find_seam := repeat first [ solve [seam] | apply includes_app_r ].

Section ReportDocument.

Variable h : Host.
Variable toLocaleDateString : Z -> string.

Lemma report_rows_cons (order : Order.t) (l : list Order.t) :
  report_rows h (order :: l) = report_row h order ++ report_rows h l.
Proof.
  unfold report_rows. cbn [map String.concat].
  destruct (map (report_row h) l) as [|x r]; [now rewrite append_nil_r | reflexivity].
Qed.

Lemma count_report_rows (l : list Order.t) (t : string) :
  rows_free h l = true ->
  count_sub row_marker (report_rows h l ++ t) =
  (List.length l + count_sub row_marker t)%nat.
Proof.
  unfold row_marker, rows_free, no_markup, lt_char.
  induction l as [|order l IH]; intros H; [reflexivity|].
  cbn [forallb] in H. apply andb_true_iff in H as [H1 H2].
  apply andb_true_iff in H1 as [H1 F4]. apply andb_true_iff in H1 as [H1 F3].
  apply andb_true_iff in H1 as [F1 F2].
  rewrite report_rows_cons. unfold report_row.
  rewrite !append_assoc.
  repeat report_step.
  rewrite (IH H2). cbn [List.length]. lia.
Qed.

Lemma includes_report_rows (l : list Order.t) (order : Order.t) :
  In order l -> includes (report_row h order) (report_rows h l) = true.
Proof.
  induction l as [|x l IH]; intros H; [destruct H|].
  rewrite report_rows_cons. destruct H as [->|H].
  - apply includes_app_l, includes_refl.
  - now apply includes_app_r, IH.
Qed.

Lemma count_report_row_marker (reportData : Report) (now : Z) :
  report_markup_free h toLocaleDateString reportData now = true ->
  count_sub row_marker (generateSalesReportPDF h toLocaleDateString reportData now) =
  (6 + List.length (orders reportData))%nat.
Proof.
  unfold report_markup_free. intros H.
  apply andb_true_iff in H as [H F5]. unfold no_markup, lt_char in H. apply andb_true_iff in H as [H F4].
  apply andb_true_iff in H as [H F3]. apply andb_true_iff in H as [F1 F2].
  unfold generateSalesReportPDF, row_marker.
  repeat report_step.
  change (count_sub ?m (report_rows h ?l ++ ?t))
    with (count_sub row_marker (report_rows h l ++ t)).
  rewrite (count_report_rows _ _ F5). unfold row_marker.
  repeat report_step.
  cbn. lia.
Qed.

(** X22: for a report none of whose texts holds a [<], the document has
    one table row per order of the report besides the six rows of its two
    tables' headers and status lines, and each order's row is in it; the
    title names the period and the heading names it in upper case, the
    four status lines show the four counts, and the summary shows the four
    figures with two decimals.  For a report of the sales route the rows
    are as many as its order count says. *)
Theorem sales_report_document (reportData : Report) (now : Z) :
  report_markup_free h toLocaleDateString reportData now = true ->
  let out := generateSalesReportPDF h toLocaleDateString reportData now in
  let s := summary reportData in
  count_sub row_marker out = (6 + List.length (orders reportData))%nat /\
  (forall order, In order (orders reportData) ->
     includes (report_row h order) out = true) /\
  includes ("<title>Sales Report - " ++ period reportData ++ "</title>") out = true /\
  includes ("<h2>Sales Report - " ++ toUpperCase (period reportData) ++ "</h2>")
           out = true /\
  includes ("<tr><td>Pending</td><td>" ++
            nat_toString (Pending (statusCounts s)) ++ "</td></tr>") out = true /\
  includes ("<tr><td>Preparing</td><td>" ++
            nat_toString (Preparing (statusCounts s)) ++ "</td></tr>") out = true /\
  includes ("<tr><td>Out for Delivery</td><td>" ++
            nat_toString (OutForDelivery (statusCounts s)) ++ "</td></tr>")
           out = true /\
  includes ("<tr><td>Delivered</td><td>" ++
            nat_toString (Delivered (statusCounts s)) ++ "</td></tr>") out = true /\
  includes (">$" ++ number_toFixed2 (totalSales s) ++ "</p>") out = true /\
  includes (">$" ++ number_toFixed2 (averageOrderValue s) ++ "</p>") out = true /\
  includes (">$" ++ number_toFixed2 (totalDeliveryCharges s) ++ "</p>") out = true /\
  includes (">" ++ nat_toString (totalOrders s) ++ "</p>") out = true /\
  (forall db t p, reportData = get_report db t p ->
     count_sub row_marker out = (6 + totalOrders s)%nat).
Proof.
  intros Hfree. cbv zeta.
  split; [now apply count_report_row_marker|].
  split.
  { intros order Hin. unfold generateSalesReportPDF.
    repeat match goal with
    | |- includes _ (report_rows _ _ ++ _) = true =>
        apply includes_app_l, includes_report_rows; exact Hin
    | |- includes _ (_ ++ _) = true => apply includes_app_r
    end. }
  repeat (split; [unfold generateSalesReportPDF; find_seam|]).
  intros db t p ->. rewrite (count_report_row_marker _ _ Hfree).
  rewrite get_report_unfold. reflexivity.
Qed.

End ReportDocument.

(** ** The head and the total of the receipt *)

Lemma count_rows_total (items : list Item.t) (t : string) :
  names_free items = true ->
  count_sub total_marker (item_rows items ++ t) = count_sub total_marker t.
Proof.
  unfold total_marker, names_free, no_markup, lt_char.
  induction items as [|item items IH]; intros H; [reflexivity|].
  cbn [forallb] in H. apply andb_true_iff in H as [H1 H2].
  rewrite item_rows_cons. unfold item_row. hide_numbers. rewrite !append_assoc.
  repeat count_step. now rewrite (IH H2).
Qed.

Section ReceiptHead.

Variable h : Host.

Lemma count_total_marker (o : Order.t) :
  markup_free h o = true ->
  count_sub total_marker (generateOrderPDF h o) = 1%nat.
Proof.
  intros Hfree.
  destruct (markup_free_fields h o Hfree) as (F1 & F2 & F3 & F4 & F5 & F6 & F7).
  unfold generateOrderPDF, total_marker.
  repeat count_step.
  destruct (address_line_cases o) as [(_ & a & Ea & ->)|(_ & ->)];
    [pose proof (F6 a Ea); rewrite !append_assoc | rewrite append_nil_l].
  all: repeat count_step.
  all: change (count_sub ?m (item_rows ?i ++ ?t))
         with (count_sub total_marker (item_rows i ++ t)).
  all: rewrite (count_rows_total _ _ F7); unfold total_marker.
  all: repeat count_step.
  all: destruct (totals_block_cases o) as [(_ & c & _ & _ & ->)|(_ & ->)];
         [rewrite !append_assoc | rewrite append_nil_l].
  all: repeat count_step.
  all: reflexivity.
Qed.

(** X24: every receipt has a title with the last eight characters of the
    order id, a line with the whole id, a type line that reads Pickup for
    the delivery type 'pickup' and Delivery for any other, known or not,
    and a total line with the total amount to two decimals; an order that
    is neither a pickup nor a delivery is thus shown as a delivery without
    an address.  When no text of the order holds a [<], the total line is
    the only one. *)
Theorem receipt_head_and_total (o : Order.t) :
  let out := generateOrderPDF h o in
  includes ("<title>Order Receipt - " ++ slice_last 8 (Order._id o) ++ "</title>")
           out = true /\
  includes ("<p><strong>Order ID:</strong> " ++ Order._id o ++ "</p>") out = true /\
  includes ("<p><strong>Type:</strong> " ++
            (if String.eqb (Order.deliveryType o) "pickup" then "Pickup"
             else "Delivery") ++ "</p>") out = true /\
  includes ("<p>Total Amount: $" ++
            number_toFixed2 (amount (Order.totalAmount o)) ++ "</p>")
           out = true /\
  (Order.deliveryType o <> "pickup" -> Order.deliveryType o <> "delivery" ->
   includes "<p><strong>Type:</strong> Delivery</p>" out = true /\
   address_line o = "") /\
  (markup_free h o = true -> count_sub total_marker out = 1%nat).
Proof.
  cbv zeta.
  assert (Htype : includes ("<p><strong>Type:</strong> " ++
            (if String.eqb (Order.deliveryType o) "pickup" then "Pickup"
             else "Delivery") ++ "</p>") (generateOrderPDF h o) = true)
    by (unfold generateOrderPDF; find_seam).
  split; [unfold generateOrderPDF; find_seam|].
  split; [unfold generateOrderPDF; find_seam|].
  split; [exact Htype|].
  split; [unfold generateOrderPDF; find_seam|].
  split; [|apply count_total_marker].
  intros Hp Hd. apply String.eqb_neq in Hp, Hd.
  rewrite Hp in Htype. split; [exact Htype|].
  unfold address_line. now rewrite Hd.
Qed.

End ReceiptHead.

(** ** The further properties on the examples *)

(** " save10 ", with spaces around it, is stored as "SAVE10", active. *)
Lemma post_offer_stores_witness :
  let r := post_offer sample_host empty_store sample_now
             (save10 (VStr "10") (VStr " save10 ")) in
  r = (respond 201 (OfferJson (answered_offer (fst r))), snd r) /\
  offers (snd r) = [answered_offer (fst r)] /\
  Offer.code (answered_offer (fst r)) = "SAVE10" /\
  Offer.isActive (answered_offer (fst r)) = Some true.
Proof.
  cbv zeta.
  set (r := post_offer sample_host empty_store sample_now
              (save10 (VStr "10") (VStr " save10 "))).
  assert (E : r = (respond 201 (OfferJson (answered_offer (fst r))), snd r))
    by (vm_compute; reflexivity).
  split; [exact E|].
  pose proof (post_offer_stores sample_host empty_store sample_now
                (save10 (VStr "10") (VStr " save10 ")) _ _ E) as P.
  cbv zeta in P.
  destruct P as (Eo & _ & _ & _ & _ & Ha & (t & d & c & _ & _ & Ec & _ & _ & Eo') & _).
  split; [exact Eo|]. split; [|exact Ha].
  rewrite Eo'. injection Ec as <-. reflexivity.
Defined.

(** "SAVE10" can be had by its id once it is created, and not before. *)
Lemma post_offer_then_get_witness :
  let r := post_offer sample_host empty_store sample_now
             (save10 (VStr "10") (VStr "SAVE10")) in
  reachable sample_host empty_store /\
  r = (respond 201 (OfferJson offer_save10), store_save10) /\
  get_offer store_save10 (Offer._id offer_save10) =
    respond 200 (OfferJson offer_save10) /\
  get_offer empty_store (Offer._id offer_save10) =
    respond 404 (Message "Offer not found").
Proof.
  cbv zeta.
  assert (E : post_offer sample_host empty_store sample_now
                (save10 (VStr "10") (VStr "SAVE10")) =
              (respond 201 (OfferJson offer_save10), store_save10))
    by (vm_compute; reflexivity).
  split; [apply reach_empty|]. split; [exact E|].
  destruct (post_offer_then_get sample_host empty_store sample_now
              (save10 (VStr "10") (VStr "SAVE10")) _ _
              (reach_empty sample_host) E) as (G & N & _).
  split; [exact G | exact N].
Defined.

(** The stored "SAVE10" has a discount from 0 to 100. *)
Lemma stored_offers_valid_witness :
  reachable sample_host store_save10 /\
  In offer_save10 (offers store_save10) /\
  exists q, Offer.discount offer_save10 = Fin q /\ (0 <= q)%Q /\ (q <= 100)%Q.
Proof.
  assert (R : reachable sample_host store_save10)
    by exact (reach_post sample_host _ sample_now _ (reach_empty sample_host)).
  assert (Hin : In offer_save10 (offers store_save10))
    by (vm_compute; left; reflexivity).
  split; [exact R|]. split; [exact Hin|].
  exact (proj1 (proj2 (proj2 (proj2
    (stored_offers_valid sample_host store_save10 _ R Hin))))).
Defined.

(** The update of "SAVE10" is what GET answers afterwards. *)
Lemma put_offer_then_get_witness :
  let r := put_offer sample_host store_save10 sample_now discount_update in
  r = (respond 200 (OfferJson (answered_offer (fst r))), snd r) /\
  get_offer (snd r) (req_id discount_update) = fst r.
Proof.
  cbv zeta.
  set (r := put_offer sample_host store_save10 sample_now discount_update).
  assert (E : r = (respond 200 (OfferJson (answered_offer (fst r))), snd r))
    by (vm_compute; reflexivity).
  split; [exact E|].
  destruct (put_offer_then_get sample_host store_save10 sample_now
              discount_update _ _ E) as (_ & G & _).
  rewrite G. rewrite E at 2. reflexivity.
Defined.

(** A discount of 150 sent to "SAVE10" is answered 500. *)
Lemma put_offer_discount_range_witness :
  let req := discount_only_update 0 (VStr "150") in
  findById store_save10 (req_id req) = Some offer_save10 /\
  is_undefined (b_discount (req_body req)) = false /\
  discount_accepted (b_discount (req_body req)) = false /\
  status (fst (put_offer sample_host store_save10 sample_now req)) = 500 /\
  snd (put_offer sample_host store_save10 sample_now req) = store_save10.
Proof.
  cbv zeta.
  assert (F : findById store_save10 (req_id (discount_only_update 0 (VStr "150"))) =
              Some offer_save10) by (vm_compute; reflexivity).
  split; [exact F|]. split; [reflexivity|]. split; [reflexivity|].
  pose proof (put_offer_discount_range sample_host store_save10 sample_now
                (discount_only_update 0 (VStr "150")) _ F eq_refl eq_refl) as P.
  cbv zeta in P. destruct P as (S & _ & P).
  split; [exact (P eq_refl) | exact S].
Defined.

(** "SAVE10", valid from 1 January 2024, is given an end on 1 June 2023. *)
Lemma put_offer_dates_unchecked_witness :
  let r := put_offer sample_host store_save10 sample_now
             (until_update (Offer._id offer_save10) (VStr "2023-06-01")) in
  reachable sample_host store_save10 /\
  In offer_save10 (offers store_save10) /\
  "2023-06-01" <> "" /\
  Date_parse sample_host "2023-06-01" = Some 1685577600000 /\
  status (fst r) = 200 /\
  exists saved, In saved (offers (snd r)) /\
                Offer.validUntil saved <= Offer.validFrom saved.
Proof.
  assert (R : reachable sample_host store_save10)
    by exact (reach_post sample_host _ sample_now _ (reach_empty sample_host)).
  cbv zeta.
  assert (Hin : In offer_save10 (offers store_save10))
    by (vm_compute; left; reflexivity).
  assert (Hd : Date_parse sample_host "2023-06-01" = Some 1685577600000)
    by (vm_compute; reflexivity).
  split; [exact R|]. split; [exact Hin|].
  split; [discriminate|]. split; [exact Hd|].
  pose proof (put_offer_dates_unchecked sample_host store_save10 sample_now
                offer_save10 "2023-06-01" 1685577600000 R Hin
                ltac:(discriminate) Hd) as P.
  cbv zeta in P. destruct P as (saved & E & Hs & _ & _ & Hle).
  split; [rewrite E; reflexivity|].
  exists saved. split; [exact Hs|]. apply Hle. vm_compute. discriminate.
Defined.

(** January 2024: the monthly window ends on the first of February. *)
Lemma monthly_window_spec_witness :
  (getFullYear sample_now < 0 \/ 99 < getFullYear sample_now) /\
  let r := get_report [sample_order] sample_now (Some "monthly") in
  getMonth (startDate r) = 0 /\ getDate (startDate r) = 1 /\
  getMonth (endDate r) = 1 /\ getDate (endDate r) = 1 /\
  startDate r <= sample_now < endDate r.
Proof.
  split; [right; reflexivity|].
  pose proof (monthly_window_spec [sample_order] sample_now (or_intror eq_refl)) as M.
  cbv zeta in M. destruct M as ((_ & Sm & Sd & _) & (_ & Em & Ed & _) & _ & Hin & _).
  cbv zeta. split; [exact Sm|]. split; [exact Sd|]. split; [exact Em|].
  split; [exact Ed | exact Hin].
Defined.

(** "Weekly", with a capital, is answered with the daily report. *)
Lemma report_unknown_period_witness :
  "Weekly" <> "weekly" /\ "Weekly" <> "monthly" /\
  let r := get_report [sample_order] sample_now (Some "Weekly") in
  period r = "Weekly" /\
  orders r = orders (get_report [sample_order] sample_now (Some "daily")).
Proof.
  split; [discriminate|]. split; [discriminate|].
  pose proof (report_unknown_period [sample_order] sample_now "Weekly"
                ltac:(discriminate) ltac:(discriminate)) as P.
  cbv zeta in P. destruct P as (Ep & _ & _ & Eo & _).
  cbv zeta. split; [exact Ep | exact Eo].
Defined.

(** The Margherita is created through the signed upload, the preset being
    unknown to the host. *)
Example post_product_margherita :
  let r := post_product sample_host sample_cloudinary sample_env no_products
             sample_now margherita_request in
  p_status (fst r) = 201 /\
  map Product.name (stored (snd r)) = ["Margherita"] /\
  map Product.featured (stored (snd r)) = [true] /\
  map Product.image (stored (snd r)) = ["https://res.cloudinary.com/margherita"].
Proof. vm_compute. repeat split. Qed.

(** The update with the JSON values: the name changes, the price stays and
    the flag is cleared. *)
Lemma put_product_patches_witness :
  let r := put_product sample_host sample_cloudinary sample_env store_margherita
             sample_now json_product_update in
  Product_findById store_margherita (preq_id json_product_update) = Some margherita /\
  p_status (fst r) = 200 /\
  Product.featured margherita = true /\
  exists saved,
    fst r = answer 200 (ProductJson saved) /\
    Product.name saved = "Margherita XL" /\
    Product.price saved = Product.price margherita /\
    Product.featured saved = false.
Proof.
  cbv zeta.
  assert (F : Product_findById store_margherita (preq_id json_product_update) =
              Some margherita) by (vm_compute; reflexivity).
  assert (S : p_status (fst (put_product sample_host sample_cloudinary sample_env
                store_margherita sample_now json_product_update)) = 200)
    by (vm_compute; reflexivity).
  split; [exact F|]. split; [exact S|]. split; [vm_compute; reflexivity|].
  pose proof (put_product_patches sample_host sample_cloudinary sample_env
                store_margherita sample_now json_product_update _ F) as P.
  cbv zeta in P. destruct P as (_ & _ & P).
  destruct (P S) as (saved & E & _ & _ & _ & _ & En & _ & _ & _ & _ & _ & _ & Hf & Hp).
  exists saved. split; [exact E|].
  split; [now injection En|]. split; [exact (Hp eq_refl) | exact (Hf eq_refl)].
Defined.

(** The stored Margherita has a price. *)
Lemma stored_products_valid_witness :
  reachable_products sample_host sample_cloudinary sample_env store_margherita /\
  In margherita (stored store_margherita) /\
  Product.price margherita <> NaN /\ Product.image margherita <> "".
Proof.
  assert (R : reachable_products sample_host sample_cloudinary sample_env
                store_margherita)
    by exact (reach_post_product _ _ _ _ sample_now _ (reach_none _ _ _)).
  assert (Hin : In margherita (stored store_margherita))
    by (vm_compute; left; reflexivity).
  split; [exact R|]. split; [exact Hin|].
  destruct (proj2 (proj2 (stored_products_valid sample_host sample_cloudinary
                            sample_env store_margherita R)) _ Hin)
    as (_ & _ & _ & Hi & Hp & _).
  split; [exact Hp | exact Hi].
Defined.

(** An empty update of the Margherita, a day later, returns it and changes
    nothing. *)
Lemma put_product_nothing_witness :
  reachable_products sample_host sample_cloudinary sample_env store_margherita /\
  In margherita (stored store_margherita) /\
  put_product sample_host sample_cloudinary sample_env store_margherita
    (sample_now + msPerDay) (empty_product_update (Product._id margherita)) =
  (answer 200 (ProductJson margherita), store_margherita).
Proof.
  assert (R : reachable_products sample_host sample_cloudinary sample_env
                store_margherita)
    by exact (reach_post_product _ _ _ _ sample_now _ (reach_none _ _ _)).
  assert (Hin : In margherita (stored store_margherita))
    by (vm_compute; left; reflexivity).
  split; [exact R|]. split; [exact Hin|].
  exact (put_product_nothing sample_host sample_cloudinary sample_env
           store_margherita (sample_now + msPerDay) _ R Hin).
Defined.

(** The document of the daily report of 3 January 2024 has seven rows. *)
Lemma sales_report_document_witness :
  let rd := get_report [sample_order] sample_now (Some "daily") in
  report_markup_free sample_host Z_toString rd sample_now = true /\
  count_sub row_marker (generateSalesReportPDF sample_host Z_toString rd sample_now) =
  7%nat.
Proof.
  cbv zeta.
  assert (F : report_markup_free sample_host Z_toString
                (get_report [sample_order] sample_now (Some "daily")) sample_now = true)
    by (vm_compute; reflexivity).
  split; [exact F|].
  pose proof (sales_report_document sample_host Z_toString
                (get_report [sample_order] sample_now (Some "daily")) sample_now F) as P.
  cbv zeta in P. destruct P as (P & _). rewrite P. vm_compute. reflexivity.
Defined.

(** In production "https://pizza.example.com" and what begins with it
    pass, localhost does not. *)
Example cors_origin_examples :
  map (cors_origin sample_env)
      [None; Some "https://pizza.example.com"; Some "https://admin.example.com";
       Some "https://pizza.example.com.evil.net"; Some "https://x.vercel.app";
       Some "http://localhost:3000"; Some "https://evil.net"] =
  [true; true; true; true; true; false; false].
Proof. vm_compute. reflexivity. Qed.

(** A path id that is no ObjectId is answered 500 by GET, DELETE and PUT,
    with the collection as it was; the id of "SAVE10" in 24 hexadecimal
    digits is found, and the next one is not. *)
Example offer_routes_by_id :
  get_offer_route sample_host store_save10 "abc" =
    respond 500 (ErrorMessage CastError) /\
  delete_offer_route sample_host store_save10 "abc" =
    (respond 500 (ErrorMessage CastError), store_save10) /\
  put_offer_route sample_host store_save10 sample_now "abc"
    (req_body discount_update) None =
    (respond 500 (ErrorMessage CastError), store_save10) /\
  get_offer_route sample_host store_save10 "000000000000000000000000" =
    respond 200 (OfferJson offer_save10) /\
  status (get_offer_route sample_host store_save10 "000000000000000000000001") = 404 /\
  status (fst (delete_offer_route sample_host store_save10
                 "000000000000000000000000")) = 200.
Proof. vm_compute. repeat split. Qed.

(** Amounts are doubles.  28.5 is one; 1.005 is read as the double below
    it, and is written 1.00; three times 1.005 is written 3.01; the
    orders of 5.00 and 5.45 sell 10.45 and average 5.22; and the one
    order of 1.005 sells 1. *)
Example amount_examples :
  amount (57 # 2) = Fin (57 # 2) /\
  number_toFixed2 (amount (1005 # 1000)) = "1.00" /\
  number_toFixed2 (num_mul (amount (1005 # 1000)) (amount 3)) = "3.01" /\
  (let s := summarize [order_of_total 5; order_of_total (545 # 100)] in
   number_toFixed2 (totalSales s) = "10.45" /\
   number_toFixed2 (averageOrderValue s) = "5.22" /\
   totalSales s = amount (1045 # 100) /\
   averageOrderValue s = amount (522 # 100)) /\
  totalSales (summarize [order_of_total (1005 # 1000)]) = Fin 1.
Proof. vm_compute. repeat split. Qed.

(** The statistics count an order dated in the future, the report does
    not. *)
Example stats_future_order :
  let later := Order.mk "65a1f0c2e4b0a1b2c3d4e5f8" "Eve" "eve@example.org" "pickup"
                 None [Item.mk "Pizza" 1 10] None 10 "Pending" "completed"
                 (sample_now + 40 * msPerDay) in
  let db := [sample_order; later] in
  Stats.orders (Stats.today (get_stats sales_total db sample_now)) = 2%nat /\
  totalOrders (summary (get_report db sample_now (Some "daily"))) = 1%nat /\
  Stats.sales (Stats.today (get_stats sales_total db sample_now)) = Fin (77 # 2).
Proof. vm_compute. repeat split. Qed.
